(** * viki: the job registry and the job runner ([app/classes/jobs.py])

    A shallow embedding of the [Jobs] class.  The class keeps no state of
    its own besides three constant paths; everything it does goes through
    the file system, the [subprocess] module and a few library calls.  The
    embedding therefore threads an explicit [world] through every method:

    - the file system is a tree of directories and regular files, looked up
      by canonical paths (lists of names) after a POSIX-style resolution of
      the path string ([.], [..], repeated and trailing slashes);
      permissions, symbolic links, name-length limits and a full disk are
      outside the model;
    - Python exceptions are values of type [exn]; a method either returns,
      raises, or does not come back (a child process that never exits);
    - library functions whose text is not part of the repository
      ([ast.literal_eval], [json.dumps], [json.loads], the random source
      behind [uuid.uuid4], and what an arbitrary shell command does) are
      fields of an environment record [env], over which every statement is
      universally quantified. *)

From stdpp Require Import gmap strings list fin_maps.
From Stdlib Require Import ZArith NArith Ascii String.

#[local] Set Warnings "-register-all".
#[local] Open Scope string_scope.

(** ** Strings and path strings *)

Definition slash : ascii := "/"%char.
Definition nul : ascii := "000"%char.

(** Cut a string at every separator character: always at least one word,
    empty words kept. *)
Fixpoint split_by (is_sep : ascii -> bool) (s : string) : list string :=
  match s with
  | EmptyString => [EmptyString]
  | String c s' =>
      if is_sep c then EmptyString :: split_by is_sep s'
      else match split_by is_sep s' with
           | [] => [String c EmptyString]
           | w :: ws => String c w :: ws
           end
  end.

(** [s.split(sep)] for a one-character separator. *)
Definition split_on (sep : ascii) (s : string) : list string :=
  split_by (fun c => Ascii.eqb c sep) s.

Fixpoint all_chars (p : ascii -> bool) (s : string) : bool :=
  match s with
  | EmptyString => true
  | String c s' => p c && all_chars p s'
  end.

Fixpoint occurs (c : ascii) (s : string) : bool :=
  match s with
  | EmptyString => false
  | String c' s' => Ascii.eqb c' c || occurs c s'
  end.

Definition nonempty (s : string) : bool :=
  match s with EmptyString => false | _ => true end.

(** Drop the empty words a path string ends with (trailing slashes). *)
Fixpoint drop_trailing_empty (comps : list string) : list string :=
  match comps with
  | [] => []
  | c :: rest =>
      match drop_trailing_empty rest with
      | [] => if nonempty c then [c] else []
      | rest' => c :: rest'
      end
  end.

(** ** The file system *)

Inductive node :=
  | File (data : string)
  | Dir (children : gmap string node).

Inductive kind := KFile | KDir.

#[global] Instance kind_eq_dec : EqDecision kind.
Proof. solve_decision. Defined.

(** Canonical paths: the names from the root down. *)
Abbreviation cpath := (list string).

Fixpoint find (n : node) (p : cpath) : option node :=
  match p with
  | [] => Some n
  | c :: p' =>
      match n with
      | File _ => None
      | Dir ch => match ch !! c with
                  | Some n' => find n' p'
                  | None => None
                  end
      end
  end.

Definition kind_of (n : node) : kind :=
  match n with File _ => KFile | Dir _ => KDir end.

Definition kind_at (n : node) (p : cpath) : option kind :=
  kind_of <$> find n p.

Definition is_dir (n : node) (p : cpath) : bool :=
  match find n p with Some (Dir _) => true | _ => false end.

Definition is_file (n : node) (p : cpath) : bool :=
  match find n p with Some (File _) => true | _ => false end.

Definition read_at (n : node) (p : cpath) : option string :=
  match find n p with Some (File d) => Some d | _ => None end.

(** Replace (or create, or remove) the entry at [p]; the directories above
    [p] must exist, otherwise nothing changes.  The root is never replaced. *)
Fixpoint update (p : cpath) (f : option node -> option node) (n : node) : node :=
  match p with
  | [] => n
  | c :: p' =>
      match n with
      | File _ => n
      | Dir ch =>
          match p' with
          | [] => Dir (partial_alter f c ch)
          | _ :: _ => Dir (alter (update p' f) c ch)
          end
      end
  end.

Definition parent (p : cpath) : cpath := removelast p.

Inductive errno := ENOENT | ENOTDIR | EEXIST | EISDIR.

(** Pathname resolution from the directory [cur]: every component is looked
    up in a directory that must exist; [..] of the root is the root. *)
Fixpoint walk (root : node) (cur : cpath) (comps : list string) : errno + cpath :=
  match comps with
  | [] => inr cur
  | c :: rest =>
      match find root cur with
      | None => inl ENOENT
      | Some (File _) => inl ENOTDIR
      | Some (Dir _) =>
          if decide (c = "" ∨ c = ".") then walk root cur rest
          else if decide (c = "..") then walk root (parent cur) rest
          else walk root (cur ++ [c]) rest
      end
  end.

(** ** The world a method runs in *)

Record world := World {
  fs : node;              (* the file system *)
  cwd : cpath;            (* working directory of the interpreter *)
  drawn : nat;            (* how many random UUIDs were drawn so far *)
  ran : list string       (* ghost: the commands started by Popen, oldest first *)
}.

Definition with_fs (w : world) (n : node) : world :=
  {| fs := n; cwd := cwd w; drawn := drawn w; ran := ran w |}.

Definition is_absolute (path : string) : bool :=
  match path with String c _ => Ascii.eqb c slash | EmptyString => false end.

Definition start_of (w : world) (path : string) : cpath :=
  if is_absolute path then [] else cwd w.

(** Resolution of a path string; the empty path names nothing. *)
Definition resolve (w : world) (path : string) : errno + cpath :=
  if nonempty path then walk (fs w) (start_of w path) (split_on slash path)
  else inl ENOENT.

(** [mkdir(2)] accepts trailing slashes after the name to create. *)
Definition resolve_new (w : world) (path : string) : errno + cpath :=
  if nonempty path
  then walk (fs w) (start_of w path) (drop_trailing_empty (split_on slash path))
  else inl ENOENT.

Definition path_kind (w : world) (path : string) : option kind :=
  if occurs nul path then None
  else match resolve w path with
       | inr p => kind_at (fs w) p
       | inl _ => None
       end.

(** ** Python values and exceptions *)

(** The values that flow through the class: what JSON can hold.  A [dict]
    is an association list in insertion order, keyed by strings. *)
Inductive pyval :=
  | PNone
  | PBool (b : bool)
  | PInt (n : Z)
  | PStr (s : string)
  | PList (xs : list pyval)
  | PDict (kvs : list (string * pyval)).

(** Exception classes; a subclass raised by the library is filed under the
    class the handlers of this module name ([FileNotFoundError] under
    [OSError], [json.JSONDecodeError] under [ValueError], ...). *)
Inductive exn_class :=
  | OSError | ValueError | SystemError | KeyError | TypeError
  | SyntaxError | StopIteration | CalledProcessError
  | RuntimeError | MemoryError.

#[global] Instance exn_class_eq_dec : EqDecision exn_class.
Proof. solve_decision. Defined.

Record exn := Exn { cls : exn_class; str_of : string }.

(** The three ways a call can end. *)
Inductive result (A : Type) :=
  | Ret (a : A) (w : world)
  | Raise (e : exn) (w : world)
  | Hang.

Arguments Ret {A} a w.
Arguments Raise {A} e w.
Arguments Hang {A}.

Definition M (A : Type) : Type := world -> result A.

Definition ret {A} (a : A) : M A := fun w => Ret a w.

Definition raise {A} (c : exn_class) (msg : string) : M A :=
  fun w => Raise (Exn c msg) w.

Definition bind {A B} (m : M A) (k : A -> M B) : M B :=
  fun w => match m w with
           | Ret a w' => k a w'
           | Raise e w' => Raise e w'
           | Hang => Hang
           end.

Notation "'let*' x ':=' m 'in' k" := (bind m (fun x => k))
  (at level 10, x pattern, m at level 200, k at level 200,
   format "'[v' 'let*'  x  ':='  m  'in' '/' k ']'").
Notation "m ;;; k" := (bind m (fun _ => k))
  (at level 100, k at level 200, right associativity,
   format "'[v' m  ;;; '/' k ']'").

(** [try: body except classes as error: handler error] *)
Definition try_except {A} (body : M A) (classes : list exn_class)
    (handler : exn -> M A) : M A :=
  fun w => match body w with
           | Raise e w' =>
               if bool_decide (cls e ∈ classes) then handler e w' else Raise e w'
           | r => r
           end.

(** Truthiness, as tested by [not x]. *)
Definition truthy (v : pyval) : bool :=
  match v with
  | PNone => false
  | PBool b => b
  | PInt n => negb (n =? 0)%Z
  | PStr s => nonempty s
  | PList xs => match xs with [] => false | _ => true end
  | PDict kvs => match kvs with [] => false | _ => true end
  end.

Fixpoint assoc (k : string) (kvs : list (string * pyval)) : option pyval :=
  match kvs with
  | [] => None
  | (k', v) :: rest => if decide (k' = k) then Some v else assoc k rest
  end.

(** [d[k] = v] on an insertion-ordered dict. *)
Fixpoint assoc_set (k : string) (v : pyval) (kvs : list (string * pyval))
    : list (string * pyval) :=
  match kvs with
  | [] => [(k, v)]
  | (k', v') :: rest =>
      if decide (k' = k) then (k, v) :: rest else (k', v') :: assoc_set k v rest
  end.

Definition dquote : string := String (ascii_of_nat 34) EmptyString.

(** [repr] of a string, exact when the string holds no quote, backslash or
    unprintable character. *)
Definition py_repr (s : string) : string := "'" +:+ s +:+ "'".

(** [v[key]] for a string key. *)
Definition getitem (v : pyval) (key : string) : M pyval :=
  match v with
  | PDict kvs =>
      match assoc key kvs with
      | Some x => ret x
      | None => raise KeyError (py_repr key)
      end
  | PStr _ => raise TypeError "string indices must be integers"
  | PList _ => raise TypeError "list indices must be integers or slices, not str"
  | PNone => raise TypeError "'NoneType' object is not subscriptable"
  | PBool _ => raise TypeError "'bool' object is not subscriptable"
  | PInt _ => raise TypeError "'int' object is not subscriptable"
  end.

(** [v[key] = x] for a string key. *)
Definition setitem (v : pyval) (key : string) (x : pyval) : M pyval :=
  match v with
  | PDict kvs => ret (PDict (assoc_set key x kvs))
  | PStr _ => raise TypeError "'str' object does not support item assignment"
  | PList _ => raise TypeError "list indices must be integers or slices, not str"
  | PNone => raise TypeError "'NoneType' object does not support item assignment"
  | PBool _ => raise TypeError "'bool' object does not support item assignment"
  | PInt _ => raise TypeError "'int' object does not support item assignment"
  end.

Fixpoint chars (s : string) : list pyval :=
  match s with
  | EmptyString => []
  | String c s' => PStr (String c EmptyString) :: chars s'
  end.

(** The items a [for] loop visits. *)
Definition py_iter (v : pyval) : M (list pyval) :=
  match v with
  | PList xs => ret xs
  | PStr s => ret (chars s)
  | PDict kvs => ret (PStr <$> kvs.*1)
  | PNone => raise TypeError "'NoneType' object is not iterable"
  | PBool _ => raise TypeError "'bool' object is not iterable"
  | PInt _ => raise TypeError "'int' object is not iterable"
  end.

(** [a + b] where [a] is a [str] and [b] may be [None]. *)
Definition str_concat (a : string) (b : option string) : M string :=
  match b with
  | Some s => ret (a +:+ s)
  | None => raise TypeError
              ("can only concatenate str (not " +:+ dquote +:+ "NoneType"
               +:+ dquote +:+ ") to str")
  end.

(** ** The environment: library code and the machine *)

Record env := Env {
  (* [ast.literal_eval] *)
  literal_eval : string -> exn + pyval;
  (* [json.dumps] and [json.loads] *)
  json_dumps : pyval -> exn + string;
  json_loads : string -> exn + pyval;
  (* the n-th 16 random bytes read by [uuid.uuid4], as a number *)
  urandom : nat -> N;
  (* why /bin/bash could not be started on a command line, if it could not *)
  spawn_error : string -> world -> option exn;
  (* what a command line does once started: exit status (negative when
     killed by a signal), combined output, file system afterwards; [None]
     when it never exits *)
  shell : string -> world -> option (Z * string * node)
}.

Definition lift {A} (r : exn + A) : M A :=
  fun w => match r with inl e => Raise e w | inr a => Ret a w end.

(** *** [os] and [open] *)

Definition strerror (e : errno) : string :=
  match e with
  | ENOENT => "[Errno 2] No such file or directory"
  | ENOTDIR => "[Errno 20] Not a directory"
  | EEXIST => "[Errno 17] File exists"
  | EISDIR => "[Errno 21] Is a directory"
  end.

Definition os_error (e : errno) (path : string) : exn :=
  Exn OSError (strerror e +:+ ": " +:+ py_repr path).

Definition embedded_nul : exn := Exn ValueError "embedded null byte".

Definition os_path_exists (path : string) : M bool :=
  fun w => Ret (match path_kind w path with Some _ => true | None => false end) w.

Definition os_path_isdir (path : string) : M bool :=
  fun w => Ret (match path_kind w path with Some KDir => true | _ => false end) w.

Definition os_path_isfile (path : string) : M bool :=
  fun w => Ret (match path_kind w path with Some KFile => true | _ => false end) w.

Definition os_mkdir (path : string) : M unit :=
  fun w =>
    if occurs nul path then Raise embedded_nul w
    else match resolve_new w path with
         | inl e => Raise (os_error e path) w
         | inr p =>
             match find (fs w) p with
             | Some _ => Raise (os_error EEXIST path) w
             | None => Ret tt (with_fs w (update p (fun _ => Some (Dir ∅)) (fs w)))
             end
         end.

Inductive mode := mode_r | mode_w | mode_a.

(** [open(path, mode)]; the file object is the canonical path it opened. *)
Definition open_ (path : string) (m : mode) : M cpath :=
  fun w =>
    if occurs nul path then Raise embedded_nul w
    else match resolve w path with
         | inl e => Raise (os_error e path) w
         | inr p =>
             match find (fs w) p, m with
             | Some (Dir _), _ => Raise (os_error EISDIR path) w
             | Some (File _), mode_w =>
                 Ret p (with_fs w (update p (fun _ => Some (File "")) (fs w)))
             | Some (File _), _ => Ret p w
             | None, mode_r => Raise (os_error ENOENT path) w
             | None, _ =>
                 Ret p (with_fs w (update p (fun _ => Some (File "")) (fs w)))
             end
         end.

Definition append_data (data : string) (o : option node) : option node :=
  match o with
  | Some (File d) => Some (File (d +:+ data))
  | other => other
  end.

(** Writing through a descriptor opened with [w] (once, right after the
    truncation) or with [a]: the bytes go to the end of the file, if the
    file is still there. *)
Definition file_write (h : cpath) (data : string) : M unit :=
  fun w => Ret tt (with_fs w (update h (append_data data) (fs w))).

Definition file_read (h : cpath) : M string :=
  fun w => Ret (default "" (read_at (fs w) h)) w.

(** The first triple [os.walk(top)] yields.  [os.walk] swallows the error
    of listing [top], so the generator is then exhausted at once. *)
Definition os_walk_next (top : string) : M (string * list string * list string) :=
  fun w =>
    if occurs nul top then Raise embedded_nul w
    else match resolve w top with
         | inr p =>
             match find (fs w) p with
             | Some (Dir ch) =>
                 Ret (top,
                      (map_to_list (filter (fun kv => kind_of kv.2 = KDir) ch)).*1,
                      (map_to_list (filter (fun kv => kind_of kv.2 = KFile) ch)).*1) w
             | _ => Raise (Exn StopIteration "") w
             end
         | inl _ => Raise (Exn StopIteration "") w
         end.

(** *** [uuid] *)

Definition hex_digit (d : N) : ascii :=
  match String.get (N.to_nat (d mod 16)) "0123456789abcdef" with
  | Some c => c
  | None => "0"%char
  end.

(** The [k] low hexadecimal digits of [x], most significant first. *)
Fixpoint hex_fixed (k : nat) (x : N) : string :=
  match k with
  | O => EmptyString
  | S k' => String (hex_digit (N.shiftr x (4 * N.of_nat k'))) (hex_fixed k' x)
  end.

(** [UUID(bytes=..., version=4)]: variant and version bits forced. *)
Definition uuid_v4 (bytes : N) : N :=
  let i := (bytes mod 2 ^ 128)%N in
  let i := N.ldiff i (N.shiftl 0xc000 48) in
  let i := N.lor i (N.shiftl 0x8000 48) in
  let i := N.ldiff i (N.shiftl 0xf000 64) in
  N.lor i (N.shiftl 4 76).

(** [str(u)]: 8-4-4-4-12 hexadecimal digits. *)
Definition uuid_str (u : N) : string :=
  hex_fixed 8 (N.shiftr u 96) +:+ "-" +:+ hex_fixed 4 (N.shiftr u 80) +:+ "-"
  +:+ hex_fixed 4 (N.shiftr u 64) +:+ "-" +:+ hex_fixed 4 (N.shiftr u 48) +:+ "-"
  +:+ hex_fixed 12 u.

Definition uuid4 (E : env) : M N :=
  fun w => Ret (uuid_v4 (urandom E (drawn w)))
               {| fs := fs w; cwd := cwd w; drawn := S (drawn w);
                  ran := ran w |}.

(** *** [subprocess] *)

Definition log_ran (command : string) (w : world) : world :=
  {| fs := fs w; cwd := cwd w; drawn := drawn w;
     ran := ran w ++ [command] |}.

Definition blank (c : ascii) : bool :=
  Ascii.eqb c " "%char || Ascii.eqb c (ascii_of_nat 9).

Definition in_range (lo hi : nat) (c : ascii) : bool :=
  Nat.leb lo (nat_of_ascii c) && Nat.leb (nat_of_ascii c) hi.

(** Characters the shell takes literally wherever they stand in a word. *)
Definition plain_char (c : ascii) : bool :=
  in_range 97 122 c || in_range 65 90 c || in_range 48 57 c
  || occurs c "/._-+,:@%".

(** The words of a command line on which the shell has nothing to do but
    to cut it at blanks; [None] for any other command line. *)
Definition shell_words (cmdline : string) : option (list string) :=
  if all_chars (fun c => plain_char c || blank c) cmdline
  then Some (List.filter nonempty (split_by blank cmdline))
  else None.

Definition starts_with_dash (s : string) : bool :=
  match s with String c _ => Ascii.eqb c "-"%char | EmptyString => false end.

(** The operands of a command line of the form [rm -rf operand ...]. *)
Definition rm_rf_operands (cmdline : string) : option (list string) :=
  match shell_words cmdline with
  | Some (c :: f :: ops) =>
      if bool_decide (c = "rm" ∧ f = "-rf")
         && forallb (fun o => negb (starts_with_dash o)) ops
      then Some ops else None
  | _ => None
  end.

Definition last_name (path : string) : string :=
  List.last (List.filter nonempty (split_on slash path)) "".

(** What [rm -rf] does with one operand: it refuses [.], [..] and the
    root, says nothing about a path that names nothing, and removes a file
    or a whole tree. *)
Definition rm_rf_one (w : world) (operand : string) : world :=
  if decide (last_name operand = "." ∨ last_name operand = "..") then w
  else match resolve w operand with
       | inr (c :: p) => with_fs w (update (c :: p) (fun _ => None) (fs w))
       | _ => w
       end.

(** [subprocess.call(['/bin/bash', '-c', cmdline])].  The exit status,
    which the only caller throws away, is not returned.  A command line
    of the form [rm -rf operand ...] is carried out here; any other is
    left to the environment. *)
Definition subprocess_call (E : env) (cmdline : string) : M unit :=
  fun w =>
    match spawn_error E cmdline w with
    | Some e => Raise e w
    | None =>
        match rm_rf_operands cmdline with
        | Some ops => Ret tt (foldl rm_rf_one w ops)
        | None =>
            match shell E cmdline w with
            | Some (_, _, n') => Ret tt (with_fs w n')
            | None => Hang
            end
        end
    end.

(** [subprocess.Popen(['/bin/bash', '-xc', command], stdout=out,
    stderr=STDOUT)] followed by the loop that polls until the child has
    exited.  The child's output goes to the end of the file behind [out].
    A child that never exits keeps the loop spinning. *)
Definition popen_and_poll (E : env) (command : string) (out : cpath) : M Z :=
  fun w =>
    match spawn_error E command w with
    | Some e => Raise e w
    | None =>
        match shell E command w with
        | Some (return_code, output, n') =>
            Ret return_code
                (log_ran command
                   (with_fs w (update out (append_data output) n')))
        | None => Hang
        end
    end.

(** [json.loads(v)]: only text can be decoded. *)
Definition py_json_loads (E : env) (v : pyval) : M pyval :=
  match v with
  | PStr s => lift (json_loads E s)
  | _ => raise TypeError "the JSON object must be str, bytes or bytearray"
  end.

(** [file_obj.write(v)]: only text can be written. *)
Definition as_text (v : pyval) : M string :=
  match v with
  | PStr s => ret s
  | _ => raise TypeError "write() argument must be str"
  end.

Definition opt_str (o : option string) : pyval :=
  match o with Some s => PStr s | None => PNone end.

(** ** The class [Jobs] *)

Module Jobs.

(** *** [__init__] *)

Definition home : string := "/usr/local/viki".
Definition jobs_path : string := home +:+ "/" +:+ "jobs".
Definition job_config_filename : string := "config.json".

(** *** Internals *)

Definition _quote_string (string : String.string) (SingleQuote : bool)
    : String.string :=
  let quote := if SingleQuote then "'" else dquote in
  quote +:+ string +:+ quote.

Definition _write_job_file (E : env) (file : string) (text : pyval) : M bool :=
  if negb (nonempty file) || negb (truthy text) then ret false
  else
    let* file_obj := open_ file mode_w in
    let* data := lift (json_dumps E text) in
    file_write file_obj data ;;;
    ret true.

Definition _read_job_file (file : string) : M pyval :=
  if negb (nonempty file) then ret (PBool false)
  else
    let* file_obj := open_ file mode_r in
    let* contents := file_read file_obj in
    ret (PStr contents).

Definition _dirty_rm_rf (E : env) (dir : string) : M bool :=
  subprocess_call E ("rm -rf " +:+ dir) ;;;
  ret true.

Definition _run_shell_command (E : env) (command : pyval)
    (output_filename : string) : M (bool * Z) :=
  let* output_file_obj := open_ output_filename mode_a in
  let* u := uuid4 E in
  let sh_script_name := "viki-" +:+ uuid_str u in
  let* sh_script_obj := open_ sh_script_name mode_w in
  let* text := as_text command in
  file_write sh_script_obj text ;;;
  let* return_code := popen_and_poll E text output_file_obj in
  _dirty_rm_rf E sh_script_name ;;;
  ret (if (return_code =? 0)%Z then (true, return_code) else (false, return_code)).

(** *** Job functions *)

Definition get_jobs : M pyval :=
  let* (success, message, jobs_list) :=
    try_except
      (let* jobs_dir_ls := os_walk_next jobs_path in
       ret (1%Z, "Ok", jobs_dir_ls.1.2))
      [OSError]
      (fun error => ret (0%Z, str_of error, [])) in
  ret (PDict [("success", PInt success); ("message", PStr message);
              ("jobs", PList (PStr <$> jobs_list))]).

Definition get_job_by_name (name : option string) : M pyval :=
  let* (success, message, contents) :=
    try_except
      (match name with
       | None => raise ValueError "Missing required field: jobName"
       | Some _ => ret tt
       end ;;;
       let* job_dir := str_concat (jobs_path +:+ "/") name in
       let* d := os_path_isdir job_dir in
       let* e := (if d then os_path_exists (job_dir +:+ "/" +:+ job_config_filename)
             else ret false) in
       if e then
         let* contents := _read_job_file (job_dir +:+ "/" +:+ job_config_filename) in
         ret (1%Z, "Ok", contents)
       else raise OSError "Job directory not found")
      [OSError; ValueError]
      (fun error => ret (0%Z, str_of error, PStr "")) in
  ret (PDict [("success", PInt success); ("message", PStr message);
              ("name", opt_str name); ("config_json", contents)]).

Definition create_job (E : env) (new_name : option string) (json_text : pyval)
    : M pyval :=
  let* (success, message) :=
    try_except
      (let* job_dir := str_concat (jobs_path +:+ "/") new_name in
       let job_filename := job_dir +:+ "/" +:+ job_config_filename in
       let* present := os_path_exists job_dir in
       (if present then raise SystemError "Job directory already exists"
        else os_mkdir job_dir) ;;;
       let* json_text := (match json_text with
                     | PStr s => lift (literal_eval E s)
                     | _ => ret json_text
                     end) in
       let* description := getitem json_text "description" in
       (if negb (truthy description) then raise ValueError "Missing description"
        else ret tt) ;;;
       let* steps := getitem json_text "steps" in
       (if negb (truthy steps) then raise ValueError "Missing steps"
        else ret tt) ;;;
       let* json_text := setitem json_text "runNumber" (PInt 0) in
       let* json_text := setitem json_text "lastSuccessfulRun" (PInt 0) in
       let* json_text := setitem json_text "lastFailedRun" (PInt 0) in
       let* json_text := setitem json_text "name" (opt_str new_name) in
       _write_job_file E job_filename json_text ;;;
       ret (1%Z, "Job created successfully"))
      [ValueError; SystemError]
      (fun error => ret (0%Z, str_of error)) in
  ret (PDict [("success", PInt success); ("message", PStr message)]).

Definition update_job (E : env) (name : option string) : M pyval :=
  let success := 1%Z in
  let message := "-- Under Construction --" in
  let job_filename := "Placeholder" in
  let* present := os_path_exists job_filename in
  (if present then _dirty_rm_rf E job_filename else ret true) ;;;
  ret (PDict [("success", PInt success); ("message", PStr message)]).

(** The [for] loop of [run_job].  [return_code] is read again after the
    [try] statement, so the loop hands back its last value together with
    the exception that ended it, if one did. *)
Fixpoint run_steps (E : env) (jobSteps : list pyval) (filename : string)
    (return_code : Z) : M (Z * option exn) :=
  match jobSteps with
  | [] => ret (return_code, None)
  | step :: rest =>
      fun w =>
        match _run_shell_command E step filename w with
        | Ret (successBool, return_code') w' =>
            if negb successBool
            then Ret (return_code', Some (Exn SystemError "Build step failed")) w'
            else run_steps E rest filename return_code' w'
        | Raise e w' => Ret (return_code, Some e) w'
        | Hang => Hang
        end
  end.

(** The body of the [try] statement of [run_job], in the same convention. *)
Definition run_try (E : env) (job_dir job_config_json_file : string)
    (return_code : Z) : M (Z * option exn) :=
  fun w =>
    match
      (let* d := os_path_isdir job_dir in
       (if negb d then raise OSError "Job not found" else ret tt) ;;;
       let* f := os_path_isfile job_config_json_file in
       (if negb f then raise OSError "Job file not found" else ret tt) ;;;
       let* text := _read_job_file job_config_json_file in
       let* job_json := py_json_loads E text in
       (match job_json with
        | PBool false | PNone => raise OSError "Job file could not be read"
        | _ => ret tt
        end) ;;;
       let filename := job_dir +:+ "/" +:+ "output.txt" in
       let* jobSteps := getitem job_json "steps" in
       let* items := py_iter jobSteps in
       ret (filename, items)) w
    with
    | Ret (filename, items) w' => run_steps E items filename return_code w'
    | Raise e w' => Ret (return_code, Some e) w'
    | Hang => Hang
    end.

Definition run_job (E : env) (name : option string) : M pyval :=
  let* job_dir := str_concat (jobs_path +:+ "/") name in
  let job_config_json_file := job_dir +:+ "/" +:+ "config.json" in
  let* u := uuid4 E in
  let tmp_cwd := "/tmp/viki-" +:+ uuid_str u in
  os_mkdir tmp_cwd ;;;
  let* (return_code, pending) := run_try E job_dir job_config_json_file 0 in
  let* (success, message) :=
    match pending with
    | None => ret (1%Z, "Run successful")
    | Some error =>
        if bool_decide (cls error ∈ [OSError; CalledProcessError; SystemError])
        then ret (0%Z, str_of error)
        else if bool_decide (cls error = KeyError)
        then ret (0%Z, "Job has no steps")
        else fun w => Raise error w
    end in
  _dirty_rm_rf E tmp_cwd ;;;
  ret (PDict [("success", PInt success); ("message", PStr message);
              ("return_code", PInt return_code)]).

Definition delete_job (E : env) (name : option string) : M pyval :=
  let* (success, message) :=
    try_except
      (match name with
       | None => raise ValueError "Missing job name"
       | Some _ => ret tt
       end ;;;
       let* job_dir := str_concat (jobs_path +:+ "/") name in
       let* d := os_path_isdir job_dir in
       (if negb d then raise OSError "Job not found" else ret tt) ;;;
       _dirty_rm_rf E job_dir ;;;
       ret (1%Z, "Job deleted"))
      [OSError; ValueError]
      (fun error => ret (0%Z, str_of error)) in
  ret (PDict [("success", PInt success); ("message", PStr message)]).

End Jobs.

(** ** Vocabulary of the statements *)

(** What can be seen of an entry without descending into it. *)
Definition shallow (n : node) : node :=
  match n with File d => File d | Dir _ => Dir ∅ end.

Definition shallow_at (n : node) (p : cpath) : option node :=
  shallow <$> find n p.

(** A name that is one directory entry: not empty, no slash, no NUL, and
    neither [.] nor [..]. *)
Definition simple_name (c : string) : bool :=
  nonempty c && negb (occurs slash c) && negb (occurs nul c)
  && bool_decide (c ≠ "." ∧ c ≠ "..").

Definition jobs_root : cpath := ["usr"; "local"; "viki"; "jobs"].
Definition job_key (name : string) : cpath := jobs_root ++ [name].
Definition config_key (name : string) : cpath := jobs_root ++ [name; "config.json"].
Definition output_key (name : string) : cpath := jobs_root ++ [name; "output.txt"].

Definition job_dir_of (name : string) : string := (Jobs.jobs_path +:+ "/") +:+ name.

(** The characters of a printed UUID. *)
Definition uuid_char (c : ascii) : bool := occurs c "0123456789abcdef-".

(** A path component that is an ordinary name. *)
Definition ordinary (c : string) : Prop := c ≠ "" ∧ c ≠ "." ∧ c ≠ "..".
Definition output_of (name : string) : string := job_dir_of name +:+ "/" +:+ "output.txt".

(** The world after one more UUID was drawn. *)
Definition drew (w : world) : world :=
  {| fs := fs w; cwd := cwd w; drawn := S (drawn w); ran := ran w |}.

(** Where that scratch directory lies, and the world right after it was
    made. *)
Definition tmp_key (E : env) (w : world) : cpath :=
  ["tmp"; "viki-" +:+ uuid_str (uuid_v4 (urandom E (drawn w)))].

Definition allocated (E : env) (w : world) : world :=
  {| fs := update (tmp_key E w) (fun _ => Some (Dir ∅)) (fs w);
     cwd := cwd w; drawn := S (drawn w); ran := ran w |}.

(** What the handlers of [run_job] make of the way its [try] body ended:
    the success flag and the message, or nothing when the exception is
    none of theirs. *)
Definition run_verdict (pending : option exn) : option (Z * string) :=
  match pending with
  | None => Some (1%Z, "Run successful")
  | Some error =>
      if bool_decide (cls error ∈ [OSError; CalledProcessError; SystemError])
      then Some (0%Z, str_of error)
      else if bool_decide (cls error = KeyError)
      then Some (0%Z, "Job has no steps")
      else None
  end.

(** The record [create_job] persists for a definition [kvs]. *)
Definition record_of (name : string) (kvs : list (string * pyval))
    : list (string * pyval) :=
  assoc_set "name" (PStr name)
    (assoc_set "lastFailedRun" (PInt 0)
       (assoc_set "lastSuccessfulRun" (PInt 0)
          (assoc_set "runNumber" (PInt 0) kvs))).

(** The scratch directory of the run that draws the next UUID in [w]. *)
Definition tmp_cwd_of (E : env) (w : world) : string :=
  "/tmp/viki-" +:+ uuid_str (uuid_v4 (urandom E (drawn w))).

(** The file at [K] reads the same in both worlds. *)
Definition keeps (K : cpath) (w w' : world) : Prop :=
  read_at (fs w') K = read_at (fs w) K.

(** Every directory of the first world is a directory of the second. *)
Definition dirs_kept (w w' : world) : Prop :=
  forall q, is_dir (fs w) q = true -> is_dir (fs w') q = true.

(** The world in which a call ended, when it ended. *)
Definition final_world {A} (r : result A) : option world :=
  match r with Ret _ w | Raise _ w => Some w | Hang => None end.

(** However the action ends, the world it leaves is related to the world
    it started in. *)
Definition respects {A} (R : relation world) (m : M A) : Prop :=
  forall w w', final_world (m w) = Some w' -> R w w'.

(** Same working directory, and no directory lost. *)
Definition tame (w w' : world) : Prop := cwd w' = cwd w ∧ dirs_kept w w'.

(** Same working directory, and the same text in the file at [K]. *)
Definition sparing (K : cpath) (w w' : world) : Prop :=
  cwd w' = cwd w ∧ keeps K w w'.

(** Every command of the list, run in turn through the Command Runner with
    the given output file, exits with status 0. *)
Inductive all_pass (E : env) (filename : string)
    : list string -> world -> world -> Prop :=
  | all_pass_nil w : all_pass E filename [] w w
  | all_pass_cons c cs w w1 w2 :
      Jobs._run_shell_command E (PStr c) filename w = Ret (true, 0%Z) w1 ->
      all_pass E filename cs w1 w2 ->
      all_pass E filename (c :: cs) w w2.

(** The name of the script the Command Runner writes when it is called
    in [w]: [viki-] and the next UUID. *)
Definition script_of (E : env) (w : world) : string :=
  "viki-" +:+ uuid_str (uuid_v4 (urandom E (drawn w))).

(** A command line that, whenever it runs to its end, leaves the file at
    [K] as it was. *)
Definition harmless (E : env) (K : cpath) (c : string) : Prop :=
  forall w rc out n', shell E c w = Some (rc, out, n') -> read_at n' K = read_at (fs w) K.

(** The log of started commands has only grown, and if the commands it
    has grown by are harmless for [K], the working directory is the same
    and so is the text in the file at [K]. *)
Definition sparing_started (E : env) (K : cpath) (w w' : world) : Prop :=
  exists started,
    ran w' = (ran w ++ started)%list
    ∧ (Forall (harmless E K) started -> sparing K w w').

(** The one-character strings a [for] loop over a string visits. *)
Fixpoint letters (s : string) : list string :=
  match s with
  | EmptyString => []
  | String c s' => String c EmptyString :: letters s'
  end.

(** ** A concrete environment

    One instance of [env], used to run the methods on concrete inputs: a
    JSON printer and reader for the values of [pyval] (text limited to
    ASCII, numbers to integers), a counter for the random source, and a
    shell that knows [true] and [false]. *)

Module Demo.

Definition newline : string := String (ascii_of_nat 10) EmptyString.
Definition backslash : ascii := ascii_of_nat 92.
Definition quote_char : ascii := ascii_of_nat 34.

Fixpoint escape (s : string) : string :=
  match s with
  | EmptyString => EmptyString
  | String c s' =>
      if Ascii.eqb c quote_char || Ascii.eqb c backslash
      then String backslash (String c (escape s'))
      else if Ascii.eqb c (ascii_of_nat 10)
      then String backslash (String "n" (escape s'))
      else String c (escape s')
  end.

Definition digit_char (d : nat) : ascii := ascii_of_nat (48 + d).

Fixpoint nat_digits (fuel n : nat) (acc : string) : string :=
  match fuel with
  | O => acc
  | S fuel' =>
      let acc' := String (digit_char (n mod 10)) acc in
      if Nat.eqb (n / 10) 0 then acc' else nat_digits fuel' (n / 10) acc'
  end.

Definition int_text (z : Z) : string :=
  let n := Z.to_nat (Z.abs z) in
  (if (z <? 0)%Z then "-" else "") +:+ nat_digits (S n) n "".

Definition join (sep : string) (ws : list string) : string :=
  match ws with
  | [] => ""
  | w :: rest => fold_left (fun acc x => acc +:+ sep +:+ x) rest w
  end.

Fixpoint dumps (v : pyval) : string :=
  match v with
  | PNone => "null"
  | PBool true => "true"
  | PBool false => "false"
  | PInt n => int_text n
  | PStr s => dquote +:+ escape s +:+ dquote
  | PList xs => "[" +:+ join ", " (List.map dumps xs) +:+ "]"
  | PDict kvs =>
      "{" +:+ join ", " (List.map (fun kv => dquote +:+ escape kv.1 +:+ dquote
                                             +:+ ": " +:+ dumps kv.2) kvs)
      +:+ "}"
  end.

Fixpoint skip_ws (s : string) : string :=
  match s with
  | String c s' => if blank c || Ascii.eqb c (ascii_of_nat 10) then skip_ws s' else s
  | EmptyString => s
  end.

(** The text of a string literal after its opening quote. *)
Fixpoint read_string (s : string) : option (string * string) :=
  match s with
  | EmptyString => None
  | String c s' =>
      if Ascii.eqb c quote_char then Some (EmptyString, s')
      else if Ascii.eqb c backslash then
        match s' with
        | String e s'' =>
            let c' := if Ascii.eqb e "n"%char then ascii_of_nat 10 else e in
            match read_string s'' with
            | Some (t, rest) => Some (String c' t, rest)
            | None => None
            end
        | EmptyString => None
        end
      else match read_string s' with
           | Some (t, rest) => Some (String c t, rest)
           | None => None
           end
  end.

Fixpoint read_digits (s : string) (acc : option Z) : option Z * string :=
  match s with
  | String c s' =>
      if in_range 48 57 c
      then read_digits s' (Some (10 * default 0%Z acc + Z.of_nat (nat_of_ascii c - 48))%Z)
      else (acc, s)
  | EmptyString => (acc, s)
  end.

Definition strip_prefix (p s : string) : option string :=
  if String.prefix p s
  then Some (String.substring (String.length p) (String.length s - String.length p) s)
  else None.

Fixpoint read_value (fuel : nat) (s : string) : option (pyval * string) :=
  match fuel with
  | O => None
  | S fuel' =>
      let read_items :=
        fix items (n : nat) (s : string) : option (list pyval * string) :=
          match n with
          | O => None
          | S n' =>
              match read_value fuel' s with
              | Some (v, rest) =>
                  match skip_ws rest with
                  | String "," rest' =>
                      match items n' rest' with
                      | Some (vs, rest'') => Some (v :: vs, rest'')
                      | None => None
                      end
                  | String "]" rest' => Some ([v], rest')
                  | _ => None
                  end
              | None => None
              end
          end in
      let read_members :=
        fix members (n : nat) (s : string) : option (list (string * pyval) * string) :=
          match n with
          | O => None
          | S n' =>
              match skip_ws s with
              | String q s1 =>
                  if Ascii.eqb q quote_char then
                    match read_string s1 with
                    | Some (k, s2) =>
                        match skip_ws s2 with
                        | String ":" s3 =>
                            match read_value fuel' s3 with
                            | Some (v, rest) =>
                                match skip_ws rest with
                                | String "," rest' =>
                                    match members n' rest' with
                                    | Some (kvs, rest'') => Some ((k, v) :: kvs, rest'')
                                    | None => None
                                    end
                                | String "}" rest' => Some ([(k, v)], rest')
                                | _ => None
                                end
                            | None => None
                            end
                        | _ => None
                        end
                    | None => None
                    end
                  else None
              | EmptyString => None
              end
          end in
      match skip_ws s with
      | EmptyString => None
      | String c s' =>
          if Ascii.eqb c quote_char then
            match read_string s' with
            | Some (t, rest) => Some (PStr t, rest)
            | None => None
            end
          else if Ascii.eqb c "["%char then
            match skip_ws s' with
            | String "]" rest => Some (PList [], rest)
            | _ =>
                match read_items (String.length s') s' with
                | Some (vs, rest) => Some (PList vs, rest)
                | None => None
                end
            end
          else if Ascii.eqb c "{"%char then
            match skip_ws s' with
            | String "}" rest => Some (PDict [], rest)
            | _ =>
                match read_members (String.length s') s' with
                | Some (kvs, rest) => Some (PDict (fold_left (fun d kv => assoc_set kv.1 kv.2 d) kvs []), rest)
                | None => None
                end
            end
          else if Ascii.eqb c "-"%char then
            match read_digits s' None with
            | (Some n, rest) => Some (PInt (- n), rest)
            | (None, _) => None
            end
          else if in_range 48 57 c then
            match read_digits (String c s') None with
            | (Some n, rest) => Some (PInt n, rest)
            | (None, _) => None
            end
          else
            match strip_prefix "true" (String c s') with
            | Some rest => Some (PBool true, rest)
            | None =>
                match strip_prefix "false" (String c s') with
                | Some rest => Some (PBool false, rest)
                | None =>
                    match strip_prefix "null" (String c s') with
                    | Some rest => Some (PNone, rest)
                    | None => None
                    end
                end
            end
      end
  end.

Definition loads (s : string) : exn + pyval :=
  match read_value (S (String.length s)) s with
  | Some (v, rest) =>
      match skip_ws rest with
      | EmptyString => inr v
      | _ => inl (Exn ValueError "Extra data")
      end
  | None => inl (Exn ValueError "Expecting value")
  end.

(** The shell: [true] exits with 0, [false] with 1, anything else is a
    command that is not found; each echoes its command line first, as
    [bash -x] does. *)
Definition sh (cmdline : string) (w : world) : option (Z * string * node) :=
  Some (if decide (cmdline = "true") then 0%Z
        else if decide (cmdline = "false") then 1%Z else 127%Z,
        "+ " +:+ cmdline +:+ newline, fs w).

(** A machine on which /bin/bash starts. *)
Definition E : env :=
  {| literal_eval := fun _ => inl (Exn SyntaxError "invalid syntax");
     json_dumps := fun v => inr (dumps v);
     json_loads := loads;
     urandom := N.of_nat;
     spawn_error := fun _ _ => None;
     shell := sh |}.

(** A machine on which it does not. *)
Definition E_no_bash : env :=
  {| literal_eval := literal_eval E;
     json_dumps := json_dumps E;
     json_loads := json_loads E;
     urandom := urandom E;
     spawn_error := fun _ _ =>
       Some (Exn OSError "[Errno 2] No such file or directory: b'/bin/bash'");
     shell := sh |}.

Definition tree (entries : list (string * node)) : node :=
  Dir (list_to_map entries).

(** A freshly installed machine: an empty registry and an empty /tmp. *)
Definition fs0 : node :=
  tree [("usr", tree [("local", tree [("viki", tree [("jobs", tree [])])])]);
        ("tmp", tree [])].

Definition w0 : world :=
  {| fs := fs0; cwd := ["usr"; "local"; "viki"]; drawn := 0; ran := [] |}.

Definition world_after {A} (r : result A) : world :=
  match r with Ret _ w | Raise _ w => w | Hang => w0 end.

(** A job whose second step fails, and the machine once it is created. *)
Definition job1 : pyval :=
  PDict [("description", PStr "build");
         ("steps", PList [PStr "true"; PStr "false"; PStr "true"])].

Definition w1 : world := world_after (Jobs.create_job E (Some "j") job1 w0).

(** A machine on which the directory and the record of a job were put by
    hand. *)
Definition install (name text : string) (w : world) : world :=
  with_fs w
    (update ["usr"; "local"; "viki"; "jobs"; name; "config.json"]
       (fun _ => Some (File text))
       (update ["usr"; "local"; "viki"; "jobs"; name]
          (fun _ => Some (Dir ∅)) (fs w))).

(** A record without any step. *)
Definition record_no_steps : list (string * pyval) :=
  [("description", PStr "nothing to do"); ("steps", PList []);
   ("runNumber", PInt 0); ("lastSuccessfulRun", PInt 0);
   ("lastFailedRun", PInt 0); ("name", PStr "idle")].

Definition w_idle : world := install "idle" (dumps (PDict record_no_steps)) w0.

(** A record that is not JSON. *)
Definition w_corrupt : world := install "broken" "{" w0.

(** The run of the job [j]: the worlds after its first and after its
    second step, and the world the run leaves. *)
Definition j_output : string := "/usr/local/viki/jobs/j/output.txt".

Definition w1_true : world :=
  world_after (Jobs._run_shell_command E (PStr "true") j_output (allocated E w1)).

Definition w1_false : world :=
  world_after (Jobs._run_shell_command E (PStr "false") j_output w1_true).

Definition w2 : world := world_after (Jobs.run_job E (Some "j") w1).

(** A machine where viki was never installed. *)
Definition w_bare : world :=
  {| fs := tree [("tmp", tree [])]; cwd := []; drawn := 0; ran := [] |}.

(** A job whose steps all pass, the machine once it is created, and the
    worlds after its first and after its second step. *)
Definition job_ok : pyval :=
  PDict [("description", PStr "check"); ("steps", PList [PStr "true"; PStr "true"])].

Definition w_ok : world := world_after (Jobs.create_job E (Some "ok") job_ok w0).

Definition ok_output : string := "/usr/local/viki/jobs/ok/output.txt".

Definition w_ok_1 : world :=
  world_after (Jobs._run_shell_command E (PStr "true") ok_output (allocated E w_ok)).

Definition w_ok_2 : world :=
  world_after (Jobs._run_shell_command E (PStr "true") ok_output w_ok_1).

(** Machines on which a job is there in part only: a directory without a
    record, a record that is the JSON [null], a record without steps. *)
Definition w_hollow : world :=
  with_fs w0 (update ["usr"; "local"; "viki"; "jobs"; "hollow"]
                (fun _ => Some (Dir ∅)) (fs w0)).

Definition w_null : world := install "void" "null" w0.

Definition record_no_key : list (string * pyval) :=
  [("description", PStr "nothing said"); ("name", PStr "mute")].

Definition w_mute : world := install "mute" (dumps (PDict record_no_key)) w0.

(** The machine with the job [j] once the job [ok] is created as well. *)
Definition w1_ok : world := world_after (Jobs.create_job E (Some "ok") job_ok w1).

(** The definition of the job [j] as text, and a machine whose
    [ast.literal_eval] reads that text. *)
Definition job1_text : string := dumps job1.

Definition E_literal : env :=
  {| literal_eval := fun s =>
       if decide (s = job1_text) then inr job1
       else inl (Exn SyntaxError "invalid syntax");
     json_dumps := json_dumps E;
     json_loads := json_loads E;
     urandom := urandom E;
     spawn_error := spawn_error E;
     shell := sh |}.

(** A machine with a file [Placeholder] in the working directory. *)
Definition w_placeholder : world :=
  with_fs w1 (update ["usr"; "local"; "viki"; "Placeholder"]
                (fun _ => Some (File "old")) (fs w1)).

(** A machine whose shell also knows the command [:], which does
    nothing and exits with 0, and on it a job whose steps are the text
    [::] instead of a list. *)
Definition sh_colon (cmdline : string) (w : world) : option (Z * string * node) :=
  if decide (cmdline = ":") then Some (0%Z, "+ :" +:+ newline, fs w) else sh cmdline w.

Definition E_colon : env :=
  {| literal_eval := literal_eval E;
     json_dumps := json_dumps E;
     json_loads := json_loads E;
     urandom := urandom E;
     spawn_error := spawn_error E;
     shell := sh_colon |}.

Definition record_text_steps : list (string * pyval) :=
  [("description", PStr "two no-ops"); ("steps", PStr "::");
   ("runNumber", PInt 0); ("lastSuccessfulRun", PInt 0);
   ("lastFailedRun", PInt 0); ("name", PStr "dots")].

Definition w_dots : world := install "dots" (dumps (PDict record_text_steps)) w0.

Definition dots_output : string := "/usr/local/viki/jobs/dots/output.txt".

Definition w_dots_1 : world :=
  world_after (Jobs._run_shell_command E_colon (PStr ":") dots_output
                 (allocated E_colon w_dots)).

Definition w_dots_2 : world :=
  world_after (Jobs._run_shell_command E_colon (PStr ":") dots_output w_dots_1).

(** A machine with two jobs, one called [a] and one called [a b]. *)
Definition w_ab : world :=
  world_after (Jobs.create_job E (Some "a b") job1
                 (world_after (Jobs.create_job E (Some "a") job1 w0))).

(** A machine on which a command can be killed: [kill -9 $$] ends the
    shell that runs it with signal 9. *)
Definition sh_kill (cmdline : string) (w : world) : option (Z * string * node) :=
  if decide (cmdline = "kill -9 $$") then Some ((-9)%Z, "+ kill -9 4711" +:+ newline, fs w)
  else sh cmdline w.

Definition E_kill : env :=
  {| literal_eval := literal_eval E;
     json_dumps := json_dumps E;
     json_loads := json_loads E;
     urandom := urandom E;
     spawn_error := spawn_error E;
     shell := sh_kill |}.






End Demo.

(** ** The file system: lookups after an update *)

Section Tree.

Implicit Types (n : node) (p q r : cpath) (f : option node -> option node).

Lemma find_app n p q :
  find n (p ++ q) = find n p ≫= fun m => find m q.
Proof.
  revert n. induction p as [|c p IH]; intros n; [done|].
  destruct n as [d|ch]; cbn; [done|]. destruct (ch !! c); cbn; [apply IH|done].
Qed.

Lemma find_file_below d p : p ≠ [] -> find (File d) p = None.
Proof. by destruct p. Qed.

(** Above an entry that exists there are only directories. *)
Lemma find_above_is_dir n p q :
  q ≠ [] -> is_Some (find n (p ++ q)) -> is_dir n p = true.
Proof.
  intros Hq [m Hm]. rewrite find_app in Hm. unfold is_dir.
  destruct (find n p) as [[d|ch]|]; cbn in Hm; try done.
  by rewrite find_file_below in Hm.
Qed.

Lemma is_dir_prefix n p q : is_dir n (p ++ q) = true -> is_dir n p = true.
Proof.
  intros H. destruct q as [|c q]; [by rewrite app_nil_r in H|].
  apply (find_above_is_dir n p (c :: q)); [done|].
  unfold is_dir in H. destruct (find n (p ++ c :: q)); [eauto|done].
Qed.

Lemma shallow_at_update_frame p f n q :
  ¬ p `prefix_of` q -> shallow_at (update p f n) q = shallow_at n q.
Proof.
  revert n q. induction p as [|c p IH]; intros n q Hpre.
  { exfalso. apply Hpre, prefix_nil. }
  destruct n as [d|ch]; [done|].
  destruct q as [|c' q]. { by destruct p. }
  destruct (decide (c = c')) as [<-|Hne].
  - assert (¬ p `prefix_of` q) as Hpq by (intros H; apply Hpre; by apply prefix_cons).
    destruct p as [|c2 p]. { exfalso. apply Hpq, prefix_nil. }
    unfold shallow_at. cbn [update find]. rewrite lookup_alter_eq.
    destruct (ch !! c) as [m|]; cbn [fmap option_fmap option_map]; [|done].
    apply (IH m q Hpq).
  - unfold shallow_at. destruct p as [|c2 p]; cbn [update find].
    + by rewrite lookup_partial_alter_ne.
    + by rewrite lookup_alter_ne.
Qed.

Lemma is_dir_shallow n p :
  is_dir n p = match shallow_at n p with Some (Dir _) => true | _ => false end.
Proof. unfold is_dir, shallow_at. by destruct (find n p) as [[]|]. Qed.

Lemma read_at_shallow n p :
  read_at n p = match shallow_at n p with Some (File d) => Some d | _ => None end.
Proof. unfold read_at, shallow_at. by destruct (find n p) as [[]|]. Qed.

Lemma kind_at_shallow n p : kind_at n p = kind_of <$> shallow_at n p.
Proof. unfold kind_at, shallow_at. by destruct (find n p) as [[]|]. Qed.

Lemma read_at_update_frame p f n q :
  ¬ p `prefix_of` q -> read_at (update p f n) q = read_at n q.
Proof. intros. by rewrite !read_at_shallow, shallow_at_update_frame. Qed.

Lemma is_dir_update_frame p f n q :
  ¬ p `prefix_of` q -> is_dir (update p f n) q = is_dir n q.
Proof. intros. by rewrite !is_dir_shallow, shallow_at_update_frame. Qed.

(** At and below the updated entry, when the directory above it exists. *)
Lemma find_update_below p f n r :
  p ≠ [] -> is_dir n (parent p) = true ->
  find (update p f n) (p ++ r) = f (find n p) ≫= fun m => find m r.
Proof.
  revert n. induction p as [|c p IH]; intros n Hp Hdir; [done|].
  destruct p as [|c2 p].
  - cbn in Hdir. destruct n as [d|ch]; [done|]. cbn [update app find].
    rewrite lookup_partial_alter_eq.
    replace (match ch !! c with Some n' => Some n' | None => None end)
      with (ch !! c) by (by destruct (ch !! c)).
    by destruct (f (ch !! c)).
  - assert (parent (c :: c2 :: p) = c :: parent (c2 :: p)) as Hpar by done.
    rewrite Hpar in Hdir. unfold is_dir in Hdir.
    destruct n as [d|ch]; [done|]. cbn [find] in Hdir.
    rewrite <- app_comm_cons. cbn [update find]. rewrite lookup_alter_eq.
    destruct (ch !! c) as [m|]; [|done]. cbn [fmap option_fmap option_map].
    apply IH; [done|]. unfold is_dir.
    by destruct (find m (parent (c2 :: p))) as [[]|].
Qed.

Lemma find_update_eq p f n :
  p ≠ [] -> is_dir n (parent p) = true -> find (update p f n) p = f (find n p).
Proof.
  intros Hp Hd. rewrite <- (app_nil_r p) at 2. rewrite find_update_below by done.
  by destruct (f (find n p)).
Qed.

(** Without that directory nothing changes. *)
Lemma update_no_parent p f n : is_dir n (parent p) = false -> update p f n = n.
Proof.
  revert n. induction p as [|c p IH]; intros n Hdir; [done|].
  destruct n as [d|ch]; [done|]. destruct p as [|c2 p]; [done|].
  assert (parent (c :: c2 :: p) = c :: parent (c2 :: p)) as Hpar by done.
  rewrite Hpar in Hdir. unfold is_dir in Hdir. cbn [find] in Hdir.
  cbn [update]. f_equal.
  apply map_eq. intros i. rewrite lookup_alter. case_decide as Hi; [subst i|done].
  destruct (ch !! c) as [m|] eqn:Hm; [|done]. cbn. f_equal. apply IH.
  unfold is_dir. by destruct (find m (parent (c2 :: p))) as [[]|].
Qed.

Lemma parent_snoc p c : parent (p ++ [c]) = p.
Proof. unfold parent. apply removelast_last. Qed.

(** After a removal the entry and everything below it is gone. *)
Lemma find_removed p n r : p ≠ [] -> find (update p (fun _ => None) n) (p ++ r) = None.
Proof.
  intros Hp. destruct (is_dir n (parent p)) eqn:Hd.
  - by rewrite find_update_below.
  - rewrite update_no_parent by done. rewrite find_app.
    destruct (find n p) eqn:Hf; [|done]. exfalso.
    destruct (exists_last Hp) as (p' & c & ->). rewrite parent_snoc in Hd.
    rewrite (find_above_is_dir n p' [c]) in Hd; [done|done|]. by rewrite Hf.
Qed.

End Tree.

(** ** Strings, words and path components *)

#[local] Arguments String.append !s1 s2 : simpl nomatch.
#[local] Arguments uuid_str : simpl never.
#[local] Arguments uuid_v4 : simpl never.

Section Strings.

Implicit Types (s t : string) (c : ascii) (is_sep : ascii -> bool).

Lemma all_chars_app p s t :
  all_chars p (s +:+ t) = all_chars p s && all_chars p t.
Proof. induction s as [|c s IH]; simpl; [done|]. by rewrite IH, andb_assoc. Qed.

Lemma all_chars_impl (p q : ascii -> bool) s :
  (forall c, p c = true -> q c = true) ->
  all_chars p s = true -> all_chars q s = true.
Proof.
  intros Hpq. induction s as [|c s IH]; simpl; [done|].
  intros [Hc Hs]%andb_prop. by rewrite (Hpq _ Hc), IH.
Qed.

Lemma occurs_app c s t : occurs c (s +:+ t) = occurs c s || occurs c t.
Proof. induction s as [|c' s IH]; simpl; [done|]. by rewrite IH, orb_assoc. Qed.

Lemma occurs_all_chars c s :
  occurs c s = negb (all_chars (fun c' => negb (Ascii.eqb c' c)) s).
Proof.
  induction s as [|c' s IH]; simpl; [done|]. rewrite IH.
  by destruct (Ascii.eqb c' c).
Qed.

Lemma split_by_nonnil is_sep s : split_by is_sep s ≠ [].
Proof.
  destruct s as [|c s]; simpl; [done|].
  destruct (is_sep c); [done|]. by destruct (split_by is_sep s).
Qed.

(** A string without separator is one word. *)
Lemma split_by_none is_sep s :
  all_chars (fun c => negb (is_sep c)) s = true -> split_by is_sep s = [s].
Proof.
  induction s as [|c s IH]; simpl; [done|].
  intros [Hc Hs]%andb_prop. apply negb_true_iff in Hc. rewrite Hc, IH; done.
Qed.

(** Cutting distributes over a separator. *)
Lemma split_by_app_sep is_sep s c t :
  is_sep c = true ->
  split_by is_sep (s +:+ String c t)
  = (split_by is_sep s ++ split_by is_sep t)%list.
Proof.
  intros Hc. induction s as [|c' s IH]; simpl.
  - by rewrite Hc.
  - destruct (is_sep c'); [by rewrite IH|]. rewrite IH.
    pose proof (split_by_nonnil is_sep s). by destruct (split_by is_sep s).
Qed.

Lemma split_on_slash_app s t :
  split_on slash (s +:+ "/" +:+ t) = (split_on slash s ++ split_on slash t)%list.
Proof. unfold split_on. by apply split_by_app_sep. Qed.

Lemma simple_name_spec s :
  simple_name s = true ->
  split_on slash s = [s] ∧ ordinary s ∧ occurs nul s = false ∧ nonempty s = true.
Proof.
  unfold simple_name. intros H.
  apply andb_prop in H as [H Hd]. apply andb_prop in H as [H Hn].
  apply andb_prop in H as [He Hs]. apply bool_decide_eq_true in Hd as [??].
  apply negb_true_iff in Hn, Hs. repeat split; try done.
  - apply split_by_none. rewrite occurs_all_chars in Hs.
    by apply negb_false_iff in Hs.
  - by destruct s.
Qed.

Lemma uuid_char_facts c :
  uuid_char c = true ->
  plain_char c = true ∧ blank c = false ∧ Ascii.eqb c slash = false
  ∧ Ascii.eqb c nul = false.
Proof.
  destruct c as [[] [] [] [] [] [] [] []]; vm_compute; intros; done.
Qed.

Lemma hex_digit_uuid_char d : uuid_char (hex_digit d) = true.
Proof.
  unfold hex_digit.
  assert (N.to_nat (d mod 16) < 16)%nat as Hlt.
  { pose proof (N.mod_upper_bound d 16). lia. }
  revert Hlt. generalize (N.to_nat (d mod 16)). intros k Hlt.
  do 16 (destruct k as [|k]; [reflexivity|]). lia.
Qed.

Lemma hex_fixed_uuid_chars k x : all_chars uuid_char (hex_fixed k x) = true.
Proof.
  induction k as [|k IH]; cbn [hex_fixed all_chars]; [done|].
  by rewrite hex_digit_uuid_char, IH.
Qed.

Lemma uuid_str_chars u : all_chars uuid_char (uuid_str u) = true.
Proof.
  unfold uuid_str. rewrite !all_chars_app, !hex_fixed_uuid_chars. done.
Qed.

(** The name of a script or scratch directory is one ordinary component
    that the shell takes literally. *)
Lemma viki_name_facts u :
  let s := "viki-" +:+ uuid_str u in
  split_on slash s = [s] ∧ ordinary s ∧ occurs nul s = false
  ∧ all_chars plain_char s = true ∧ split_by blank s = [s].
Proof.
  pose proof (uuid_str_chars u) as Hu. cbn zeta.
  assert (forall q : ascii -> bool,
             (forall c, uuid_char c = true -> q c = true) ->
             all_chars q "viki-" = true ->
             all_chars q ("viki-" +:+ uuid_str u) = true) as Hall.
  { intros q Hq Hv. rewrite all_chars_app, Hv, andb_true_l.
    by apply (all_chars_impl uuid_char). }
  split; [|split; [|split; [|split]]].
  - apply split_by_none. apply Hall; [|done].
    intros c Hc. by apply uuid_char_facts in Hc as (_&_&->&_).
  - repeat split; simpl; discriminate.
  - rewrite occurs_all_chars. apply negb_false_iff. apply Hall; [|done].
    intros c Hc. by apply uuid_char_facts in Hc as (_&_&_&->).
  - apply Hall; [|done]. intros c Hc. by apply uuid_char_facts in Hc as (->&_).
  - apply split_by_none. apply Hall; [|done].
    intros c Hc. by apply uuid_char_facts in Hc as (_&->&_).
Qed.

End Strings.

(** ** Pathname resolution *)

Section Paths.

Implicit Types (n : node) (p q cur : cpath) (comps : list string) (w : world).

Lemma walk_app n cur comps1 comps2 :
  walk n cur (comps1 ++ comps2)
  = match walk n cur comps1 with
    | inr p => walk n p comps2
    | inl e => inl e
    end.
Proof.
  revert cur. induction comps1 as [|c comps1 IH]; intros cur; [done|].
  cbn [app walk]. destruct (find n cur) as [[d|ch]|]; try done.
  repeat case_decide; apply IH.
Qed.

(** Resolution only looks at which paths are directories. *)
Lemma walk_mono n n' cur comps p :
  (forall q, is_dir n q = true -> is_dir n' q = true) ->
  walk n cur comps = inr p -> walk n' cur comps = inr p.
Proof.
  intros Hmono. revert cur. induction comps as [|c comps IH]; intros cur; [done|].
  cbn [walk]. pose proof (Hmono cur) as Hcur. unfold is_dir in Hcur.
  destruct (find n cur) as [[d|ch]|]; try done.
  destruct (find n' cur) as [[d'|ch']|]; try (by specialize (Hcur eq_refl)).
  repeat case_decide; apply IH.
Qed.

Lemma walk_cons_ordinary n cur c comps :
  ordinary c -> is_dir n cur = true ->
  walk n cur (c :: comps) = walk n (cur ++ [c]) comps.
Proof.
  intros (H1 & H2 & H3) Hd. unfold is_dir in Hd. cbn [walk].
  destruct (find n cur) as [[d|ch]|]; try done.
  rewrite decide_False by (intros [?|?]; done). by rewrite decide_False.
Qed.

Lemma walk_cons_empty n cur comps :
  is_dir n cur = true -> walk n cur ("" :: comps) = walk n cur comps.
Proof.
  intros Hd. unfold is_dir in Hd. cbn [walk].
  destruct (find n cur) as [[d|ch]|]; done.
Qed.

Lemma walk_cons_inr n cur c comps p :
  walk n cur (c :: comps) = inr p -> is_dir n cur = true.
Proof. cbn [walk]. unfold is_dir. by destruct (find n cur) as [[d|ch]|]. Qed.

(** Along ordinary names resolution just descends. *)
Lemma walk_ordinary_inr n cur comps p :
  Forall ordinary comps -> walk n cur comps = inr p -> p = (cur ++ comps)%list.
Proof.
  intros Hall. revert cur. induction Hall as [|c comps Hc Hall IH]; intros cur Hw.
  - cbn in Hw. rewrite app_nil_r. congruence.
  - pose proof (walk_cons_inr _ _ _ _ _ Hw) as Hd.
    rewrite walk_cons_ordinary in Hw by done. apply IH in Hw.
    by rewrite <- app_assoc in Hw.
Qed.

Lemma walk_ordinary_ok n cur comps c :
  Forall ordinary comps -> ordinary c -> is_dir n (cur ++ comps) = true ->
  walk n cur (comps ++ [c]) = inr (cur ++ comps ++ [c])%list.
Proof.
  intros Hall Hc. revert cur. induction Hall as [|c' comps Hc' Hall IH]; intros cur Hd.
  - rewrite app_nil_r in Hd. cbn [app]. by rewrite walk_cons_ordinary.
  - cbn [app]. rewrite walk_cons_ordinary; [|done|by eapply is_dir_prefix].
    replace (cur ++ c' :: comps ++ [c])%list with ((cur ++ [c']) ++ comps ++ [c])%list
      by (by rewrite <- app_assoc).
    apply IH. by rewrite <- app_assoc.
Qed.

Lemma nonempty_app s t : nonempty s = true -> nonempty (s +:+ t) = true.
Proof. by destruct s. Qed.

(** An absolute path made of ordinary names. *)
Lemma resolve_absolute w path comps c :
  is_absolute path = true ->
  split_on slash path = "" :: (comps ++ [c])%list ->
  Forall ordinary comps -> ordinary c ->
  (forall p, resolve w path = inr p -> p = (comps ++ [c])%list)
  ∧ (is_dir (fs w) comps = true -> resolve w path = inr (comps ++ [c])%list).
Proof.
  intros Habs Hsplit Hall Hc. unfold resolve, start_of. rewrite Habs, Hsplit.
  assert (nonempty path = true) as -> by (by destruct path). split.
  - intros p Hw. pose proof (walk_cons_inr _ _ _ _ _ Hw) as Hd.
    rewrite walk_cons_empty in Hw by done.
    apply walk_ordinary_inr in Hw; [done|]. apply Forall_app; split; [done|].
    by constructor.
  - intros Hd. rewrite walk_cons_empty by (by apply (is_dir_prefix _ [] comps)).
    by apply (walk_ordinary_ok _ []).
Qed.

(** A relative path that is one ordinary name. *)
Lemma resolve_relative w path :
  is_absolute path = false -> split_on slash path = [path] -> ordinary path ->
  (forall p, resolve w path = inr p -> p = (cwd w ++ [path])%list)
  ∧ (is_dir (fs w) (cwd w) = true -> resolve w path = inr (cwd w ++ [path])%list).
Proof.
  intros Habs Hsplit Hc. unfold resolve, start_of. rewrite Habs, Hsplit.
  assert (nonempty path = true) as -> by (destruct Hc as [? _]; by destruct path).
  split.
  - intros p Hw. by apply walk_ordinary_inr in Hw; [|constructor].
  - intros Hd. apply (walk_ordinary_ok _ _ [] path); [constructor|done|].
    by rewrite app_nil_r.
Qed.

Lemma simple_ordinary name : simple_name name = true -> ordinary name.
Proof. intros H. by apply simple_name_spec in H as (_ & ? & _). Qed.

Lemma split_job_dir name :
  simple_name name = true ->
  split_on slash (job_dir_of name) = ["" ; "usr"; "local"; "viki"; "jobs"; name].
Proof.
  intros H. apply simple_name_spec in H as (Hs & _). unfold split_on in *.
  unfold job_dir_of, Jobs.jobs_path, Jobs.home. simpl. by rewrite Hs.
Qed.

Lemma split_job_file name f :
  simple_name name = true -> simple_name f = true ->
  split_on slash (job_dir_of name +:+ "/" +:+ f)
  = ["" ; "usr"; "local"; "viki"; "jobs"; name; f].
Proof.
  intros Hn Hf. rewrite split_on_slash_app, split_job_dir by done.
  by apply simple_name_spec in Hf as (-> & _).
Qed.

Lemma nul_job_dir name : simple_name name = true -> occurs nul (job_dir_of name) = false.
Proof.
  intros H. apply simple_name_spec in H as (_ & _ & Hn & _).
  unfold job_dir_of. by rewrite occurs_app, Hn.
Qed.

Lemma nul_job_file name f :
  simple_name name = true -> simple_name f = true ->
  occurs nul (job_dir_of name +:+ "/" +:+ f) = false.
Proof.
  intros Hn Hf. rewrite occurs_app, nul_job_dir by done.
  apply simple_name_spec in Hf as (_ & _ & Hf & _). simpl.
  by rewrite Hf.
Qed.

Lemma resolve_job_dir w name :
  simple_name name = true ->
  (forall p, resolve w (job_dir_of name) = inr p -> p = job_key name)
  ∧ (is_dir (fs w) jobs_root = true -> resolve w (job_dir_of name) = inr (job_key name)).
Proof.
  intros H. apply (resolve_absolute w _ jobs_root name); [done|by apply split_job_dir| |].
  - repeat constructor; done.
  - by apply simple_ordinary.
Qed.

Lemma resolve_job_file w name f :
  simple_name name = true -> simple_name f = true ->
  (forall p, resolve w (job_dir_of name +:+ "/" +:+ f) = inr p
             -> p = (jobs_root ++ [name; f])%list)
  ∧ (is_dir (fs w) (job_key name) = true ->
     resolve w (job_dir_of name +:+ "/" +:+ f) = inr (jobs_root ++ [name; f])%list).
Proof.
  intros Hn Hf.
  apply (resolve_absolute w _ (job_key name) f); [done|by apply split_job_file| |].
  - unfold job_key. apply Forall_app. split; [repeat constructor; done|].
    constructor; [by apply simple_ordinary|constructor].
  - by apply simple_ordinary.
Qed.

Lemma resolve_tmp w u :
  (forall p, resolve w ("/tmp/viki-" +:+ uuid_str u) = inr p
             -> p = ["tmp"; "viki-" +:+ uuid_str u])
  ∧ (is_dir (fs w) ["tmp"] = true ->
     resolve w ("/tmp/viki-" +:+ uuid_str u) = inr ["tmp"; "viki-" +:+ uuid_str u]).
Proof.
  destruct (viki_name_facts u) as (Hs & Ho & _).
  apply (resolve_absolute w _ ["tmp"] ("viki-" +:+ uuid_str u)); [done| |by repeat constructor|done].
  change ("/tmp/viki-" +:+ uuid_str u) with ("/tmp" +:+ "/" +:+ "viki-" +:+ uuid_str u).
  by rewrite split_on_slash_app, Hs.
Qed.

Lemma resolve_script w u :
  (forall p, resolve w ("viki-" +:+ uuid_str u) = inr p
             -> p = (cwd w ++ ["viki-" +:+ uuid_str u])%list)
  ∧ (is_dir (fs w) (cwd w) = true ->
     resolve w ("viki-" +:+ uuid_str u) = inr (cwd w ++ ["viki-" +:+ uuid_str u])%list).
Proof.
  destruct (viki_name_facts u) as (Hs & Ho & _). by apply resolve_relative.
Qed.

End Paths.

(** ** Running the methods *)

Ltac monad :=
  cbv beta iota zeta delta [bind ret raise try_except lift str_concat].

(** *** Deleting with an empty name *)

Lemma resolve_registry_slash w :
  is_dir (fs w) jobs_root = true ->
  resolve w "/usr/local/viki/jobs/" = inr jobs_root.
Proof.
  intros Hd. unfold resolve, start_of.
  change (split_on slash "/usr/local/viki/jobs/")
    with ["" ; "usr"; "local"; "viki"; "jobs"; ""].
  cbn [nonempty is_absolute Ascii.eqb slash Bool.eqb].
  assert (forall k, is_dir (fs w) (take k jobs_root) = true) as Hk.
  { intros k. apply (is_dir_prefix _ _ (drop k jobs_root)). by rewrite take_drop. }
  rewrite walk_cons_empty by apply (Hk 0).
  rewrite walk_cons_ordinary; [|done|apply (Hk 0)].
  rewrite walk_cons_ordinary; [|done|apply (Hk 1)].
  rewrite walk_cons_ordinary; [|done|apply (Hk 2)].
  rewrite walk_cons_ordinary; [|done|apply (Hk 3)].
  by rewrite walk_cons_empty.
Qed.

(** C1 (the code departs from the claim).  With the empty string as job
    name on a machine whose registry exists, [delete_job] does not fail: it
    reports that the job was deleted, and the registry directory itself,
    with every job in it, is gone afterwards. *)
Theorem delete_job_empty_name_removes_registry E w :
  is_dir (fs w) jobs_root = true ->
  spawn_error E "rm -rf /usr/local/viki/jobs/" w = None ->
  exists w',
    Jobs.delete_job E (Some "") w
    = Ret (PDict [("success", PInt 1); ("message", PStr "Job deleted")]) w'
    ∧ find (fs w') jobs_root = None
    ∧ forall name, find (fs w') (job_key name) = None.
Proof.
  intros Hd Hs.
  exists (with_fs w (update jobs_root (fun _ => None) (fs w))).
  assert (find (update jobs_root (fun _ => None) (fs w)) jobs_root = None) as Hgone.
  { rewrite <- (app_nil_r jobs_root) at 2. by apply find_removed. }
  split; [|split].
  - unfold Jobs.delete_job, Jobs._dirty_rm_rf, subprocess_call, os_path_isdir, path_kind.
    monad.
    change ((Jobs.jobs_path +:+ "/") +:+ "") with "/usr/local/viki/jobs/".
    change ("rm -rf " +:+ "/usr/local/viki/jobs/") with "rm -rf /usr/local/viki/jobs/".
    change (occurs nul "/usr/local/viki/jobs/") with false. cbn match.
    rewrite resolve_registry_slash by done.
    unfold kind_at. pose proof Hd as Hd'. unfold is_dir in Hd'.
    destruct (find (fs w) jobs_root) as [[d|ch]|]; try done. cbn.
    rewrite Hs.
    change (rm_rf_operands "rm -rf /usr/local/viki/jobs/")
      with (Some ["/usr/local/viki/jobs/"]).
    cbn [foldl]. unfold rm_rf_one.
    change (last_name "/usr/local/viki/jobs/") with "jobs".
    rewrite decide_False by (intros [?|?]; done).
    by rewrite resolve_registry_slash.
  - done.
  - intros name. unfold job_key. by apply find_removed.
Qed.

Lemma delete_job_empty_name_witness :
  exists w',
    Jobs.delete_job Demo.E (Some "") Demo.w0
    = Ret (PDict [("success", PInt 1); ("message", PStr "Job deleted")]) w'
    ∧ find (fs w') jobs_root = None
    ∧ forall name, find (fs w') (job_key name) = None.
Proof.
  apply (delete_job_empty_name_removes_registry Demo.E Demo.w0); reflexivity.
Defined.

(** ** What the primitive operations change *)

Section Operations.

Implicit Types (n : node) (p q h K : cpath) (w : world) (E : env).

Lemma prefix_find n p q :
  p `prefix_of` q -> is_Some (find n q) -> is_Some (find n p).
Proof.
  intros [r ->] [m Hm]. rewrite find_app in Hm. destruct (find n p); [eauto|done].
Qed.

(** Creating an entry where there was none leaves what existed as it was. *)
Lemma shallow_at_create p x n q :
  find n p = None -> is_Some (find n q) ->
  shallow_at (update p (fun _ => Some x) n) q = shallow_at n q.
Proof.
  intros Hp Hq. apply shallow_at_update_frame. intros Hpre.
  destruct (prefix_find n p q Hpre Hq) as [m Hm]. congruence.
Qed.

Lemma is_dir_create p x n q :
  find n p = None -> is_dir n q = true -> is_dir (update p (fun _ => Some x) n) q = true.
Proof.
  intros Hp Hq. rewrite is_dir_shallow, shallow_at_create; [by rewrite <- is_dir_shallow|done|].
  unfold is_dir in Hq. destruct (find n q); [eauto|done].
Qed.

(** Replacing something that is not a directory by a file. *)
Lemma is_dir_overwrite p d n q :
  is_dir n p = false -> is_dir n q = true ->
  is_dir (update p (fun _ => Some (File d)) n) q = true.
Proof.
  intros Hp Hq. rewrite is_dir_update_frame; [done|]. intros [r ->].
  destruct r as [|c r].
  - rewrite app_nil_r in Hq. congruence.
  - rewrite (find_above_is_dir n p (c :: r)) in Hp; [done|done|].
    unfold is_dir in Hq. destruct (find n (p ++ c :: r)); [eauto|done].
Qed.

(** Appending to a file changes that file only. *)
Lemma shallow_at_append h d n q :
  q ≠ h -> shallow_at (update h (append_data d) n) q = shallow_at n q.
Proof.
  intros Hne. destruct (decide (h `prefix_of` q)) as [[r ->]|Hpre].
  2: by apply shallow_at_update_frame.
  destruct r as [|c r]; [by rewrite app_nil_r in Hne|].
  destruct h as [|c0 h]; [done|].
  destruct (is_dir n (parent (c0 :: h))) eqn:Hd.
  2: by rewrite update_no_parent.
  unfold shallow_at. rewrite find_update_below, find_app by done.
  by destruct (find n (c0 :: h)) as [[?|?]|].
Qed.

Lemma is_dir_append h d n q :
  is_dir (update h (append_data d) n) q = is_dir n q.
Proof.
  destruct (decide (q = h)) as [->|Hne].
  2: by rewrite !is_dir_shallow, shallow_at_append.
  destruct h as [|c0 h]; [done|].
  destruct (is_dir n (parent (c0 :: h))) eqn:Hd.
  2: by rewrite update_no_parent.
  unfold is_dir. rewrite find_update_eq by done.
  by destruct (find n (c0 :: h)) as [[?|?]|].
Qed.

Lemma read_at_append h d n K :
  K ≠ h -> read_at (update h (append_data d) n) K = read_at n K.
Proof. intros. by rewrite !read_at_shallow, shallow_at_append. Qed.

Lemma read_at_append_same h d n :
  h ≠ [] ->
  read_at (update h (append_data d) n) h = (fun d0 => d0 +:+ d) <$> read_at n h.
Proof.
  intros Hh. destruct h as [|c0 h]; [done|].
  destruct (is_dir n (parent (c0 :: h))) eqn:Hd.
  - unfold read_at. rewrite find_update_eq by done.
    by destruct (find n (c0 :: h)) as [[?|?]|].
  - rewrite update_no_parent by done. unfold read_at.
    destruct (find n (c0 :: h)) as [m|] eqn:Hf; [|done]. exfalso.
    assert (c0 :: h ≠ []) as Hne by done.
    destruct (exists_last Hne) as (p' & c & Hp). rewrite Hp, parent_snoc in Hd.
    rewrite (find_above_is_dir n p' [c]) in Hd; [done|done|]. rewrite <- Hp, Hf. eauto.
Qed.



End Operations.

Section Primitives.

Implicit Types (n : node) (p q h K : cpath) (w : world) (E : env).

Lemma final_world_bind {A B} (m : M A) (k : A -> M B) w w' :
  final_world (bind m k w) = Some w' ->
  (exists e, m w = Raise e w')
  ∨ (exists a w1, m w = Ret a w1 ∧ final_world (k a w1) = Some w').
Proof.
  unfold bind. destruct (m w) as [a w1|e w1|]; cbn; intros H.
  - right. eauto.
  - left. exists e. congruence.
  - done.
Qed.

Lemma bind_Ret {A B} (m : M A) (k : A -> M B) w b w' :
  bind m k w = Ret b w' -> exists a w1, m w = Ret a w1 ∧ k a w1 = Ret b w'.
Proof. unfold bind. destruct (m w) as [a w1|e w1|]; intros H; try done. eauto. Qed.

Lemma keeps_trans K w1 w2 w3 : keeps K w1 w2 -> keeps K w2 w3 -> keeps K w1 w3.
Proof. unfold keeps. congruence. Qed.

Lemma dirs_kept_refl w : dirs_kept w w.
Proof. by intros q. Qed.

Lemma dirs_kept_trans w1 w2 w3 : dirs_kept w1 w2 -> dirs_kept w2 w3 -> dirs_kept w1 w3.
Proof. intros H1 H2 q Hq. by apply H2, H1. Qed.

Lemma os_mkdir_Ret path w w' :
  os_mkdir path w = Ret tt w' ->
  exists p, occurs nul path = false ∧ resolve_new w path = inr p
            ∧ find (fs w) p = None
            ∧ w' = with_fs w (update p (fun _ => Some (Dir ∅)) (fs w)).
Proof.
  unfold os_mkdir. destruct (occurs nul path); [done|].
  destruct (resolve_new w path) as [e|p]; [done|].
  destruct (find (fs w) p) eqn:Hf; [done|]. intros [= <-]. eauto.
Qed.

Lemma os_mkdir_final path w w' :
  final_world (os_mkdir path w) = Some w' ->
  w' = w ∨ exists p, resolve_new w path = inr p ∧ find (fs w) p = None
                     ∧ w' = with_fs w (update p (fun _ => Some (Dir ∅)) (fs w)).
Proof.
  unfold os_mkdir. destruct (occurs nul path); cbn; [left; congruence|].
  destruct (resolve_new w path) as [e|p]; cbn; [left; congruence|].
  destruct (find (fs w) p) eqn:Hf; cbn; [left; congruence|].
  intros [= <-]. right. eauto.
Qed.

Lemma open_final path m w w' :
  final_world (open_ path m w) = Some w' ->
  w' = w ∨ exists h, resolve w path = inr h ∧ is_dir (fs w) h = false
                     ∧ w' = with_fs w (update h (fun _ => Some (File "")) (fs w)).
Proof.
  unfold open_. destruct (occurs nul path); cbn; [left; congruence|].
  destruct (resolve w path) as [e|h] eqn:Hr; cbn; [left; congruence|].
  destruct (find (fs w) h) as [[d|ch]|] eqn:Hf, m; cbn; intros [= <-];
    first [by left | right; exists h; unfold is_dir; by rewrite Hf].
Qed.

Lemma open_Ret path m w h w' :
  open_ path m w = Ret h w' ->
  occurs nul path = false ∧ resolve w path = inr h ∧ is_dir (fs w) h = false
  ∧ (w' = w ∨ w' = with_fs w (update h (fun _ => Some (File "")) (fs w))).
Proof.
  unfold open_. destruct (occurs nul path); [done|].
  destruct (resolve w path) as [e|h'] eqn:Hr; [done|].
  destruct (find (fs w) h') as [[d|ch]|] eqn:Hf, m; intros [= <- <-];
    unfold is_dir; rewrite Hf; auto.
Qed.

Lemma open_dirs_kept path m w w' :
  final_world (open_ path m w) = Some w' -> dirs_kept w w'.
Proof.
  intros [->|(h & _ & Hd & ->)]%open_final; [apply dirs_kept_refl|].
  intros q Hq. by apply is_dir_overwrite.
Qed.

Lemma os_mkdir_dirs_kept path w w' :
  final_world (os_mkdir path w) = Some w' -> dirs_kept w w'.
Proof.
  intros [->|(p & _ & Hf & ->)]%os_mkdir_final; [apply dirs_kept_refl|].
  intros q Hq. by apply is_dir_create.
Qed.

Lemma file_write_dirs_kept h d w : dirs_kept w (with_fs w (update h (append_data d) (fs w))).
Proof. intros q Hq. cbn. by rewrite is_dir_append. Qed.

Lemma popen_and_poll_Ret E command out w rc w' :
  popen_and_poll E command out w = Ret rc w' ->
  exists output n',
    spawn_error E command w = None ∧ shell E command w = Some (rc, output, n')
    ∧ w' = log_ran command (with_fs w (update out (append_data output) n')).
Proof.
  unfold popen_and_poll. destruct (spawn_error E command w); [done|].
  destruct (shell E command w) as [[[rc' output] n']|]; [|done].
  intros [= <- <-]. eauto.
Qed.


(** A path that resolved keeps resolving to the same place as long as no
    directory disappears. *)
Lemma resolve_mono w w' path p :
  cwd w' = cwd w -> dirs_kept w w' -> resolve w path = inr p -> resolve w' path = inr p.
Proof.
  unfold resolve, start_of. intros -> Hk. destruct (nonempty path); [|done].
  by apply walk_mono.
Qed.

End Primitives.

(** ** Actions that respect a relation between worlds *)

Section Respects.

Context (R : relation world) `{!PreOrder R}.
Hypothesis R_same : forall w w', fs w' = fs w -> cwd w' = cwd w -> R w w'.

Lemma respects_ret {A} (a : A) : respects R (ret a).
Proof. intros w w' [= <-]. reflexivity. Qed.

Lemma respects_raise {A} c msg : respects R (@raise A c msg).
Proof. intros w w' [= <-]. reflexivity. Qed.

Lemma respects_Raise {A} e : respects R (fun w => @Raise A e w).
Proof. intros w w' [= <-]. reflexivity. Qed.

Lemma respects_lift {A} (r : exn + A) : respects R (lift r).
Proof. intros w w'. unfold lift. destruct r; intros [= <-]; reflexivity. Qed.

Lemma respects_bind {A B} (m : M A) (k : A -> M B) :
  respects R m -> (forall a, respects R (k a)) -> respects R (bind m k).
Proof.
  intros Hm Hk w w' [[e He]|(a & w1 & Ha & Hf)]%final_world_bind.
  - apply Hm. by rewrite He.
  - transitivity w1; [apply Hm; by rewrite Ha|by apply (Hk a)].
Qed.

Lemma respects_try_except {A} (body : M A) classes handler :
  respects R body -> (forall e, respects R (handler e)) ->
  respects R (try_except body classes handler).
Proof.
  intros Hb Hh w w'. unfold try_except.
  destruct (body w) as [a w1|e w1|] eqn:Hbw; [| |done].
  - intros [= <-]. apply Hb. by rewrite Hbw.
  - intros Hf. transitivity w1; [apply Hb; by rewrite Hbw|].
    destruct (bool_decide _); [by apply (Hh e)|]. injection Hf as <-. reflexivity.
Qed.

Lemma respects_if {A} (b : bool) (m1 m2 : M A) :
  respects R m1 -> respects R m2 -> respects R (if b then m1 else m2).
Proof. by destruct b. Qed.

Lemma respects_getitem v key : respects R (getitem v key).
Proof.
  unfold getitem. destruct v; try apply respects_raise.
  destruct (assoc key kvs); [apply respects_ret|apply respects_raise].
Qed.

Lemma respects_setitem v key x : respects R (setitem v key x).
Proof. unfold setitem. destruct v; first [apply respects_raise|apply respects_ret]. Qed.

Lemma respects_py_iter v : respects R (py_iter v).
Proof. unfold py_iter. destruct v; first [apply respects_raise|apply respects_ret]. Qed.

Lemma respects_as_text v : respects R (as_text v).
Proof. unfold as_text. destruct v; first [apply respects_raise|apply respects_ret]. Qed.

Lemma respects_str_concat a b : respects R (str_concat a b).
Proof. unfold str_concat. destruct b; [apply respects_ret|apply respects_raise]. Qed.

Lemma respects_py_json_loads E v : respects R (py_json_loads E v).
Proof.
  unfold py_json_loads. destruct v; first [apply respects_raise|apply respects_lift].
Qed.

Lemma respects_os_path_exists path : respects R (os_path_exists path).
Proof. intros w w' [= <-]. reflexivity. Qed.

Lemma respects_os_path_isdir path : respects R (os_path_isdir path).
Proof. intros w w' [= <-]. reflexivity. Qed.

Lemma respects_os_path_isfile path : respects R (os_path_isfile path).
Proof. intros w w' [= <-]. reflexivity. Qed.

Lemma respects_file_read h : respects R (file_read h).
Proof. intros w w' [= <-]. reflexivity. Qed.

Lemma respects_uuid4 E : respects R (uuid4 E).
Proof. intros w w' [= <-]. by apply R_same. Qed.

Lemma respects_open_read path : respects R (open_ path mode_r).
Proof.
  intros w w'. unfold open_. destruct (occurs nul path); [intros [= <-]; reflexivity|].
  destruct (resolve w path) as [e|h]; [intros [= <-]; reflexivity|].
  destruct (find (fs w) h) as [[]|]; intros [= <-]; reflexivity.
Qed.

Lemma respects_read_job_file file : respects R (Jobs._read_job_file file).
Proof.
  unfold Jobs._read_job_file. destruct (negb (nonempty file)); [apply respects_ret|].
  apply respects_bind; [apply respects_open_read|]. intros h.
  apply respects_bind; [apply respects_file_read|]. intros d. apply respects_ret.
Qed.

End Respects.

#[global] Instance tame_preorder : PreOrder tame.
Proof.
  split.
  - intros w. split; [done|apply dirs_kept_refl].
  - intros w1 w2 w3 [H1 H2] [H3 H4]. split; [congruence|by eapply dirs_kept_trans].
Qed.

#[global] Instance sparing_preorder K : PreOrder (sparing K).
Proof.
  split.
  - intros w. by split.
  - intros w1 w2 w3 [H1 H2] [H3 H4]. split; [congruence|by eapply keeps_trans].
Qed.

#[global] Instance sparing_started_preorder E K : PreOrder (sparing_started E K).
Proof.
  split.
  - intros w. exists []. by rewrite app_nil_r.
  - intros w1 w2 w3 (l1 & Hr1 & H1) (l2 & Hr2 & H2). exists (l1 ++ l2)%list. split.
    + by rewrite Hr2, Hr1, <- app_assoc.
    + intros [Hl1 Hl2]%Forall_app. transitivity w2; [by apply H1|by apply H2].
Qed.

Lemma tame_same w w' : fs w' = fs w -> cwd w' = cwd w -> tame w w'.
Proof. intros Hf Hc. split; [done|]. intros q. by rewrite Hf. Qed.

Lemma sparing_same K w w' : fs w' = fs w -> cwd w' = cwd w -> sparing K w w'.
Proof. intros Hf Hc. split; [done|]. unfold keeps. by rewrite Hf. Qed.

(** ** Creating a directory makes it exist *)

Section Mkdir.

Implicit Types (n : node) (p q cur : cpath) (comps : list string) (w : world).

Lemma drop_trailing_empty_spec comps :
  exists k, comps = (drop_trailing_empty comps ++ replicate k "")%list.
Proof.
  induction comps as [|c comps [k IH]]; [by exists 0|].
  cbn [drop_trailing_empty]. destruct (drop_trailing_empty comps) as [|c' rest].
  - cbn in IH. destruct c as [|a c]; cbn [nonempty].
    + exists (S k). by rewrite IH.
    + exists k. by rewrite IH.
  - exists k. by rewrite IH at 1.
Qed.

Lemma drop_trailing_empty_relative path :
  is_absolute path = false -> nonempty path = true ->
  drop_trailing_empty (split_on slash path) ≠ [].
Proof.
  destruct path as [|a s]; [done|]. cbn [is_absolute]. intros Ha _.
  unfold split_on. cbn [split_by]. rewrite Ha.
  pose proof (split_by_nonnil (fun c => Ascii.eqb c slash) s) as Hne.
  destruct (split_by _ s) as [|x xs]; [done|].
  cbn [drop_trailing_empty]. by destruct (drop_trailing_empty xs).
Qed.

Lemma walk_empties n p k :
  is_dir n p = true -> walk n p (replicate k "") = inr p.
Proof. intros Hd. induction k as [|k IH]; [done|]. cbn [replicate]. by rewrite walk_cons_empty. Qed.

Lemma is_dir_parent n p : is_dir n p = true -> is_dir n (parent p) = true.
Proof.
  intros Hd. destruct (decide (p = [])) as [->|Hne]; [done|].
  destruct (exists_last Hne) as (p' & c & ->). rewrite parent_snoc.
  by apply (is_dir_prefix n p' [c]).
Qed.

Lemma walk_parent_dir' n cur comps p :
  cur = [] ∨ is_dir n (parent cur) = true ->
  walk n cur comps = inr p -> p = [] ∨ is_dir n (parent p) = true.
Proof.
  revert cur. induction comps as [|c comps IH]; intros cur Hg Hw.
  { cbn in Hw. by injection Hw as <-. }
  pose proof (walk_cons_inr _ _ _ _ _ Hw) as Hd. cbn [walk] in Hw.
  unfold is_dir in Hd. destruct (find n cur) as [[|ch]|] eqn:Hf; try done.
  assert (is_dir n cur = true) as Hcur by (unfold is_dir; by rewrite Hf).
  repeat case_decide; eapply IH; try exact Hw; auto.
  - right. by do 2 apply is_dir_parent.
  - right. by rewrite parent_snoc.
Qed.

(** The place a path resolves to lies in an existing directory. *)
Lemma walk_parent_dir n cur comps p :
  comps ≠ [] -> walk n cur comps = inr p -> p = [] ∨ is_dir n (parent p) = true.
Proof.
  intros Hne Hw. destruct comps as [|c comps]; [done|].
  pose proof (walk_cons_inr _ _ _ _ _ Hw) as Hd.
  apply (walk_parent_dir' n cur (c :: comps)); [|done].
  right. by apply is_dir_parent.
Qed.

Lemma resolve_new_parent w path p :
  resolve_new w path = inr p -> find (fs w) p = None ->
  p ≠ [] ∧ is_dir (fs w) (parent p) = true.
Proof.
  unfold resolve_new, start_of. destruct (nonempty path) eqn:Hne; [|done].
  intros Hw Hf.
  assert (p ≠ []) as Hp by (by intros ->).
  split; [done|].
  destruct (drop_trailing_empty (split_on slash path)) as [|c comps] eqn:Hdte.
  - cbn in Hw. injection Hw as <-.
    destruct (is_absolute path) eqn:Ha; [done|].
    by apply drop_trailing_empty_relative in Ha.
  - apply walk_parent_dir in Hw as [->|Hd]; done.
Qed.

Lemma os_mkdir_makes path w w' :
  os_mkdir path w = Ret tt w' -> path_kind w' path = Some KDir.
Proof.
  intros (p & Hnul & Hres & Hf & ->)%os_mkdir_Ret.
  destruct (resolve_new_parent _ _ _ Hres Hf) as [Hp Hd].
  set (n' := update p (fun _ => Some (Dir ∅)) (fs w)).
  assert (find n' p = Some (Dir ∅)) as Hnew by (by apply find_update_eq).
  assert (forall q, is_dir (fs w) q = true -> is_dir n' q = true) as Hmono.
  { intros q Hq. by apply is_dir_create. }
  unfold path_kind. rewrite Hnul. unfold resolve, resolve_new in *. cbn [fs cwd with_fs].
  unfold start_of in *. cbn [cwd with_fs].
  destruct (nonempty path); [|done].
  destruct (drop_trailing_empty_spec (split_on slash path)) as [k Hk].
  rewrite Hk, walk_app, (walk_mono _ _ _ _ _ Hmono Hres), walk_empties.
  - unfold kind_at. by rewrite Hnew.
  - unfold is_dir. by rewrite Hnew.
Qed.

Lemma respects_tame_open path m : respects tame (open_ path m).
Proof.
  intros w w' Hf. split; [|by eapply open_dirs_kept].
  apply open_final in Hf as [->|(p & _ & _ & ->)]; done.
Qed.

Lemma respects_tame_file_write h d : respects tame (file_write h d).
Proof. intros w w' [= <-]. split; [done|apply file_write_dirs_kept]. Qed.

Lemma respects_tame_write_job_file E file text :
  respects tame (Jobs._write_job_file E file text).
Proof.
  unfold Jobs._write_job_file.
  destruct (_ || _); [apply respects_ret; apply _|].
  apply respects_bind; [apply _|apply respects_tame_open|]. intros h.
  apply respects_bind; [apply _|apply respects_lift; apply _|]. intros d.
  apply respects_bind; [apply _|apply respects_tame_file_write|]. intros _.
  apply respects_ret; apply _.
Qed.

(** A path that names something keeps naming something of the same kind. *)
Lemma path_kind_dir_tame w w' path :
  tame w w' -> path_kind w path = Some KDir -> path_kind w' path = Some KDir.
Proof.
  intros [Hc Hk]. unfold path_kind. destruct (occurs nul path); [done|].
  destruct (resolve w path) as [e|p] eqn:Hr; [done|].
  rewrite (resolve_mono w w' path p Hc Hk Hr). rewrite !kind_at_shallow.
  intros Hp. pose proof (Hk p) as Hkp. rewrite !is_dir_shallow in Hkp.
  destruct (shallow_at (fs w) p) as [[]|]; try done.
  destruct (shallow_at (fs w') p) as [[]|]; try done; by specialize (Hkp eq_refl).
Qed.

End Mkdir.

(** ** Creating a job *)

Ltac respects_step same special :=
  first
    [ special
    | apply respects_ret | apply respects_raise | apply respects_Raise
    | apply respects_lift | apply respects_getitem | apply respects_setitem
    | apply respects_py_iter | apply respects_as_text | apply respects_str_concat
    | apply respects_py_json_loads
    | apply respects_os_path_exists | apply respects_os_path_isdir
    | apply respects_os_path_isfile | apply respects_file_read
    | apply respects_uuid4; exact same
    | apply respects_read_job_file
    | apply respects_if
    | apply respects_bind; [| |intros ?]
    | apply respects_try_except; [| |intros ?]
    | match goal with
      | |- respects _ (match ?x with _ => _ end) => destruct x
      | |- respects _ (let (_, _) := ?x in _) => destruct x
      | |- PreOrder _ => apply _
      end ].

Lemma create_job_present E s json_text w k :
  path_kind w (job_dir_of s) = Some k ->
  Jobs.create_job E (Some s) json_text w
  = Ret (PDict [("success", PInt 0);
                ("message", PStr "Job directory already exists")]) w.
Proof.
  intros Hk. unfold Jobs.create_job, os_path_exists. monad.
  fold (job_dir_of s). by rewrite Hk.
Qed.

Lemma create_job_made E name json_text w w1 :
  Jobs.create_job E name json_text w
  = Ret (PDict [("success", PInt 1); ("message", PStr "Job created successfully")]) w1 ->
  exists s, name = Some s ∧ path_kind w1 (job_dir_of s) = Some KDir.
Proof.
  intros H. destruct name as [s|]; [|done]. exists s. split; [done|].
  unfold Jobs.create_job in H.
  apply bind_Ret in H as ([succ msg] & w2 & Htry & Hret).
  injection Hret as -> -> ->.
  unfold try_except in Htry.
  match type of Htry with match ?b w with _ => _ end = _ => destruct (b w) as [a w'|e w'|] eqn:Hbody end.
  2: { destruct (bool_decide _); done. }
  2: done.
  injection Htry as -> ->.
  apply bind_Ret in Hbody as (job_dir & w3 & Hcat & Hbody).
  injection Hcat as <- <-. fold (job_dir_of s) in Hbody.
  apply bind_Ret in Hbody as (present & w3 & Hex & Hbody).
  injection Hex as <- <-.
  apply bind_Ret in Hbody as ([] & w0 & Hmk & Hrest).
  match type of Hmk with
  | context [path_kind w ?x] => change x with (job_dir_of s) in Hmk
  end.
  destruct (path_kind w (job_dir_of s)); [done|].
  apply os_mkdir_makes in Hmk.
  apply (path_kind_dir_tame w0); [|done].
  match type of Hrest with ?rest w0 = _ => assert (respects tame rest) as Hresp end.
  { repeat respects_step tame_same ltac:(apply respects_tame_write_job_file). }
  apply Hresp. by rewrite Hrest.
Qed.

(** C7.  Once [create_job] has succeeded for a name, a second call with
    that name, whatever the definition passed, fails with the message that
    the job directory already exists and success 0, and leaves the whole
    world, the first job's record included, as it was. *)
Theorem create_job_twice E name json1 json2 w w1 :
  Jobs.create_job E name json1 w
  = Ret (PDict [("success", PInt 1); ("message", PStr "Job created successfully")]) w1 ->
  Jobs.create_job E name json2 w1
  = Ret (PDict [("success", PInt 0);
                ("message", PStr "Job directory already exists")]) w1.
Proof.
  intros (s & -> & Hk)%create_job_made. by eapply create_job_present.
Qed.

Lemma create_job_twice_witness :
  Jobs.create_job Demo.E (Some "j") Demo.job1 Demo.w0
  = Ret (PDict [("success", PInt 1); ("message", PStr "Job created successfully")])
        Demo.w1
  ∧ Jobs.create_job Demo.E (Some "j") (PDict []) Demo.w1
    = Ret (PDict [("success", PInt 0);
                  ("message", PStr "Job directory already exists")]) Demo.w1.
Proof.
  assert (Jobs.create_job Demo.E (Some "j") Demo.job1 Demo.w0
          = Ret (PDict [("success", PInt 1);
                        ("message", PStr "Job created successfully")]) Demo.w1) as H
    by (vm_compute; reflexivity).
  split; [exact H|].
  exact (create_job_twice Demo.E (Some "j") Demo.job1 (PDict []) Demo.w0 Demo.w1 H).
Defined.

(** ** Paths inside the registry *)

Section Registry.

Implicit Types (w : world) (E : env) (name f : string).

Lemma find_below_nondir n p r :
  r ≠ [] -> is_dir n p = false -> find n (p ++ r) = None.
Proof.
  intros Hr Hd. destruct (find n (p ++ r)) eqn:Hf; [|done].
  rewrite (find_above_is_dir n p r) in Hd; [done|done|]. rewrite Hf. eauto.
Qed.

Lemma path_kind_job_dir w name :
  simple_name name = true ->
  path_kind w (job_dir_of name) = kind_at (fs w) (job_key name).
Proof.
  intros Hn. unfold path_kind. rewrite nul_job_dir by done.
  destruct (resolve_job_dir w name Hn) as [Hinr Hok].
  destruct (is_dir (fs w) jobs_root) eqn:Hd.
  - by rewrite Hok.
  - destruct (resolve w (job_dir_of name)) as [e|p] eqn:Hr.
    + unfold kind_at, job_key. by rewrite find_below_nondir.
    + by rewrite (Hinr p).
Qed.

Lemma path_kind_job_file w name f :
  simple_name name = true -> simple_name f = true ->
  path_kind w (job_dir_of name +:+ "/" +:+ f)
  = kind_at (fs w) (jobs_root ++ [name; f])%list.
Proof.
  intros Hn Hf. unfold path_kind. rewrite nul_job_file by done.
  destruct (resolve_job_file w name f Hn Hf) as [Hinr Hok].
  destruct (is_dir (fs w) (job_key name)) eqn:Hd.
  - by rewrite Hok.
  - destruct (resolve w _) as [e|p] eqn:Hr.
    + unfold kind_at. change (jobs_root ++ [name; f])%list with (jobs_root ++ [name] ++ [f])%list.
      rewrite app_assoc. by rewrite find_below_nondir.
    + by rewrite (Hinr p).
Qed.

Lemma config_above n name d :
  read_at n (config_key name) = Some d ->
  is_dir n (job_key name) = true ∧ is_dir n jobs_root = true.
Proof.
  intros Hr.
  assert (is_Some (find n (config_key name))) as Hs.
  { unfold read_at in Hr. destruct (find n (config_key name)); [eauto|done]. }
  split.
  - apply (find_above_is_dir n _ ["config.json"]); [done|].
    unfold job_key. by rewrite <- app_assoc.
  - by apply (find_above_is_dir n _ [name; "config.json"]).
Qed.

(** Opening a file of a job for reading. *)
Lemma open_read_job_file w name f d :
  simple_name name = true -> simple_name f = true ->
  read_at (fs w) (jobs_root ++ [name; f])%list = Some d ->
  open_ (job_dir_of name +:+ "/" +:+ f) mode_r w = Ret (jobs_root ++ [name; f])%list w.
Proof.
  intros Hn Hf Hr.
  assert (is_Some (find (fs w) (jobs_root ++ [name; f])%list)) as Hs.
  { unfold read_at in Hr. destruct (find (fs w) _); [eauto|done]. }
  assert (is_dir (fs w) (job_key name) = true) as Hd.
  { apply (find_above_is_dir _ _ [f]); [done|]. unfold job_key. by rewrite <- app_assoc. }
  unfold open_. rewrite nul_job_file by done.
  destruct (resolve_job_file w name f Hn Hf) as [_ Hok]. rewrite Hok by done.
  unfold read_at in Hr. by destruct (find (fs w) _) as [[]|].
Qed.

Lemma read_job_file_present w name d :
  simple_name name = true ->
  read_at (fs w) (config_key name) = Some d ->
  Jobs._read_job_file (job_dir_of name +:+ "/" +:+ "config.json") w = Ret (PStr d) w.
Proof.
  intros Hn Hr. unfold Jobs._read_job_file.
  rewrite nonempty_app by done. cbn [negb]. monad.
  rewrite (open_read_job_file w name "config.json" d) by done.
  unfold file_read. fold (config_key name). by rewrite Hr.
Qed.

(** Reading a job that is there. *)
Lemma get_job_by_name_present w name d :
  simple_name name = true ->
  read_at (fs w) (config_key name) = Some d ->
  Jobs.get_job_by_name (Some name) w
  = Ret (PDict [("success", PInt 1); ("message", PStr "Ok");
                ("name", PStr name); ("config_json", PStr d)]) w.
Proof.
  intros Hn Hr. destruct (config_above _ _ _ Hr) as [Hj Hroot].
  unfold Jobs.get_job_by_name, os_path_isdir, os_path_exists, Jobs.job_config_filename.
  monad. fold (job_dir_of name).
  rewrite path_kind_job_dir by done. unfold kind_at at 1.
  unfold is_dir in Hj. destruct (find (fs w) (job_key name)) as [[]|]; try done.
  cbn [fmap option_fmap option_map kind_of].
  rewrite path_kind_job_file by done. fold (config_key name).
  unfold kind_at. unfold read_at in Hr.
  destruct (find (fs w) (config_key name)) as [[]|] eqn:Hf; try done.
  cbn [fmap option_fmap option_map].
  rewrite (read_job_file_present w name d); [by injection Hr as ->|done|].
  unfold read_at. by rewrite Hf.
Qed.

End Registry.

Section Create.

Implicit Types (w : world) (E : env) (name : string).

Lemma resolve_new_job_dir w name :
  simple_name name = true -> is_dir (fs w) jobs_root = true ->
  resolve_new w (job_dir_of name) = inr (job_key name).
Proof.
  intros Hn Hd. destruct (resolve_job_dir w name Hn) as [_ Hok].
  specialize (Hok Hd). unfold resolve, resolve_new in *.
  rewrite split_job_dir in * by done.
  apply simple_name_spec in Hn as (_ & _ & _ & Hne).
  cbn [drop_trailing_empty]. by rewrite Hne.
Qed.

Lemma os_mkdir_job_dir w name :
  simple_name name = true -> is_dir (fs w) jobs_root = true ->
  find (fs w) (job_key name) = None ->
  os_mkdir (job_dir_of name) w
  = Ret tt (with_fs w (update (job_key name) (fun _ => Some (Dir ∅)) (fs w))).
Proof.
  intros Hn Hd Hf. unfold os_mkdir.
  by rewrite nul_job_dir, resolve_new_job_dir, Hf.
Qed.

Lemma config_key_snoc name : config_key name = (job_key name ++ ["config.json"])%list.
Proof. unfold config_key, job_key. by rewrite <- app_assoc. Qed.

Lemma assoc_set_nonnil k v kvs : assoc_set k v kvs ≠ [].
Proof. destruct kvs as [|[k' v'] kvs]; cbn; [done|]. by case_decide. Qed.

(** Writing the record of a job whose directory exists. *)
Lemma write_job_file_config E w name v txt :
  simple_name name = true ->
  is_dir (fs w) (job_key name) = true ->
  is_dir (fs w) (config_key name) = false ->
  truthy v = true -> json_dumps E v = inr txt ->
  exists w', Jobs._write_job_file E (job_dir_of name +:+ "/" +:+ "config.json") v w
             = Ret true w'
             ∧ read_at (fs w') (config_key name) = Some txt
             ∧ cwd w' = cwd w ∧ drawn w' = drawn w ∧ ran w' = ran w.
Proof.
  intros Hn Hj Hc Hv Hd.
  assert (parent (config_key name) = job_key name) as Hpar
    by (rewrite config_key_snoc; apply parent_snoc).
  assert (config_key name ≠ []) as Hne by done.
  destruct (resolve_job_file w name "config.json" Hn eq_refl) as [_ Hok].
  specialize (Hok Hj). fold (config_key name) in Hok.
  unfold Jobs._write_job_file. rewrite nonempty_app, Hv by done. cbn [negb orb].
  unfold bind at 1. unfold open_. rewrite nul_job_file, Hok by done.
  set (n1 := update (config_key name) (fun _ => Some (File "")) (fs w)).
  assert (read_at n1 (config_key name) = Some "") as Hn1.
  { unfold read_at, n1. rewrite find_update_eq; [done|done|by rewrite Hpar]. }
  exists (with_fs w (update (config_key name) (append_data txt) n1)).
  assert (read_at (update (config_key name) (append_data txt) n1) (config_key name)
          = Some txt) as Hfin by (by rewrite read_at_append_same, Hn1).
  unfold is_dir in Hc.
  destruct (find (fs w) (config_key name)) as [[d|ch]|] eqn:Hf; [|done|];
    monad; rewrite Hd; done.
Qed.

(** Creating a job that is not there yet. *)
Lemma create_job_fresh E w name kvs d s txt :
  simple_name name = true ->
  is_dir (fs w) jobs_root = true ->
  find (fs w) (job_key name) = None ->
  assoc "description" kvs = Some d -> truthy d = true ->
  assoc "steps" kvs = Some s -> truthy s = true ->
  json_dumps E (PDict (record_of name kvs)) = inr txt ->
  exists w',
    Jobs.create_job E (Some name) (PDict kvs) w
    = Ret (PDict [("success", PInt 1); ("message", PStr "Job created successfully")]) w'
    ∧ read_at (fs w') (config_key name) = Some txt
    ∧ cwd w' = cwd w ∧ drawn w' = drawn w ∧ ran w' = ran w.
Proof.
  intros Hn Hroot Hfresh Hd Htd Hs Hts Hdumps.
  set (w0 := with_fs w (update (job_key name) (fun _ => Some (Dir ∅)) (fs w))).
  assert (find (fs w0) (job_key name) = Some (Dir ∅)) as Hnew.
  { unfold w0. cbn [fs with_fs]. rewrite find_update_eq; [done|done|].
    unfold job_key. by rewrite parent_snoc. }
  destruct (write_job_file_config E w0 name (PDict (record_of name kvs)) txt)
    as (w' & Hw & Hread & Hc & Hdr & Hran); try done.
  { unfold is_dir. by rewrite Hnew. }
  { unfold is_dir. rewrite config_key_snoc, find_app. by rewrite Hnew. }
  { cbn. pose proof (assoc_set_nonnil "name" (PStr name)
      (assoc_set "lastFailedRun" (PInt 0)
         (assoc_set "lastSuccessfulRun" (PInt 0) (assoc_set "runNumber" (PInt 0) kvs)))).
    unfold record_of. by destruct (assoc_set "name" _ _). }
  exists w'. split; [|done].
  unfold Jobs.create_job, os_path_exists, Jobs.job_config_filename.
  unfold bind at 1. unfold try_except.
  unfold bind at 1. unfold str_concat at 1. unfold ret at 1. fold (job_dir_of name).
  unfold bind at 1. rewrite path_kind_job_dir by done. unfold kind_at. rewrite Hfresh.
  cbn [fmap option_fmap option_map].
  unfold bind at 1. rewrite os_mkdir_job_dir by done. fold w0.
  unfold getitem, setitem. monad. rewrite Hd, Htd, Hs, Hts. cbn [negb].
  change (opt_str (Some name)) with (PStr name). fold (record_of name kvs).
  by rewrite Hw.
Qed.

End Create.

(** C6.  For a name that is one directory entry, a non-empty description
    and a non-empty list of steps, on a machine whose registry exists and
    holds no entry of that name: [create_job] succeeds, and
    [get_job_by_name] then succeeds and returns, as [config_json], the JSON
    text of the record made of exactly that description, those steps, the
    three counters at 0 and that name. *)
Theorem create_then_get E w name description steps txt :
  simple_name name = true ->
  is_dir (fs w) jobs_root = true ->
  find (fs w) (job_key name) = None ->
  description ≠ "" -> steps ≠ [] ->
  json_dumps E (PDict [("description", PStr description);
                       ("steps", PList (PStr <$> steps));
                       ("runNumber", PInt 0); ("lastSuccessfulRun", PInt 0);
                       ("lastFailedRun", PInt 0); ("name", PStr name)])
  = inr txt ->
  exists w',
    Jobs.create_job E (Some name)
      (PDict [("description", PStr description); ("steps", PList (PStr <$> steps))]) w
    = Ret (PDict [("success", PInt 1); ("message", PStr "Job created successfully")]) w'
    ∧ Jobs.get_job_by_name (Some name) w'
      = Ret (PDict [("success", PInt 1); ("message", PStr "Ok");
                    ("name", PStr name); ("config_json", PStr txt)]) w'.
Proof.
  intros Hn Hroot Hfresh Hd Hs Hdumps.
  destruct (create_job_fresh E w name
              [("description", PStr description); ("steps", PList (PStr <$> steps))]
              (PStr description) (PList (PStr <$> steps)) txt)
    as (w' & Hc & Hr & _); try done.
  - by destruct description.
  - by destruct steps.
  - exists w'. split; [done|]. by apply get_job_by_name_present.
Qed.

Lemma create_then_get_witness :
  exists w',
    Jobs.create_job Demo.E (Some "j")
      (PDict [("description", PStr "build");
              ("steps", PList (PStr <$> ["true"; "false"; "true"]))]) Demo.w0
    = Ret (PDict [("success", PInt 1); ("message", PStr "Job created successfully")]) w'
    ∧ Jobs.get_job_by_name (Some "j") w'
      = Ret (PDict [("success", PInt 1); ("message", PStr "Ok");
                    ("name", PStr "j");
                    ("config_json",
                     PStr (Demo.dumps
                             (PDict [("description", PStr "build");
                                     ("steps", PList (PStr <$> ["true"; "false"; "true"]));
                                     ("runNumber", PInt 0); ("lastSuccessfulRun", PInt 0);
                                     ("lastFailedRun", PInt 0); ("name", PStr "j")])))]) w'.
Proof.
  apply (create_then_get Demo.E Demo.w0 "j" "build" ["true"; "false"; "true"]);
    first [reflexivity | discriminate].
Defined.

(** ** Removing a script or a scratch directory *)

Section Removal.

Implicit Types (w : world) (E : env) (u : N).

Lemma rm_rf_operands_plain x :
  all_chars plain_char x = true -> split_by blank x = [x] ->
  nonempty x = true -> starts_with_dash x = false ->
  rm_rf_operands ("rm -rf " +:+ x) = Some [x].
Proof.
  intros Hp Hs Hne Hd. unfold rm_rf_operands, shell_words.
  rewrite all_chars_app.
  rewrite (all_chars_impl plain_char (fun c => plain_char c || blank c) x); [|intros c ->; done|done].
  change (all_chars _ "rm -rf ") with true. cbn [andb].
  change ("rm -rf " +:+ x) with ("rm -rf" +:+ String " " x).
  rewrite split_by_app_sep by done. rewrite Hs.
  change (split_by blank "rm -rf") with ["rm"; "-rf"].
  cbn [app List.filter nonempty]. rewrite Hne. cbn [forallb]. by rewrite Hd.
Qed.

Lemma rm_rf_operands_script u :
  rm_rf_operands ("rm -rf " +:+ "viki-" +:+ uuid_str u) = Some ["viki-" +:+ uuid_str u].
Proof.
  destruct (viki_name_facts u) as (_ & _ & _ & Hp & Hs).
  by apply rm_rf_operands_plain.
Qed.

Lemma all_chars_before_uuid (q : ascii -> bool) pre u :
  (forall c, uuid_char c = true -> q c = true) ->
  all_chars q pre = true -> all_chars q (pre +:+ uuid_str u) = true.
Proof.
  intros Hq Hpre. rewrite all_chars_app, Hpre, andb_true_l.
  apply (all_chars_impl uuid_char); [done|apply uuid_str_chars].
Qed.

Lemma rm_rf_operands_tmp u :
  rm_rf_operands ("rm -rf " +:+ "/tmp/viki-" +:+ uuid_str u)
  = Some ["/tmp/viki-" +:+ uuid_str u].
Proof.
  apply rm_rf_operands_plain; try done.
  - apply all_chars_before_uuid; [|done].
    intros c Hc. by apply uuid_char_facts in Hc as (-> & _).
  - apply split_by_none. apply all_chars_before_uuid; [|done].
    intros c Hc. by apply uuid_char_facts in Hc as (_ & -> & _).
Qed.

Lemma last_name_script u : last_name ("viki-" +:+ uuid_str u) = "viki-" +:+ uuid_str u.
Proof.
  destruct (viki_name_facts u) as (Hs & _). unfold last_name. by rewrite Hs.
Qed.

Lemma last_name_tmp u : last_name ("/tmp/viki-" +:+ uuid_str u) = "viki-" +:+ uuid_str u.
Proof.
  destruct (viki_name_facts u) as (Hs & _). unfold last_name.
  change ("/tmp/viki-" +:+ uuid_str u) with ("/tmp" +:+ "/" +:+ "viki-" +:+ uuid_str u).
  by rewrite split_on_slash_app, Hs.
Qed.

(** [rm -rf] on one of these names: nothing happens when the name does
    not resolve, otherwise the entry it resolves to is removed. *)
Lemma rm_rf_one_cases w x p :
  ordinary (last_name x) -> p ≠ [] ->
  (forall q, resolve w x = inr q -> q = p) ->
  (rm_rf_one w x = w ∧ exists e, resolve w x = inl e)
  ∨ (rm_rf_one w x = with_fs w (update p (fun _ => None) (fs w)) ∧ resolve w x = inr p).
Proof.
  intros (H1 & H2 & H3) Hp Hres. unfold rm_rf_one.
  rewrite decide_False by (intros [?|?]; done).
  destruct (resolve w x) as [e|q] eqn:Hr; [left; eauto|].
  rewrite (Hres q eq_refl). right. by destruct p.
Qed.

Lemma rm_rf_one_tmp w u :
  let x := "/tmp/viki-" +:+ uuid_str u in
  let p := ["tmp"; "viki-" +:+ uuid_str u] in
  (rm_rf_one w x = w ∧ exists e, resolve w x = inl e)
  ∨ (rm_rf_one w x = with_fs w (update p (fun _ => None) (fs w)) ∧ resolve w x = inr p).
Proof.
  cbn zeta. apply rm_rf_one_cases; [|done|apply resolve_tmp].
  rewrite last_name_tmp. by destruct (viki_name_facts u) as (_ & ? & _).
Qed.

Lemma rm_rf_one_script w u :
  let x := "viki-" +:+ uuid_str u in
  let p := (cwd w ++ ["viki-" +:+ uuid_str u])%list in
  (rm_rf_one w x = w ∧ exists e, resolve w x = inl e)
  ∨ (rm_rf_one w x = with_fs w (update p (fun _ => None) (fs w)) ∧ resolve w x = inr p).
Proof.
  cbn zeta. apply rm_rf_one_cases; [| |apply resolve_script].
  - rewrite last_name_script. by destruct (viki_name_facts u) as (_ & ? & _).
  - by destruct (cwd w).
Qed.

(** After [rm -rf] the scratch directory is not there. *)
Lemma rm_tmp_gone w u :
  path_kind (rm_rf_one w ("/tmp/viki-" +:+ uuid_str u)) ("/tmp/viki-" +:+ uuid_str u) = None.
Proof.
  destruct (rm_rf_one_tmp w u) as [[-> [e He]]|[-> Hr]]; unfold path_kind.
  - rewrite He. by destruct (occurs nul _).
  - destruct (occurs nul _); [done|].
    destruct (resolve (with_fs w _) _) as [e|q] eqn:Hq; [done|].
    apply resolve_tmp in Hq as ->. unfold kind_at. cbn [fs with_fs].
    rewrite <- (app_nil_r ["tmp"; _]) at 2. by rewrite find_removed.
Qed.

Lemma dirty_rm_rf_tmp E w u :
  Jobs._dirty_rm_rf E ("/tmp/viki-" +:+ uuid_str u) w
  = match spawn_error E ("rm -rf " +:+ "/tmp/viki-" +:+ uuid_str u) w with
    | Some e => Raise e w
    | None => Ret true (rm_rf_one w ("/tmp/viki-" +:+ uuid_str u))
    end.
Proof.
  unfold Jobs._dirty_rm_rf, subprocess_call. monad.
  destruct (spawn_error E _ w); [done|]. by rewrite rm_rf_operands_tmp.
Qed.

Lemma dirty_rm_rf_script E w u :
  Jobs._dirty_rm_rf E ("viki-" +:+ uuid_str u) w
  = match spawn_error E ("rm -rf " +:+ "viki-" +:+ uuid_str u) w with
    | Some e => Raise e w
    | None => Ret true (rm_rf_one w ("viki-" +:+ uuid_str u))
    end.
Proof.
  unfold Jobs._dirty_rm_rf, subprocess_call. monad.
  destruct (spawn_error E _ w); [done|]. by rewrite rm_rf_operands_script.
Qed.

End Removal.

(** ** Running a job *)


Section Run.

Implicit Types (w : world) (E : env) (name : string).

Lemma nul_tmp u : occurs nul ("/tmp/viki-" +:+ uuid_str u) = false.
Proof.
  rewrite occurs_all_chars. apply negb_false_iff.
  apply all_chars_before_uuid; [|done].
  intros c Hc. by apply uuid_char_facts in Hc as (_ & _ & _ & ->).
Qed.

Lemma resolve_new_tmp w u :
  is_dir (fs w) ["tmp"] = true ->
  resolve_new w ("/tmp/viki-" +:+ uuid_str u) = inr ["tmp"; "viki-" +:+ uuid_str u].
Proof.
  intros Hd. destruct (resolve_tmp w u) as [_ Hok]. specialize (Hok Hd).
  unfold resolve, resolve_new in *.
  destruct (viki_name_facts u) as (Hs & (Hne & _) & _).
  change ("/tmp/viki-" +:+ uuid_str u) with ("/tmp" +:+ "/" +:+ "viki-" +:+ uuid_str u) in *.
  rewrite split_on_slash_app, Hs in *.
  change (split_on slash "/tmp") with ["" ; "tmp"] in *.
  cbn [app drop_trailing_empty].
  by destruct ("viki-" +:+ uuid_str u).
Qed.

(** Allocating the scratch directory. *)
Lemma os_mkdir_tmp E w :
  is_dir (fs w) ["tmp"] = true -> find (fs w) (tmp_key E w) = None ->
  os_mkdir (tmp_cwd_of E w) (drew w) = Ret tt (allocated E w).
Proof.
  intros Hd Hf. unfold os_mkdir, tmp_cwd_of.
  rewrite nul_tmp, (resolve_new_tmp (drew w)) by done.
  cbn [fs drew]. fold (tmp_key E w). by rewrite Hf.
Qed.

Lemma rm_rf_one_same w x :
  cwd (rm_rf_one w x) = cwd w ∧ drawn (rm_rf_one w x) = drawn w
  ∧ ran (rm_rf_one w x) = ran w.
Proof.
  unfold rm_rf_one. case_decide; [done|].
  by destruct (resolve w x) as [e|[|c p]].
Qed.

(** The validation in [run_job], for a job whose record is there and
    holds a list of steps. *)
Lemma run_try_steps E w name text kvs items rc :
  simple_name name = true ->
  read_at (fs w) (config_key name) = Some text ->
  json_loads E text = inr (PDict kvs) ->
  assoc "steps" kvs = Some (PList items) ->
  Jobs.run_try E (job_dir_of name) (job_dir_of name +:+ "/" +:+ "config.json") rc w
  = Jobs.run_steps E items (output_of name) rc w.
Proof.
  intros Hn Hr Hl Hs. destruct (config_above _ _ _ Hr) as [Hj Hroot].
  unfold Jobs.run_try, os_path_isdir, os_path_isfile.
  unfold bind at 1. rewrite path_kind_job_dir by done.
  unfold kind_at at 1. pose proof Hj as Hj'. unfold is_dir in Hj'.
  destruct (find (fs w) (job_key name)) as [[]|]; try done.
  cbn [fmap option_fmap option_map kind_of negb]. monad.
  rewrite path_kind_job_file by done. fold (config_key name).
  unfold kind_at. pose proof Hr as Hr'. unfold read_at in Hr'.
  destruct (find (fs w) (config_key name)) as [[]|]; try done.
  cbn [fmap option_fmap option_map kind_of negb].
  rewrite (read_job_file_present w name text) by done.
  unfold py_json_loads, getitem, py_iter. monad. rewrite Hl, Hs. done.
Qed.

Lemma open_same path m w h w' :
  open_ path m w = Ret h w' -> cwd w' = cwd w ∧ drawn w' = drawn w ∧ ran w' = ran w.
Proof. intros (_ & _ & _ & [->| ->])%open_Ret; done. Qed.

(** A completed call of the Command Runner started exactly one command. *)
Lemma run_shell_command_ran E command filename w r w' :
  Jobs._run_shell_command E command filename w = Ret r w' ->
  exists text, command = PStr text ∧ ran w' = (ran w ++ [text])%list.
Proof.
  intros H. unfold Jobs._run_shell_command in H.
  apply bind_Ret in H as (h1 & w1 & Ho & H). apply open_same in Ho as (_ & _ & Hr1).
  apply bind_Ret in H as (u & w2 & Hu & H). injection Hu as <- <-.
  apply bind_Ret in H as (h2 & w3 & Ho & H). apply open_same in Ho as (_ & _ & Hr3).
  apply bind_Ret in H as (text & w4 & Ht & H).
  destruct command; try done. injection Ht as <- <-.
  apply bind_Ret in H as ([] & w5 & Hw & H). injection Hw as <-.
  apply bind_Ret in H as (rc & w6 & Hp & H).
  apply bind_Ret in H as (b & w7 & Hrm & H). injection H as <- <-.
  exists s. split; [done|].
  unfold popen_and_poll in Hp. destruct (spawn_error E s _); [done|].
  destruct (shell E s _) as [[[rc' out] n']|]; [|done]. injection Hp as <- <-.
  match type of Hrm with
  | Jobs._dirty_rm_rf _ ?x _ = _ =>
      change x with ("viki-" +:+ uuid_str (uuid_v4 (urandom E (drawn w1)))) in Hrm
  end.
  rewrite dirty_rm_rf_script in Hrm. destruct (spawn_error E _ _); [done|].
  injection Hrm as <- <-.
  match goal with
  | |- ran (rm_rf_one ?a ?b) = _ => destruct (rm_rf_one_same a b) as (_ & _ & ->)
  end.
  cbn. by rewrite Hr3, Hr1.
Qed.

Lemma all_pass_ran E filename cs w w' :
  all_pass E filename cs w w' -> ran w' = (ran w ++ cs)%list.
Proof.
  induction 1 as [w|c cs w w1 w2 Hc Hcs IH]; [by rewrite app_nil_r|].
  apply run_shell_command_ran in Hc as (text & [= <-] & Hr).
  by rewrite IH, Hr, <- app_assoc.
Qed.

(** The loop stops at the first failing step. *)
Lemma run_steps_fail_fast E filename pre failing post rc0 code w w1 w2 :
  all_pass E filename pre w w1 ->
  Jobs._run_shell_command E (PStr failing) filename w1 = Ret (false, code) w2 ->
  Jobs.run_steps E (PStr <$> (pre ++ failing :: post)%list) filename rc0 w
  = Ret (code, Some (Exn SystemError "Build step failed")) w2.
Proof.
  intros Hpre Hfail. revert rc0.
  induction Hpre as [w|c cs w wa wb Hc Hcs IH]; intros rc0.
  - cbn. by rewrite Hfail.
  - cbn. rewrite Hc. cbn. by apply IH.
Qed.

(** When every step passes the loop runs them all. *)
Lemma run_steps_all_pass E filename cs rc0 w w1 :
  all_pass E filename cs w w1 ->
  Jobs.run_steps E (PStr <$> cs) filename rc0 w
  = Ret (if cs is [] then rc0 else 0%Z, None) w1.
Proof.
  intros Hpre. revert rc0.
  induction Hpre as [w|c cs w wa wb Hc Hcs IH]; intros rc0; [done|].
  cbn. rewrite Hc. cbn. rewrite IH. by destruct cs.
Qed.

End Run.

Section RunJob.

Implicit Types (w : world) (E : env) (name : string).

Lemma allocated_keeps_config E w name :
  read_at (fs (allocated E w)) (config_key name) = read_at (fs w) (config_key name).
Proof. apply read_at_update_frame. by intros [r [=]]. Qed.

(** [run_job] from the end of its [try] statement on. *)
Lemma run_job_finish E w name rc pending w3 success message :
  is_dir (fs w) ["tmp"] = true -> find (fs w) (tmp_key E w) = None ->
  Jobs.run_try E (job_dir_of name) (job_dir_of name +:+ "/" +:+ "config.json") 0
    (allocated E w) = Ret (rc, pending) w3 ->
  run_verdict pending = Some (success, message) ->
  spawn_error E ("rm -rf " +:+ tmp_cwd_of E w) w3 = None ->
  Jobs.run_job E (Some name) w
  = Ret (PDict [("success", PInt success); ("message", PStr message);
                ("return_code", PInt rc)])
        (rm_rf_one w3 (tmp_cwd_of E w)).
Proof.
  intros Hd Hf Htry Hv Hs. unfold Jobs.run_job.
  unfold bind at 1. unfold str_concat, ret at 1. fold (job_dir_of name).
  unfold bind at 1. change (uuid4 E w) with (Ret (uuid_v4 (urandom E (drawn w))) (drew w)).
  cbv beta iota. fold (tmp_cwd_of E w).
  unfold bind at 1. rewrite os_mkdir_tmp by done.
  unfold bind at 1. rewrite Htry.
  unfold bind at 1. unfold run_verdict in Hv.
  destruct pending as [e|].
  - destruct (bool_decide (cls e ∈ _)).
    + injection Hv as <- <-. monad. unfold tmp_cwd_of in *.
      by rewrite dirty_rm_rf_tmp, Hs.
    + destruct (bool_decide (cls e = KeyError)); [|done].
      injection Hv as <- <-. monad. unfold tmp_cwd_of in *.
      by rewrite dirty_rm_rf_tmp, Hs.
  - injection Hv as <- <-. monad. unfold tmp_cwd_of in *.
    by rewrite dirty_rm_rf_tmp, Hs.
Qed.

(** C4.  For a job whose recorded steps are [pre], then [failing], then
    [post], where the steps of [pre] all pass and the Command Runner
    reports [failing] as failed with exit status [code]: [run_job] returns
    success 0 and the return code [code], and the commands it started are
    those of [pre] and [failing] and no other; no step of [post] is
    run. *)
Theorem run_job_fail_fast E w name text kvs pre failing post w1 w2 code :
  simple_name name = true ->
  read_at (fs w) (config_key name) = Some text ->
  json_loads E text = inr (PDict kvs) ->
  assoc "steps" kvs = Some (PList (PStr <$> (pre ++ failing :: post)%list)) ->
  is_dir (fs w) ["tmp"] = true ->
  find (fs w) (tmp_key E w) = None ->
  all_pass E (output_of name) pre (allocated E w) w1 ->
  Jobs._run_shell_command E (PStr failing) (output_of name) w1 = Ret (false, code) w2 ->
  spawn_error E ("rm -rf " +:+ tmp_cwd_of E w) w2 = None ->
  exists w',
    Jobs.run_job E (Some name) w
    = Ret (PDict [("success", PInt 0); ("message", PStr "Build step failed");
                  ("return_code", PInt code)]) w'
    ∧ ran w' = (ran w ++ pre ++ [failing])%list.
Proof.
  intros Hn Hr Hl Hs Hd Hf Hpre Hfail Hsp.
  exists (rm_rf_one w2 (tmp_cwd_of E w)). split.
  - apply (run_job_finish E w name code
             (Some (Exn SystemError "Build step failed")) w2); try done.
    rewrite (run_try_steps E _ name text kvs (PStr <$> (pre ++ failing :: post)%list));
      try done.
    + by eapply run_steps_fail_fast.
    + by rewrite allocated_keeps_config.
  - destruct (rm_rf_one_same w2 (tmp_cwd_of E w)) as (_ & _ & ->).
    apply run_shell_command_ran in Hfail as (t & [= <-] & ->).
    apply all_pass_ran in Hpre as ->. by rewrite <- app_assoc.
Qed.

(** C3 (the code departs from the claim).  For a job whose record holds
    an empty list of steps, [run_job] reports success: success 1, the
    message of a successful run, return code 0.  The scratch directory is
    removed, as the claim says. *)
Theorem run_job_empty_steps E w name text kvs :
  simple_name name = true ->
  read_at (fs w) (config_key name) = Some text ->
  json_loads E text = inr (PDict kvs) ->
  assoc "steps" kvs = Some (PList []) ->
  is_dir (fs w) ["tmp"] = true ->
  find (fs w) (tmp_key E w) = None ->
  spawn_error E ("rm -rf " +:+ tmp_cwd_of E w) (allocated E w) = None ->
  exists w',
    Jobs.run_job E (Some name) w
    = Ret (PDict [("success", PInt 1); ("message", PStr "Run successful");
                  ("return_code", PInt 0)]) w'
    ∧ os_path_exists (tmp_cwd_of E w) w' = Ret false w'.
Proof.
  intros Hn Hr Hl Hs Hd Hf Hsp.
  exists (rm_rf_one (allocated E w) (tmp_cwd_of E w)). split.
  - apply (run_job_finish E w name 0 None (allocated E w)); try done.
    rewrite (run_try_steps E _ name text kvs []); try done.
    by rewrite allocated_keeps_config.
  - unfold os_path_exists, tmp_cwd_of. by rewrite rm_tmp_gone.
Qed.

(** A run whose steps all pass: success 1, return code 0, and every step
    was run, in order. *)
Lemma run_job_all_pass E w name text kvs steps w1 :
  simple_name name = true ->
  read_at (fs w) (config_key name) = Some text ->
  json_loads E text = inr (PDict kvs) ->
  assoc "steps" kvs = Some (PList (PStr <$> steps)) ->
  is_dir (fs w) ["tmp"] = true ->
  find (fs w) (tmp_key E w) = None ->
  all_pass E (output_of name) steps (allocated E w) w1 ->
  spawn_error E ("rm -rf " +:+ tmp_cwd_of E w) w1 = None ->
  exists w',
    Jobs.run_job E (Some name) w
    = Ret (PDict [("success", PInt 1); ("message", PStr "Run successful");
                  ("return_code", PInt 0)]) w'
    ∧ ran w' = (ran w ++ steps)%list.
Proof.
  intros Hn Hr Hl Hs Hd Hf Hpass Hsp.
  exists (rm_rf_one w1 (tmp_cwd_of E w)). split.
  - apply (run_job_finish E w name 0 None w1); try done.
    rewrite (run_try_steps E _ name text kvs (PStr <$> steps)); try done.
    + rewrite (run_steps_all_pass E _ steps 0 _ w1) by done. by destruct steps.
    + by rewrite allocated_keeps_config.
  - destruct (rm_rf_one_same w1 (tmp_cwd_of E w)) as (_ & _ & ->).
    by apply all_pass_ran in Hpass as ->.
Qed.

End RunJob.

(** ** A run leaves the record of the job alone *)

Section Sparing.

Context (E : env) (name : string).
Hypothesis name_simple : simple_name name = true.

#[local] Abbreviation K := (config_key name).




















End Sparing.



(** ** The Command Runner *)

Lemma bind_Hang {A B} (m : M A) (k : A -> M B) w :
  bind m k w = Hang -> m w = Hang ∨ exists a w1, m w = Ret a w1 ∧ k a w1 = Hang.
Proof. unfold bind. destruct (m w) as [a w1|e w1|]; intros H; try done; eauto. Qed.

Lemma open_not_Hang path m w : open_ path m w ≠ Hang.
Proof.
  unfold open_. destruct (occurs nul path); [done|].
  destruct (resolve w path) as [e|h]; [done|].
  by destruct (find (fs w) h) as [[]|], m.
Qed.

(** A call that comes back with a pair ran the command to its end. *)
Lemma run_shell_command_Ret E command filename w ok rc w' :
  Jobs._run_shell_command E command filename w = Ret (ok, rc) w' ->
  ok = bool_decide (rc = 0%Z)
  ∧ exists text w0 output n',
      command = PStr text ∧ spawn_error E text w0 = None
      ∧ shell E text w0 = Some (rc, output, n').
Proof.
  intros H. unfold Jobs._run_shell_command in H.
  apply bind_Ret in H as (h1 & w1 & _ & H).
  apply bind_Ret in H as (u & w2 & _ & H).
  apply bind_Ret in H as (h2 & w3 & _ & H).
  apply bind_Ret in H as (text & w4 & Ht & H).
  assert (command = PStr text) as -> by (destruct command; cbv in Ht; congruence).
  apply bind_Ret in H as ([] & w5 & _ & H).
  apply bind_Ret in H as (rc' & w6 & Hp & H).
  apply bind_Ret in H as (b & w7 & _ & H).
  apply popen_and_poll_Ret in Hp as (output & n' & Hsp & Hsh & _).
  assert (ok = bool_decide (rc' = 0%Z) ∧ rc = rc') as [-> ->].
  { unfold ret in H. destruct (Z.eqb_spec rc' 0) as [->|Hne].
    - by injection H as <- <-.
    - injection H as <- <-. by rewrite bool_decide_eq_false_2. }
  split; [done|]. by exists text, w5, output, n'.
Qed.

(** A call that does not come back is one whose command never exits. *)
Lemma run_shell_command_Hang E command filename w :
  Jobs._run_shell_command E command filename w = Hang ->
  exists text w0, command = PStr text ∧ spawn_error E text w0 = None
                  ∧ shell E text w0 = None.
Proof.
  intros H. unfold Jobs._run_shell_command in H.
  apply bind_Hang in H as [H|(h1 & w1 & _ & H)]; [by apply open_not_Hang in H|].
  apply bind_Hang in H as [H|(u & w2 & _ & H)]; [done|].
  apply bind_Hang in H as [H|(h2 & w3 & _ & H)]; [by apply open_not_Hang in H|].
  apply bind_Hang in H as [H|(text & w4 & Ht & H)]; [by destruct command|].
  assert (command = PStr text) as -> by (destruct command; cbv in Ht; congruence).
  apply bind_Hang in H as [H|([] & w5 & _ & H)]; [done|].
  apply bind_Hang in H as [H|(rc' & w6 & Hp & H)].
  - exists text, w5. split; [done|]. unfold popen_and_poll in H.
    destruct (spawn_error E text w5); [done|].
    by destruct (shell E text w5) as [[[]]|].
  - apply bind_Hang in H as [H|(b & w7 & _ & H)]; [|done].
    rewrite dirty_rm_rf_script in H. by destruct (spawn_error E _ w6).
Qed.

(** C5, as amended.  Take a call of the Command Runner on a command
    given as text, in which the output file could be opened and the script
    written, and let [started_in] be the world in which the command is then
    started.
    - When /bin/bash starts there and the command ends there with exit
      status [rc] (negative after a signal), and /bin/bash starts again
      for the removal of the script, the Command Runner returns: its flag
      is true exactly when [rc] is 0, and the status it returns is [rc].
    - When /bin/bash cannot be started for the command, the Command Runner
      returns nothing, no pair with a false flag and no negative code: the
      exception of the failed spawn leaves it, in the world [started_in].
    - Likewise when /bin/bash cannot be started for the removal of the
      script. *)
Theorem run_shell_command_outcome E command filename w out w1 script w3 :
  open_ filename mode_a w = Ret out w1 ->
  open_ (script_of E w1) mode_w (drew w1) = Ret script w3 ->
  let started_in := with_fs w3 (update script (append_data command) (fs w3)) in
  (forall rc output n',
     spawn_error E command started_in = None ->
     shell E command started_in = Some (rc, output, n') ->
     let exited_in :=
       log_ran command (with_fs started_in (update out (append_data output) n')) in
     (spawn_error E ("rm -rf " +:+ script_of E w1) exited_in = None ->
      Jobs._run_shell_command E (PStr command) filename w
      = Ret (bool_decide (rc = 0%Z), rc) (rm_rf_one exited_in (script_of E w1)))
     ∧ (forall e, spawn_error E ("rm -rf " +:+ script_of E w1) exited_in = Some e ->
        Jobs._run_shell_command E (PStr command) filename w = Raise e exited_in))
  ∧ (forall e,
       spawn_error E command started_in = Some e ->
       Jobs._run_shell_command E (PStr command) filename w = Raise e started_in).
Proof.
  intros Ho1 Ho2 started_in.
  assert (Jobs._run_shell_command E (PStr command) filename w
          = bind (popen_and_poll E command out)
              (fun return_code =>
                 Jobs._dirty_rm_rf E (script_of E w1) ;;;
                 ret (if (return_code =? 0)%Z then (true, return_code)
                      else (false, return_code))) started_in) as Hrun.
  { unfold Jobs._run_shell_command.
    unfold bind at 1. rewrite Ho1.
    unfold bind at 1. change (uuid4 E w1) with (Ret (uuid_v4 (urandom E (drawn w1))) (drew w1)).
    cbv beta iota zeta. fold (script_of E w1).
    unfold bind at 1. rewrite Ho2.
    unfold bind at 1. unfold as_text, ret at 1.
    unfold bind at 1. unfold file_write. done. }
  rewrite Hrun. split.
  - intros rc output n' Hsp Hsh exited_in.
    assert (popen_and_poll E command out started_in = Ret rc exited_in) as Hp
      by (unfold popen_and_poll; by rewrite Hsp, Hsh).
    match goal with
    | |- (_ -> ?run = _) ∧ _ =>
        assert (run = match spawn_error E ("rm -rf " +:+ script_of E w1) exited_in with
                      | Some e => Raise e exited_in
                      | None => Ret (bool_decide (rc = 0%Z), rc)
                                    (rm_rf_one exited_in (script_of E w1))
                      end) as ->
    end.
    { unfold bind at 1. rewrite Hp. unfold bind at 1.
      unfold script_of. rewrite dirty_rm_rf_script.
      destruct (spawn_error E _ exited_in); [done|].
      unfold ret. f_equal.
      destruct (Z.eqb_spec rc 0) as [->|Hne]; [done|].
      by rewrite bool_decide_eq_false_2. }
    split; [intros Hrm|intros e Hrm]; by rewrite Hrm.
  - intros e Hsp. unfold bind at 1, popen_and_poll. by rewrite Hsp.
Qed.

(** ** The claims on concrete machines *)

(** C5, a spawn failure.  On a machine where /bin/bash does not start,
    the Command Runner raises the [OSError] of the failed spawn; it does
    not return a pair with a false flag and a negative code. *)
Lemma run_shell_command_spawn_failure_raises :
  spawn_error Demo.E_no_bash "true" Demo.w1
  = Some (Exn OSError "[Errno 2] No such file or directory: b'/bin/bash'")
  ∧ (exists w',
       Jobs._run_shell_command Demo.E_no_bash (PStr "true") (output_of "j") Demo.w1
       = Raise (Exn OSError "[Errno 2] No such file or directory: b'/bin/bash'") w')
  ∧ ¬ (exists rc w',
         Jobs._run_shell_command Demo.E_no_bash (PStr "true") (output_of "j") Demo.w1
         = Ret (false, rc) w').
Proof.
  split; [reflexivity|].
  assert (exists w',
       Jobs._run_shell_command Demo.E_no_bash (PStr "true") (output_of "j") Demo.w1
       = Raise (Exn OSError "[Errno 2] No such file or directory: b'/bin/bash'") w')
    as [w' Hw] by (eexists; vm_compute; reflexivity).
  split; [by exists w'|]. intros (rc & w'' & H). congruence.
Qed.

Lemma run_shell_command_outcome_witness :
  (exists w',
     Jobs._run_shell_command Demo.E (PStr "false") (output_of "j") Demo.w1
     = Ret (false, 1%Z) w')
  ∧ (exists w',
       Jobs._run_shell_command Demo.E (PStr "true") (output_of "j") Demo.w1
       = Ret (true, 0%Z) w')
  ∧ (exists w',
       Jobs._run_shell_command Demo.E_kill (PStr "kill -9 $$") (output_of "j") Demo.w1
       = Ret (false, (-9)%Z) w')
  ∧ (exists w',
       Jobs._run_shell_command Demo.E_no_bash (PStr "true") (output_of "j") Demo.w1
       = Raise (Exn OSError "[Errno 2] No such file or directory: b'/bin/bash'") w').
Proof.
  pose (w1 := Demo.world_after (open_ (output_of "j") mode_a Demo.w1)).
  pose (w3 := Demo.world_after (open_ (script_of Demo.E w1) mode_w (drew w1))).
  assert (forall E, urandom E = urandom Demo.E ->
            open_ (output_of "j") mode_a Demo.w1 = Ret (output_key "j") w1
            ∧ open_ (script_of E w1) mode_w (drew w1)
              = Ret (cwd Demo.w1 ++ [script_of Demo.E w1])%list w3) as Hopen.
  { intros E HE. unfold script_of. rewrite HE. split; vm_compute; reflexivity. }
  repeat split.
  - destruct (Hopen Demo.E eq_refl) as [Ho1 Ho2]. eexists.
    apply (proj1 (run_shell_command_outcome Demo.E "false" (output_of "j") Demo.w1
                    _ _ _ _ Ho1 Ho2) 1%Z
             ("+ false" +:+ Demo.newline)
             (fs (with_fs w3 (update (cwd Demo.w1 ++ [script_of Demo.E w1])%list
                                (append_data "false") (fs w3)))));
      vm_compute; reflexivity.
  - destruct (Hopen Demo.E eq_refl) as [Ho1 Ho2]. eexists.
    apply (proj1 (run_shell_command_outcome Demo.E "true" (output_of "j") Demo.w1
                    _ _ _ _ Ho1 Ho2) 0%Z
             ("+ true" +:+ Demo.newline)
             (fs (with_fs w3 (update (cwd Demo.w1 ++ [script_of Demo.E w1])%list
                                (append_data "true") (fs w3)))));
      vm_compute; reflexivity.
  - destruct (Hopen Demo.E_kill eq_refl) as [Ho1 Ho2]. eexists.
    apply (proj1 (run_shell_command_outcome Demo.E_kill "kill -9 $$" (output_of "j")
                    Demo.w1 _ _ _ _ Ho1 Ho2) (-9)%Z
             ("+ kill -9 4711" +:+ Demo.newline)
             (fs (with_fs w3 (update (cwd Demo.w1 ++ [script_of Demo.E w1])%list
                                (append_data "kill -9 $$") (fs w3)))));
      vm_compute; reflexivity.
  - destruct (Hopen Demo.E_no_bash eq_refl) as [Ho1 Ho2]. eexists.
    apply (proj2 (run_shell_command_outcome Demo.E_no_bash "true" (output_of "j")
                    Demo.w1 _ _ _ _ Ho1 Ho2)).
    reflexivity.
Defined.

(** C2 (the code departs from the claim).  Exceptions that no handler of
    the method names leave the public operations:
    - [get_jobs] on a machine without registry: [os.walk] yields nothing
      and [next] raises [StopIteration];
    - [create_job] on the same machine: the [OSError] of [os.mkdir];
    - [create_job] with a definition that has no description: [KeyError];
    - [run_job] on a job whose record is not JSON: the [ValueError] of
      [json.loads], and the scratch directory of the run stays on disk;
    - [run_job] without a name: [TypeError], before anything is done. *)
Theorem public_operations_raise :
  Jobs.get_jobs Demo.w_bare = Raise (Exn StopIteration "") Demo.w_bare
  ∧ Jobs.create_job Demo.E (Some "k") Demo.job1 Demo.w_bare
    = Raise (Exn OSError
               "[Errno 2] No such file or directory: '/usr/local/viki/jobs/k'")
            Demo.w_bare
  ∧ (exists w',
       Jobs.create_job Demo.E (Some "k") (PDict [("steps", PList [PStr "true"])]) Demo.w0
       = Raise (Exn KeyError "'description'") w')
  ∧ (exists w',
       Jobs.run_job Demo.E (Some "broken") Demo.w_corrupt
       = Raise (Exn ValueError "Expecting value") w'
       ∧ os_path_exists (tmp_cwd_of Demo.E Demo.w_corrupt) w' = Ret true w')
  ∧ (exists e, Jobs.run_job Demo.E None Demo.w0 = Raise e Demo.w0 ∧ cls e = TypeError).
Proof.
  split; [vm_compute; reflexivity|].
  split; [vm_compute; reflexivity|].
  split; [eexists; vm_compute; reflexivity|].
  split.
  - exists (Demo.world_after (Jobs.run_job Demo.E (Some "broken") Demo.w_corrupt)).
    split; vm_compute; reflexivity.
  - eexists. split; [vm_compute; reflexivity|reflexivity].
Qed.

(** *** A definition that fails validation *)

Lemma create_job_missing_description E w name kvs d :
  simple_name name = true ->
  is_dir (fs w) jobs_root = true ->
  find (fs w) (job_key name) = None ->
  assoc "description" kvs = Some d -> truthy d = false ->
  let w1 := with_fs w (update (job_key name) (fun _ => Some (Dir ∅)) (fs w)) in
  Jobs.create_job E (Some name) (PDict kvs) w
  = Ret (PDict [("success", PInt 0); ("message", PStr "Missing description")]) w1
  ∧ find (fs w1) (job_key name) = Some (Dir ∅)
  ∧ forall json_text,
      Jobs.create_job E (Some name) json_text w1
      = Ret (PDict [("success", PInt 0);
                    ("message", PStr "Job directory already exists")]) w1.
Proof.
  intros Hn Hroot Hfresh Hd Htd w1.
  assert (find (fs w1) (job_key name) = Some (Dir ∅)) as Hnew.
  { unfold w1. cbn [fs with_fs]. rewrite find_update_eq; [done|done|].
    unfold job_key. by rewrite parent_snoc. }
  split; [|split; [done|]].
  - unfold Jobs.create_job, os_path_exists.
    unfold bind at 1. unfold try_except.
    unfold bind at 1. unfold str_concat at 1. unfold ret at 1. fold (job_dir_of name).
    unfold bind at 1. rewrite path_kind_job_dir by done. unfold kind_at. rewrite Hfresh.
    cbn [fmap option_fmap option_map].
    unfold bind at 1. rewrite os_mkdir_job_dir by done. fold w1.
    unfold getitem. monad. by rewrite Hd, Htd.
  - intros json_text. apply (create_job_present E name json_text w1 KDir).
    rewrite path_kind_job_dir by done. unfold kind_at. by rewrite Hnew.
Qed.

(** C10.  There is an input with an empty description for which
    [create_job] returns success 0 and yet leaves the directory of the job
    behind, empty; no record was written, and creating a job of that name
    afterwards, even with a valid definition, fails because the directory
    already exists. *)
Theorem create_job_not_atomic E :
  exists w name json_text w1,
    assoc "description" json_text = Some (PStr "")
    ∧ Jobs.create_job E (Some name) (PDict json_text) w
      = Ret (PDict [("success", PInt 0); ("message", PStr "Missing description")]) w1
    ∧ os_path_exists (job_dir_of name) w = Ret false w
    ∧ os_path_isdir (job_dir_of name) w1 = Ret true w1
    ∧ os_path_exists (job_dir_of name +:+ "/" +:+ Jobs.job_config_filename) w1
      = Ret false w1
    ∧ Jobs.create_job E (Some name) Demo.job1 w1
      = Ret (PDict [("success", PInt 0);
                    ("message", PStr "Job directory already exists")]) w1.
Proof.
  exists Demo.w0, "j", [("description", PStr ""); ("steps", PList [PStr "true"])].
  destruct (create_job_missing_description E Demo.w0 "j"
              [("description", PStr ""); ("steps", PList [PStr "true"])] (PStr ""))
    as (Hc & Hnew & Hagain); try done.
  eexists. split; [done|]. split; [exact Hc|].
  split; [vm_compute; reflexivity|]. split; [vm_compute; reflexivity|].
  split; [vm_compute; reflexivity|]. apply Hagain.
Qed.

(** *** The theorems above, applied *)

Lemma run_job_empty_steps_witness :
  exists w',
    Jobs.run_job Demo.E (Some "idle") Demo.w_idle
    = Ret (PDict [("success", PInt 1); ("message", PStr "Run successful");
                  ("return_code", PInt 0)]) w'
    ∧ os_path_exists (tmp_cwd_of Demo.E Demo.w_idle) w' = Ret false w'.
Proof.
  apply (run_job_empty_steps Demo.E Demo.w_idle "idle"
           (Demo.dumps (PDict Demo.record_no_steps)) Demo.record_no_steps);
    vm_compute; reflexivity.
Defined.

Lemma run_job_fail_fast_witness :
  exists w',
    Jobs.run_job Demo.E (Some "j") Demo.w1
    = Ret (PDict [("success", PInt 0); ("message", PStr "Build step failed");
                  ("return_code", PInt 1)]) w'
    ∧ ran w' = (ran Demo.w1 ++ ["true"] ++ ["false"])%list.
Proof.
  apply (run_job_fail_fast Demo.E Demo.w1 "j"
           (Demo.dumps (PDict (record_of "j"
              [("description", PStr "build");
               ("steps", PList [PStr "true"; PStr "false"; PStr "true"])])))
           (record_of "j"
              [("description", PStr "build");
               ("steps", PList [PStr "true"; PStr "false"; PStr "true"])])
           ["true"] "false" ["true"] Demo.w1_true Demo.w1_false 1%Z);
    try (vm_compute; reflexivity).
  apply (all_pass_cons Demo.E _ "true" [] _ Demo.w1_true Demo.w1_true);
    [vm_compute; reflexivity|constructor].
Defined.




(** ** Further properties of the registry operations *)

(** *** Looking a job up *)


Lemma get_job_by_name_not_found w name :
  simple_name name = true ->
  is_dir (fs w) (job_key name) = false ∨ find (fs w) (config_key name) = None ->
  Jobs.get_job_by_name (Some name) w
  = Ret (PDict [("success", PInt 0); ("message", PStr "Job directory not found");
                ("name", PStr name); ("config_json", PStr "")]) w.
Proof.
  intros Hn Habs.
  unfold Jobs.get_job_by_name, os_path_isdir, os_path_exists, Jobs.job_config_filename.
  monad. fold (job_dir_of name).
  rewrite path_kind_job_dir by done. unfold kind_at at 1.
  destruct (find (fs w) (job_key name)) as [[d|ch]|] eqn:Hj; try done.
  cbn [fmap option_fmap option_map kind_of].
  rewrite path_kind_job_file by done. fold (config_key name).
  destruct Habs as [Hd|Hc].
  - unfold is_dir in Hd. by rewrite Hj in Hd.
  - unfold kind_at. by rewrite Hc.
Qed.

(** X2.  For a name that is one directory entry: when the registry has
    no directory of that name, or the directory has no [config.json],
    [get_job_by_name] answers success 0 with the message that the job
    directory was not found, and an empty [config_json]. *)
Theorem get_job_by_name_absent w name :
  simple_name name = true ->
  is_dir (fs w) (job_key name) = false ∨ find (fs w) (config_key name) = None ->
  Jobs.get_job_by_name (Some name) w
  = Ret (PDict [("success", PInt 0); ("message", PStr "Job directory not found");
                ("name", PStr name); ("config_json", PStr "")]) w.
Proof. apply get_job_by_name_not_found. Qed.

Lemma get_job_by_name_absent_witness :
  Jobs.get_job_by_name (Some "ghost") Demo.w1
  = Ret (PDict [("success", PInt 0); ("message", PStr "Job directory not found");
                ("name", PStr "ghost"); ("config_json", PStr "")]) Demo.w1.
Proof.
  apply (get_job_by_name_absent Demo.w1 "ghost"); [reflexivity|].
  left. reflexivity.
Defined.

(** *** Listing the jobs *)

Lemma resolve_registry w :
  is_dir (fs w) jobs_root = true -> resolve w Jobs.jobs_path = inr jobs_root.
Proof.
  intros Hd.
  destruct (resolve_absolute w Jobs.jobs_path ["usr"; "local"; "viki"] "jobs")
    as [_ Hok]; try done.
  - repeat constructor; done.
  - apply Hok. by apply (is_dir_prefix _ _ ["jobs"]).
Qed.

Lemma is_dir_job_key n ch name :
  find n jobs_root = Some (Dir ch) ->
  is_dir n (job_key name) = true <-> exists m, ch !! name = Some m ∧ kind_of m = KDir.
Proof.
  intros Hf. unfold is_dir, job_key. rewrite find_app, Hf. cbn.
  destruct (ch !! name) as [[d|ch']|]; split; try done.
  - by intros (m & [= <-] & ?).
  - eauto.
  - by intros (m & ? & ?).
Qed.

Lemma get_jobs_listing w :
  is_dir (fs w) jobs_root = true ->
  exists jobs_list,
    Jobs.get_jobs w
    = Ret (PDict [("success", PInt 1); ("message", PStr "Ok");
                  ("jobs", PList (PStr <$> jobs_list))]) w
    ∧ NoDup jobs_list
    ∧ forall name, name ∈ jobs_list <-> is_dir (fs w) (job_key name) = true.
Proof.
  intros Hd. unfold Jobs.get_jobs, os_walk_next. monad.
  change (occurs nul Jobs.jobs_path) with false. cbn match.
  rewrite resolve_registry by done.
  pose proof Hd as Hd'. unfold is_dir in Hd'.
  destruct (find (fs w) jobs_root) as [[d|ch]|] eqn:Hf; try done.
  eexists. split; [reflexivity|]. cbn [fst snd]. split.
  - apply NoDup_fst_map_to_list.
  - intros name. rewrite (is_dir_job_key _ ch) by done.
    rewrite list_elem_of_fmap. split.
    + intros ([k m] & -> & Hin). apply elem_of_map_to_list in Hin.
      apply map_lookup_filter_Some in Hin as [Hl Hk]. eauto.
    + intros (m & Hl & Hk). exists (name, m). split; [done|].
      apply elem_of_map_to_list. by apply map_lookup_filter_Some.
Qed.

(** X3.  On a machine whose registry exists, [get_jobs] changes nothing
    and answers success 1 with a list, free of repetitions, that holds
    exactly the names of the directories of the registry: regular files
    lying there are not listed. *)
Theorem get_jobs_lists_directories w :
  is_dir (fs w) jobs_root = true ->
  exists jobs_list,
    Jobs.get_jobs w
    = Ret (PDict [("success", PInt 1); ("message", PStr "Ok");
                  ("jobs", PList (PStr <$> jobs_list))]) w
    ∧ NoDup jobs_list
    ∧ forall name, name ∈ jobs_list <-> is_dir (fs w) (job_key name) = true.
Proof. apply get_jobs_listing. Qed.

Lemma get_jobs_lists_directories_witness :
  exists jobs_list,
    Jobs.get_jobs Demo.w1
    = Ret (PDict [("success", PInt 1); ("message", PStr "Ok");
                  ("jobs", PList (PStr <$> jobs_list))]) Demo.w1
    ∧ NoDup jobs_list
    ∧ forall name, name ∈ jobs_list <-> is_dir (fs Demo.w1) (job_key name) = true.
Proof. apply (get_jobs_lists_directories Demo.w1). reflexivity. Defined.

(** X4.  A job that [create_job] has just created is in the list that
    [get_jobs] returns. *)
Theorem create_then_list E name json_text w w1 :
  simple_name name = true ->
  Jobs.create_job E (Some name) json_text w
  = Ret (PDict [("success", PInt 1); ("message", PStr "Job created successfully")]) w1 ->
  exists jobs_list,
    Jobs.get_jobs w1
    = Ret (PDict [("success", PInt 1); ("message", PStr "Ok");
                  ("jobs", PList (PStr <$> jobs_list))]) w1
    ∧ name ∈ jobs_list.
Proof.
  intros Hn (s & [= <-] & Hk)%create_job_made.
  rewrite path_kind_job_dir in Hk by done.
  assert (is_dir (fs w1) (job_key name) = true) as Hj.
  { unfold kind_at in Hk. unfold is_dir.
    by destruct (find (fs w1) (job_key name)) as [[]|]. }
  destruct (get_jobs_listing w1) as (l & Hl & _ & Hin).
  { by apply (is_dir_prefix _ _ [name]). }
  exists l. split; [done|]. by apply Hin.
Qed.

Lemma create_then_list_witness :
  Jobs.create_job Demo.E (Some "j") Demo.job1 Demo.w0
  = Ret (PDict [("success", PInt 1); ("message", PStr "Job created successfully")])
        Demo.w1
  ∧ exists jobs_list,
      Jobs.get_jobs Demo.w1
      = Ret (PDict [("success", PInt 1); ("message", PStr "Ok");
                    ("jobs", PList (PStr <$> jobs_list))]) Demo.w1
      ∧ "j" ∈ jobs_list.
Proof.
  assert (Jobs.create_job Demo.E (Some "j") Demo.job1 Demo.w0
          = Ret (PDict [("success", PInt 1);
                        ("message", PStr "Job created successfully")]) Demo.w1) as H
    by (vm_compute; reflexivity).
  split; [exact H|].
  exact (create_then_list Demo.E "j" Demo.job1 Demo.w0 Demo.w1 eq_refl H).
Defined.

(** *** Deleting a job *)

Lemma plain_not_blank c : plain_char c = true -> blank c = false.
Proof. destruct c as [[] [] [] [] [] [] [] []]; vm_compute; intros; done. Qed.

Lemma last_app {A} (l : list A) (x d : A) : List.last (l ++ [x]) d = x.
Proof. induction l as [|a [|b l] IH]; try done. Qed.

Lemma last_name_job_dir name :
  simple_name name = true -> last_name (job_dir_of name) = name.
Proof.
  intros Hn. unfold last_name. rewrite split_job_dir by done.
  apply simple_name_spec in Hn as (_ & _ & _ & Hne).
  cbn [List.filter nonempty]. rewrite Hne.
  apply (last_app ["usr"; "local"; "viki"; "jobs"] name).
Qed.

Lemma rm_rf_operands_job_dir name :
  simple_name name = true -> all_chars plain_char name = true ->
  rm_rf_operands ("rm -rf " +:+ job_dir_of name) = Some [job_dir_of name].
Proof.
  intros Hn Hp.
  assert (all_chars plain_char (job_dir_of name) = true) as Hall.
  { unfold job_dir_of. by rewrite all_chars_app, Hp. }
  apply rm_rf_operands_plain; try done.
  apply split_by_none. apply (all_chars_impl plain_char); [|done].
  intros c Hc. by rewrite plain_not_blank.
Qed.

(** Deleting a job that is there, when its name is made of characters
    the shell takes literally. *)
Lemma delete_job_present E w name :
  simple_name name = true -> all_chars plain_char name = true ->
  is_dir (fs w) (job_key name) = true ->
  spawn_error E ("rm -rf " +:+ job_dir_of name) w = None ->
  Jobs.delete_job E (Some name) w
  = Ret (PDict [("success", PInt 1); ("message", PStr "Job deleted")])
        (with_fs w (update (job_key name) (fun _ => None) (fs w))).
Proof.
  intros Hn Hp Hd Hs.
  assert (is_dir (fs w) jobs_root = true) as Hroot by (by apply (is_dir_prefix _ _ [name])).
  unfold Jobs.delete_job, os_path_isdir, Jobs._dirty_rm_rf, subprocess_call.
  monad. fold (job_dir_of name).
  rewrite path_kind_job_dir by done. unfold kind_at.
  pose proof Hd as Hd'. unfold is_dir in Hd'.
  destruct (find (fs w) (job_key name)) as [[]|]; try done.
  cbn [fmap option_fmap option_map kind_of negb].
  rewrite Hs, rm_rf_operands_job_dir by done. cbn [foldl].
  unfold rm_rf_one. rewrite last_name_job_dir by done.
  destruct (simple_ordinary name Hn) as (? & ? & ?).
  rewrite decide_False by (intros [?|?]; done).
  destruct (resolve_job_dir w name Hn) as [_ Hok]. by rewrite Hok.
Qed.

(** X5.  Deleting a job that is there, when its name is one directory
    entry made of characters the shell takes literally and /bin/bash
    starts: [delete_job] answers success 1, the directory of the job is
    gone, and every file and directory outside it is as before. *)
Theorem delete_job_removes_only_the_job E w name :
  simple_name name = true -> all_chars plain_char name = true ->
  is_dir (fs w) (job_key name) = true ->
  spawn_error E ("rm -rf " +:+ job_dir_of name) w = None ->
  exists w',
    Jobs.delete_job E (Some name) w
    = Ret (PDict [("success", PInt 1); ("message", PStr "Job deleted")]) w'
    ∧ os_path_exists (job_dir_of name) w' = Ret false w'
    ∧ forall q, ¬ job_key name `prefix_of` q ->
                kind_at (fs w') q = kind_at (fs w) q
                ∧ read_at (fs w') q = read_at (fs w) q.
Proof.
  intros Hn Hp Hd Hs. eexists. split; [by apply delete_job_present|]. split.
  - unfold os_path_exists. rewrite path_kind_job_dir by done.
    unfold kind_at. cbn [fs with_fs].
    rewrite <- (app_nil_r (job_key name)) at 2. by rewrite find_removed.
  - intros q Hq. cbn [fs with_fs].
    by rewrite kind_at_shallow, read_at_shallow, shallow_at_update_frame,
      <- kind_at_shallow, <- read_at_shallow.
Qed.

Lemma delete_job_removes_only_the_job_witness :
  exists w',
    Jobs.delete_job Demo.E (Some "j") Demo.w1
    = Ret (PDict [("success", PInt 1); ("message", PStr "Job deleted")]) w'
    ∧ os_path_exists (job_dir_of "j") w' = Ret false w'
    ∧ forall q, ¬ job_key "j" `prefix_of` q ->
                kind_at (fs w') q = kind_at (fs Demo.w1) q
                ∧ read_at (fs w') q = read_at (fs Demo.w1) q.
Proof.
  apply (delete_job_removes_only_the_job Demo.E Demo.w1 "j"); reflexivity.
Defined.

(** X6.  Deleting a job that is not there: for a name that is one
    directory entry with no directory of that name in the registry,
    [delete_job] answers success 0 with the message that the job was not
    found, runs nothing and changes nothing. *)
Theorem delete_job_missing E w name :
  simple_name name = true ->
  is_dir (fs w) (job_key name) = false ->
  Jobs.delete_job E (Some name) w
  = Ret (PDict [("success", PInt 0); ("message", PStr "Job not found")]) w.
Proof.
  intros Hn Hd. unfold Jobs.delete_job, os_path_isdir. monad. fold (job_dir_of name).
  rewrite path_kind_job_dir by done. unfold kind_at. unfold is_dir in Hd.
  by destruct (find (fs w) (job_key name)) as [[]|].
Qed.

Lemma delete_job_missing_witness :
  Jobs.delete_job Demo.E (Some "ghost") Demo.w1
  = Ret (PDict [("success", PInt 0); ("message", PStr "Job not found")]) Demo.w1.
Proof. apply (delete_job_missing Demo.E Demo.w1 "ghost"); reflexivity. Defined.

(** X7.  Create, delete, look up: once [create_job] has succeeded for a
    name that is one directory entry made of characters the shell takes
    literally, [delete_job] succeeds, and [get_job_by_name] then answers
    that the job directory was not found. *)
Theorem create_delete_get E name json_text w w1 :
  simple_name name = true -> all_chars plain_char name = true ->
  Jobs.create_job E (Some name) json_text w
  = Ret (PDict [("success", PInt 1); ("message", PStr "Job created successfully")]) w1 ->
  spawn_error E ("rm -rf " +:+ job_dir_of name) w1 = None ->
  exists w2,
    Jobs.delete_job E (Some name) w1
    = Ret (PDict [("success", PInt 1); ("message", PStr "Job deleted")]) w2
    ∧ Jobs.get_job_by_name (Some name) w2
      = Ret (PDict [("success", PInt 0); ("message", PStr "Job directory not found");
                    ("name", PStr name); ("config_json", PStr "")]) w2.
Proof.
  intros Hn Hp (s & [= <-] & Hk)%create_job_made Hs.
  rewrite path_kind_job_dir in Hk by done.
  assert (is_dir (fs w1) (job_key name) = true) as Hj.
  { unfold kind_at in Hk. unfold is_dir.
    by destruct (find (fs w1) (job_key name)) as [[]|]. }
  eexists. split; [by apply delete_job_present|].
  apply get_job_by_name_not_found; [done|]. left.
  unfold is_dir. cbn [fs with_fs].
  rewrite <- (app_nil_r (job_key name)) at 2. by rewrite find_removed.
Qed.

Lemma create_delete_get_witness :
  Jobs.create_job Demo.E (Some "j") Demo.job1 Demo.w0
  = Ret (PDict [("success", PInt 1); ("message", PStr "Job created successfully")])
        Demo.w1
  ∧ exists w2,
      Jobs.delete_job Demo.E (Some "j") Demo.w1
      = Ret (PDict [("success", PInt 1); ("message", PStr "Job deleted")]) w2
      ∧ Jobs.get_job_by_name (Some "j") w2
        = Ret (PDict [("success", PInt 0); ("message", PStr "Job directory not found");
                      ("name", PStr "j"); ("config_json", PStr "")]) w2.
Proof.
  assert (Jobs.create_job Demo.E (Some "j") Demo.job1 Demo.w0
          = Ret (PDict [("success", PInt 1);
                        ("message", PStr "Job created successfully")]) Demo.w1) as H
    by (vm_compute; reflexivity).
  split; [exact H|].
  exact (create_delete_get Demo.E "j" Demo.job1 Demo.w0 Demo.w1 eq_refl eq_refl H eq_refl).
Defined.

(** *** Running a job *)

(** X8.  For a job whose recorded steps all pass when run in turn,
    [run_job] returns success 1 with the message of a successful run and
    return code 0, and the commands it started are exactly the recorded
    steps, in their order. *)
Theorem run_job_runs_every_step E w name text kvs steps w1 :
  simple_name name = true ->
  read_at (fs w) (config_key name) = Some text ->
  json_loads E text = inr (PDict kvs) ->
  assoc "steps" kvs = Some (PList (PStr <$> steps)) ->
  is_dir (fs w) ["tmp"] = true ->
  find (fs w) (tmp_key E w) = None ->
  all_pass E (output_of name) steps (allocated E w) w1 ->
  spawn_error E ("rm -rf " +:+ tmp_cwd_of E w) w1 = None ->
  exists w',
    Jobs.run_job E (Some name) w
    = Ret (PDict [("success", PInt 1); ("message", PStr "Run successful");
                  ("return_code", PInt 0)]) w'
    ∧ ran w' = (ran w ++ steps)%list.
Proof. apply run_job_all_pass. Qed.

Lemma run_job_runs_every_step_witness :
  exists w',
    Jobs.run_job Demo.E (Some "ok") Demo.w_ok
    = Ret (PDict [("success", PInt 1); ("message", PStr "Run successful");
                  ("return_code", PInt 0)]) w'
    ∧ ran w' = (ran Demo.w_ok ++ ["true"; "true"])%list.
Proof.
  apply (run_job_runs_every_step Demo.E Demo.w_ok "ok"
           (Demo.dumps (PDict (record_of "ok"
              [("description", PStr "check");
               ("steps", PList [PStr "true"; PStr "true"])])))
           (record_of "ok"
              [("description", PStr "check");
               ("steps", PList [PStr "true"; PStr "true"])])
           ["true"; "true"] Demo.w_ok_2);
    try (vm_compute; reflexivity).
  apply (all_pass_cons Demo.E _ "true" ["true"] _ Demo.w_ok_1 Demo.w_ok_2);
    [vm_compute; reflexivity|].
  apply (all_pass_cons Demo.E _ "true" [] _ Demo.w_ok_2 Demo.w_ok_2);
    [vm_compute; reflexivity|constructor].
Defined.

(** Removing an entry that was created where nothing was gives the tree
    back. *)
Lemma update_undo p x n :
  find n p = None -> update p (fun _ => None) (update p (fun _ => Some x) n) = n.
Proof.
  revert n. induction p as [|c p IH]; intros n H; [done|].
  destruct n as [d|ch]; [done|]. cbn [find] in H.
  destruct p as [|c2 p]; cbn [update]; f_equal; apply map_eq; intros k.
  - destruct (decide (k = c)) as [->|Hk].
    + rewrite lookup_partial_alter_eq. by destruct (ch !! c).
    + by rewrite !lookup_partial_alter_ne.
  - destruct (decide (k = c)) as [->|Hk].
    + rewrite !lookup_alter_eq. destruct (ch !! c) as [m|]; [|done].
      cbn [fmap option_fmap option_map]. f_equal. by apply IH.
    + by rewrite !lookup_alter_ne.
Qed.

(** Removing the scratch directory right after it was made leaves the
    world as it was, one UUID later. *)
Lemma allocated_undo E w :
  is_dir (fs w) ["tmp"] = true -> find (fs w) (tmp_key E w) = None ->
  rm_rf_one (allocated E w) (tmp_cwd_of E w) = drew w.
Proof.
  intros Hd Hf. unfold tmp_cwd_of.
  destruct (rm_rf_one_tmp (allocated E w) (uuid_v4 (urandom E (drawn w))))
    as [[_ [e He]]|[-> _]].
  - destruct (resolve_tmp (allocated E w) (uuid_v4 (urandom E (drawn w)))) as [_ Hok].
    rewrite Hok in He; [done|]. by apply is_dir_create.
  - unfold with_fs, allocated, drew. cbn [fs cwd drawn ran]. f_equal.
    by apply update_undo.
Qed.

Lemma isdir_job_dir w name :
  simple_name name = true ->
  os_path_isdir (job_dir_of name) w = Ret (is_dir (fs w) (job_key name)) w.
Proof.
  intros Hn. unfold os_path_isdir. rewrite path_kind_job_dir by done.
  unfold kind_at, is_dir. by destruct (find (fs w) (job_key name)) as [[]|].
Qed.

Lemma isfile_job_config w name :
  simple_name name = true ->
  os_path_isfile (job_dir_of name +:+ "/" +:+ "config.json") w
  = Ret (is_file (fs w) (config_key name)) w.
Proof.
  intros Hn. unfold os_path_isfile. rewrite path_kind_job_file by done.
  fold (config_key name).
  unfold kind_at, is_file. by destruct (find (fs w) (config_key name)) as [[]|].
Qed.

Lemma allocated_job_dir E w name :
  is_dir (fs (allocated E w)) (job_key name) = is_dir (fs w) (job_key name).
Proof. apply is_dir_update_frame. by intros [r [=]]. Qed.

Lemma allocated_job_config E w name :
  find (fs w) (tmp_key E w) = None ->
  is_file (fs (allocated E w)) (config_key name) = is_file (fs w) (config_key name).
Proof.
  intros Hf. pose proof (shallow_at_update_frame (tmp_key E w)
    (fun _ => Some (Dir ∅)) (fs w) (config_key name)) as H.
  unfold shallow_at in H. unfold is_file. cbn [fs allocated].
  destruct (find (update _ _ _) _) as [[]|], (find (fs w) (config_key name)) as [[]|];
    try done; by (discriminate H; intros [r [=]]).
Qed.

(** A run that is turned down before any step: the answer carries the
    message of the check that failed, and the world is as before, one
    UUID later. *)
Lemma run_job_rejected E w name e message :
  is_dir (fs w) ["tmp"] = true -> find (fs w) (tmp_key E w) = None ->
  Jobs.run_try E (job_dir_of name) (job_dir_of name +:+ "/" +:+ "config.json") 0
    (allocated E w) = Ret (0%Z, Some e) (allocated E w) ->
  run_verdict (Some e) = Some (0%Z, message) ->
  spawn_error E ("rm -rf " +:+ tmp_cwd_of E w) (allocated E w) = None ->
  Jobs.run_job E (Some name) w
  = Ret (PDict [("success", PInt 0); ("message", PStr message);
                ("return_code", PInt 0)]) (drew w).
Proof.
  intros Hd Hf Htry Hv Hs. rewrite <- (allocated_undo E w) by done.
  by apply (run_job_finish E w name 0 (Some e) (allocated E w)).
Qed.

(** X9.  [run_job] for a name no job directory bears answers success 0,
    the message that the job was not found and return code 0; it starts no
    command, and the file system it leaves is the one it found: the
    scratch directory was made and removed again. *)
Theorem run_job_unknown_job E w name :
  simple_name name = true ->
  is_dir (fs w) (job_key name) = false ->
  is_dir (fs w) ["tmp"] = true ->
  find (fs w) (tmp_key E w) = None ->
  spawn_error E ("rm -rf " +:+ tmp_cwd_of E w) (allocated E w) = None ->
  exists w',
    Jobs.run_job E (Some name) w
    = Ret (PDict [("success", PInt 0); ("message", PStr "Job not found");
                  ("return_code", PInt 0)]) w'
    ∧ fs w' = fs w ∧ ran w' = ran w.
Proof.
  intros Hn Hj Hd Hf Hs. exists (drew w). split; [|done].
  apply (run_job_rejected E w name (Exn OSError "Job not found")); try done.
  unfold Jobs.run_try. unfold bind at 1. rewrite isdir_job_dir by done.
  by rewrite allocated_job_dir, Hj.
Qed.

Lemma run_job_unknown_job_witness :
  exists w',
    Jobs.run_job Demo.E (Some "ghost") Demo.w1
    = Ret (PDict [("success", PInt 0); ("message", PStr "Job not found");
                  ("return_code", PInt 0)]) w'
    ∧ fs w' = fs Demo.w1 ∧ ran w' = ran Demo.w1.
Proof.
  apply (run_job_unknown_job Demo.E Demo.w1 "ghost"); vm_compute; reflexivity.
Defined.

(** X10.  [run_job] for a job directory that holds no [config.json]
    answers success 0, the message that the job file was not found and
    return code 0; it starts no command and leaves the file system as it
    found it. *)
Theorem run_job_without_record E w name :
  simple_name name = true ->
  is_dir (fs w) (job_key name) = true ->
  is_file (fs w) (config_key name) = false ->
  is_dir (fs w) ["tmp"] = true ->
  find (fs w) (tmp_key E w) = None ->
  spawn_error E ("rm -rf " +:+ tmp_cwd_of E w) (allocated E w) = None ->
  exists w',
    Jobs.run_job E (Some name) w
    = Ret (PDict [("success", PInt 0); ("message", PStr "Job file not found");
                  ("return_code", PInt 0)]) w'
    ∧ fs w' = fs w ∧ ran w' = ran w.
Proof.
  intros Hn Hj Hc Hd Hf Hs. exists (drew w). split; [|done].
  apply (run_job_rejected E w name (Exn OSError "Job file not found")); try done.
  unfold Jobs.run_try. unfold bind at 1. rewrite isdir_job_dir by done.
  rewrite allocated_job_dir, Hj. cbn [negb]. monad.
  rewrite isfile_job_config by done.
  by rewrite allocated_job_config, Hc.
Qed.

Lemma run_job_without_record_witness :
  exists w',
    Jobs.run_job Demo.E (Some "hollow") Demo.w_hollow
    = Ret (PDict [("success", PInt 0); ("message", PStr "Job file not found");
                  ("return_code", PInt 0)]) w'
    ∧ fs w' = fs Demo.w_hollow ∧ ran w' = ran Demo.w_hollow.
Proof.
  apply (run_job_without_record Demo.E Demo.w_hollow "hollow"); vm_compute; reflexivity.
Defined.

Lemma is_file_read_at n p d : read_at n p = Some d -> is_file n p = true.
Proof. unfold read_at, is_file. by destruct (find n p) as [[]|]. Qed.

(** The validation in [run_job] up to the decoding of the record. *)
Lemma run_try_record E w name text v rc :
  simple_name name = true ->
  read_at (fs w) (config_key name) = Some text ->
  json_loads E text = inr v ->
  Jobs.run_try E (job_dir_of name) (job_dir_of name +:+ "/" +:+ "config.json") rc w
  = match
      (match v with
       | PBool false | PNone => raise OSError "Job file could not be read"
       | _ => ret tt
       end ;;;
       let* jobSteps := getitem v "steps" in
       let* items := py_iter jobSteps in
       ret (output_of name, items)) w
    with
    | Ret (filename, items) w' => Jobs.run_steps E items filename rc w'
    | Raise e w' => Ret (rc, Some e) w'
    | Hang => Hang
    end.
Proof.
  intros Hn Hr Hl. destruct (config_above _ _ _ Hr) as [Hj Hroot].
  unfold Jobs.run_try. unfold bind at 1. rewrite isdir_job_dir, Hj by done.
  cbn [negb]. unfold bind at 1, ret at 1. unfold bind at 1.
  rewrite isfile_job_config, (is_file_read_at _ _ _ Hr) by done.
  cbn [negb]. unfold bind at 1, ret at 1. unfold bind at 1.
  rewrite (read_job_file_present w name text) by done.
  unfold bind at 1. unfold py_json_loads, lift. rewrite Hl. done.
Qed.

(** X11.  [run_job] for a job whose record is a JSON object without the
    key [steps] answers success 0, the message that the job has no steps
    and return code 0; it starts no command and leaves the file system as
    it found it. *)
Theorem run_job_record_without_steps E w name text kvs :
  simple_name name = true ->
  read_at (fs w) (config_key name) = Some text ->
  json_loads E text = inr (PDict kvs) ->
  assoc "steps" kvs = None ->
  is_dir (fs w) ["tmp"] = true ->
  find (fs w) (tmp_key E w) = None ->
  spawn_error E ("rm -rf " +:+ tmp_cwd_of E w) (allocated E w) = None ->
  exists w',
    Jobs.run_job E (Some name) w
    = Ret (PDict [("success", PInt 0); ("message", PStr "Job has no steps");
                  ("return_code", PInt 0)]) w'
    ∧ fs w' = fs w ∧ ran w' = ran w.
Proof.
  intros Hn Hr Hl Hk Hd Hf Hs. exists (drew w). split; [|done].
  apply (run_job_rejected E w name (Exn KeyError (py_repr "steps"))); try done.
  rewrite (run_try_record E _ name text (PDict kvs)); try done.
  - unfold getitem. monad. by rewrite Hk.
  - by rewrite allocated_keeps_config.
Qed.

Lemma run_job_record_without_steps_witness :
  exists w',
    Jobs.run_job Demo.E (Some "mute") Demo.w_mute
    = Ret (PDict [("success", PInt 0); ("message", PStr "Job has no steps");
                  ("return_code", PInt 0)]) w'
    ∧ fs w' = fs Demo.w_mute ∧ ran w' = ran Demo.w_mute.
Proof.
  apply (run_job_record_without_steps Demo.E Demo.w_mute "mute"
           (Demo.dumps (PDict Demo.record_no_key)) Demo.record_no_key);
    vm_compute; reflexivity.
Defined.

(** X12.  [run_job] for a job whose record decodes to the JSON [null] or
    [false] answers success 0, the message that the job file could not be
    read and return code 0; it starts no command and leaves the file
    system as it found it. *)
Theorem run_job_record_null E w name text v :
  simple_name name = true ->
  read_at (fs w) (config_key name) = Some text ->
  json_loads E text = inr v ->
  v = PNone ∨ v = PBool false ->
  is_dir (fs w) ["tmp"] = true ->
  find (fs w) (tmp_key E w) = None ->
  spawn_error E ("rm -rf " +:+ tmp_cwd_of E w) (allocated E w) = None ->
  exists w',
    Jobs.run_job E (Some name) w
    = Ret (PDict [("success", PInt 0); ("message", PStr "Job file could not be read");
                  ("return_code", PInt 0)]) w'
    ∧ fs w' = fs w ∧ ran w' = ran w.
Proof.
  intros Hn Hr Hl Hv Hd Hf Hs. exists (drew w). split; [|done].
  apply (run_job_rejected E w name (Exn OSError "Job file could not be read"));
    try done.
  rewrite (run_try_record E _ name text v); try done.
  - by destruct Hv as [-> | ->].
  - by rewrite allocated_keeps_config.
Qed.

Lemma run_job_record_null_witness :
  exists w',
    Jobs.run_job Demo.E (Some "void") Demo.w_null
    = Ret (PDict [("success", PInt 0); ("message", PStr "Job file could not be read");
                  ("return_code", PInt 0)]) w'
    ∧ fs w' = fs Demo.w_null ∧ ran w' = ran Demo.w_null.
Proof.
  apply (run_job_record_null Demo.E Demo.w_null "void" "null" PNone);
    try (vm_compute; reflexivity).
  left; reflexivity.
Defined.

(** The loop of [run_job] hands back a return code other than 0 only
    together with the failure of a build step. *)
Lemma run_steps_code E items filename w rc pending w' :
  Jobs.run_steps E items filename 0 w = Ret (rc, pending) w' ->
  rc = 0%Z ∨ pending = Some (Exn SystemError "Build step failed").
Proof.
  revert w. induction items as [|step rest IH]; intros w H.
  - injection H as <- <- <-. by left.
  - cbn [Jobs.run_steps] in H.
    destruct (Jobs._run_shell_command E step filename w) as [[ok rc'] w1|e w1|] eqn:Hc;
      [|injection H as <- <- <-; by left|done].
    destruct ok; cbn [negb] in H.
    + apply run_shell_command_Ret in Hc as [Hok _].
      symmetry in Hok. apply bool_decide_eq_true in Hok as ->. by apply (IH w1).
    + injection H as <- <- <-. by right.
Qed.

Lemma run_try_code E job_dir file w rc pending w' :
  Jobs.run_try E job_dir file 0 w = Ret (rc, pending) w' ->
  rc = 0%Z ∨ pending = Some (Exn SystemError "Build step failed").
Proof.
  unfold Jobs.run_try.
  match goal with
  | |- match ?m with _ => _ end = _ -> _ => destruct m as [[f items] w1|e w1|]
  end; [apply run_steps_code| |done].
  intros [= <- <- <-]. by left.
Qed.

(** X13.  The record [run_job] returns is consistent: success 1 comes
    with the message of a successful run and return code 0, and a return
    code other than 0 comes with success 0 and the message that a build
    step failed. *)
Theorem run_job_result_consistent E name w r w' :
  Jobs.run_job E name w = Ret r w' ->
  exists success message return_code,
    r = PDict [("success", PInt success); ("message", PStr message);
               ("return_code", PInt return_code)]
    ∧ ((success = 1%Z ∧ message = "Run successful" ∧ return_code = 0%Z)
       ∨ (success = 0%Z
          ∧ (return_code ≠ 0%Z -> message = "Build step failed"))).
Proof.
  intros H. unfold Jobs.run_job in H.
  apply bind_Ret in H as (job_dir & w1 & Hcat & H).
  apply bind_Ret in H as (u & w2 & Hu & H).
  apply bind_Ret in H as ([] & wa & Hmk & H).
  apply bind_Ret in H as ([rc pending] & w3 & Htry & H).
  apply bind_Ret in H as ([succ msg] & w4 & Hh & H).
  apply bind_Ret in H as (b & w5 & Hrm & H). injection H as <- <-.
  exists succ, msg, rc. split; [done|].
  apply run_try_code in Htry as [-> | ->].
  - destruct pending as [e|].
    + right. destruct (bool_decide (cls e ∈ _)); [by injection Hh as <- <-|].
      destruct (bool_decide (cls e = KeyError)); [by injection Hh as <- <-|done].
    + left. by injection Hh as <- <-.
  - right. by injection Hh as <- <-.
Qed.

Lemma run_job_result_consistent_witness :
  Jobs.run_job Demo.E (Some "j") Demo.w1
  = Ret (PDict [("success", PInt 0); ("message", PStr "Build step failed");
                ("return_code", PInt 1)]) Demo.w2
  ∧ exists success message return_code,
      PDict [("success", PInt 0); ("message", PStr "Build step failed");
             ("return_code", PInt 1)]
      = PDict [("success", PInt success); ("message", PStr message);
               ("return_code", PInt return_code)]
      ∧ ((success = 1%Z ∧ message = "Run successful" ∧ return_code = 0%Z)
         ∨ (success = 0%Z
            ∧ (return_code ≠ 0%Z -> message = "Build step failed"))).
Proof.
  assert (Jobs.run_job Demo.E (Some "j") Demo.w1
          = Ret (PDict [("success", PInt 0); ("message", PStr "Build step failed");
                        ("return_code", PInt 1)]) Demo.w2) as H
    by (vm_compute; reflexivity).
  split; [exact H|].
  exact (run_job_result_consistent Demo.E (Some "j") Demo.w1 _ Demo.w2 H).
Defined.

(** *** The Command Runner *)

(** After [rm -rf] the script of a command is not there. *)
Lemma rm_script_gone w u :
  path_kind (rm_rf_one w ("viki-" +:+ uuid_str u)) ("viki-" +:+ uuid_str u) = None.
Proof.
  destruct (rm_rf_one_script w u) as [[-> [e He]]|[-> Hr]]; unfold path_kind.
  - rewrite He. by destruct (occurs nul _).
  - destruct (occurs nul _); [done|].
    destruct (resolve (with_fs w _) _) as [e|q] eqn:Hq; [done|].
    apply resolve_script in Hq as ->. unfold kind_at. cbn [fs cwd with_fs].
    rewrite <- (app_nil_r (cwd w ++ _)%list) at 2. rewrite find_removed; [done|].
    by destruct (cwd w).
Qed.

(** X14.  When [_run_shell_command] returns, the script file it wrote
    for the command, named [viki-] and the UUID it drew, is not in the
    working directory any more. *)
Theorem run_shell_command_removes_script E command filename w r w' :
  Jobs._run_shell_command E command filename w = Ret r w' ->
  os_path_exists ("viki-" +:+ uuid_str (uuid_v4 (urandom E (drawn w)))) w'
  = Ret false w'.
Proof.
  intros H. unfold Jobs._run_shell_command in H.
  apply bind_Ret in H as (h1 & w1 & Ho & H). apply open_same in Ho as (_ & Hd1 & _).
  apply bind_Ret in H as (u & w2 & Hu & H). injection Hu as <- <-.
  apply bind_Ret in H as (h2 & w3 & Ho & H).
  apply bind_Ret in H as (text & w4 & Ht & H).
  apply bind_Ret in H as ([] & w5 & Hw & H).
  apply bind_Ret in H as (rc & w6 & Hp & H).
  apply bind_Ret in H as (b & w7 & Hrm & H). injection H as <- <-.
  match type of Hrm with
  | Jobs._dirty_rm_rf _ ?x _ = _ =>
      change x with ("viki-" +:+ uuid_str (uuid_v4 (urandom E (drawn w1)))) in Hrm
  end.
  rewrite dirty_rm_rf_script in Hrm. destruct (spawn_error E _ _); [done|].
  assert (w7 = rm_rf_one w6 ("viki-" +:+ uuid_str (uuid_v4 (urandom E (drawn w1)))))
    as -> by congruence.
  rewrite <- Hd1. unfold os_path_exists. by rewrite rm_script_gone.
Qed.

Lemma run_shell_command_removes_script_witness :
  Jobs._run_shell_command Demo.E (PStr "true") Demo.j_output (allocated Demo.E Demo.w1)
  = Ret (true, 0%Z) Demo.w1_true
  ∧ os_path_exists
      ("viki-" +:+ uuid_str (uuid_v4 (urandom Demo.E (drawn (allocated Demo.E Demo.w1)))))
      Demo.w1_true
    = Ret false Demo.w1_true.
Proof.
  assert (Jobs._run_shell_command Demo.E (PStr "true") Demo.j_output
            (allocated Demo.E Demo.w1) = Ret (true, 0%Z) Demo.w1_true) as H
    by (vm_compute; reflexivity).
  split; [exact H|].
  exact (run_shell_command_removes_script Demo.E (PStr "true") Demo.j_output
           (allocated Demo.E Demo.w1) _ Demo.w1_true H).
Defined.

(** *** Creating a job leaves the others alone *)

Section CreateSparing.

Context (E : env) (name : string) (K : cpath).
Hypothesis name_simple : simple_name name = true.
Hypothesis outside : ¬ job_key name `prefix_of` K.

Lemma config_not_above : ¬ config_key name `prefix_of` K.
Proof.
  intros H. apply outside. etrans; [|exact H].
  exists ["config.json"]. apply config_key_snoc.
Qed.

Lemma resolve_new_job_dir_inr w p :
  resolve_new w (job_dir_of name) = inr p -> p = job_key name.
Proof.
  intros H. apply (resolve_job_dir w name name_simple).
  unfold resolve, resolve_new in *. rewrite split_job_dir in * by done.
  pose proof name_simple as (_ & _ & _ & Hne)%simple_name_spec.
  cbn [drop_trailing_empty] in H. by rewrite Hne in H.
Qed.

Lemma os_mkdir_job_sparing : respects (sparing K) (os_mkdir (job_dir_of name)).
Proof.
  intros w w' [->|(p & Hr & _ & ->)]%os_mkdir_final; [reflexivity|].
  apply resolve_new_job_dir_inr in Hr as ->. split; [done|].
  by apply read_at_update_frame.
Qed.

Lemma open_config_sparing m :
  respects (sparing K) (open_ (job_dir_of name +:+ "/" +:+ "config.json") m).
Proof.
  intros w w' [->|(h & Hr & _ & ->)]%open_final; [reflexivity|].
  apply (resolve_job_file w name "config.json") in Hr as ->; [|done|done].
  split; [done|]. apply read_at_update_frame, config_not_above.
Qed.

Lemma write_job_file_sparing text :
  respects (sparing K)
    (Jobs._write_job_file E (job_dir_of name +:+ "/" +:+ "config.json") text).
Proof.
  intros w w' Hf. unfold Jobs._write_job_file in Hf.
  destruct (_ || _); [injection Hf as <-; reflexivity|].
  apply final_world_bind in Hf as [[e He]|(h & w1 & Ho & Hf)].
  { apply (open_config_sparing mode_w). by rewrite He. }
  assert (sparing K w w1) as S1 by (apply (open_config_sparing mode_w); by rewrite Ho).
  assert (h = config_key name) as ->.
  { apply open_Ret in Ho as (_ & Hr & _).
    by apply (resolve_job_file w name "config.json") in Hr. }
  apply final_world_bind in Hf as [[e He]|(d & w2 & Hl & Hf)].
  { assert (w' = w1) as -> by (unfold lift in He; destruct (json_dumps E text); congruence).
    done. }
  assert (w2 = w1) as -> by (unfold lift in Hl; destruct (json_dumps E text); congruence).
  assert (w' = with_fs w1 (update (config_key name) (append_data d) (fs w1))) as ->
    by (cbv [bind file_write ret final_world] in Hf; congruence).
  transitivity w1; [done|]. split; [done|].
  apply read_at_append. intros HK. apply config_not_above. by rewrite HK.
Qed.

Lemma create_job_sparing json_text :
  respects (sparing K) (Jobs.create_job E (Some name) json_text).
Proof.
  unfold Jobs.create_job, str_concat.
  assert (forall {A B} (R : relation world) (a : A) (k : A -> M B),
             respects R (k a) -> respects R (bind (ret a) k)) as bind_ret
    by (intros A B R a k Hk w w'; apply Hk).
  apply respects_bind; [apply _| |intros [success message]; apply respects_ret; apply _].
  apply respects_try_except; [apply _| |intros e; apply respects_ret; apply _].
  apply bind_ret. fold (job_dir_of name). cbv beta zeta.
  repeat respects_step (sparing_same K)
    ltac:(first [apply os_mkdir_job_sparing | apply write_job_file_sparing]).
Qed.

End CreateSparing.

(** X15.  However a call of [create_job] ends, every file that does not
    lie in the directory of the job being created reads as before; in
    particular the records of all other jobs are unchanged. *)
Theorem create_job_spares_others E name json_text K w w' :
  simple_name name = true ->
  ¬ job_key name `prefix_of` K ->
  final_world (Jobs.create_job E (Some name) json_text w) = Some w' ->
  read_at (fs w') K = read_at (fs w) K.
Proof.
  intros Hn HK Hf.
  by apply (create_job_sparing E name K Hn HK json_text) in Hf as [_ ?].
Qed.

Lemma create_job_spares_others_witness :
  final_world (Jobs.create_job Demo.E (Some "ok") Demo.job_ok Demo.w1)
  = Some Demo.w1_ok
  ∧ read_at (fs Demo.w1_ok) (config_key "j") = read_at (fs Demo.w1) (config_key "j").
Proof.
  assert (final_world (Jobs.create_job Demo.E (Some "ok") Demo.job_ok Demo.w1)
          = Some Demo.w1_ok) as H by (vm_compute; reflexivity).
  split; [exact H|].
  apply (create_job_spares_others Demo.E "ok" Demo.job_ok (config_key "j")
           Demo.w1 Demo.w1_ok); [reflexivity| |exact H].
  intros [r Hr]. vm_compute in Hr. discriminate Hr.
Defined.

(** *** Creating a job from text *)

(** X16.  A definition passed to [create_job] as text is evaluated first:
    when [ast.literal_eval] turns the text into a value that is not itself
    a string, the call does exactly what it does when given that value. *)
Theorem create_job_evaluates_text E name s v w :
  literal_eval E s = inr v ->
  (forall t, v ≠ PStr t) ->
  Jobs.create_job E name (PStr s) w = Jobs.create_job E name v w.
Proof.
  intros Hl Hv. unfold Jobs.create_job, try_except, bind, lift.
  destruct (str_concat _ name w) as [job_dir w1|e w1|]; [|done|done].
  destruct (os_path_exists job_dir w1) as [present w2|e w2|]; [|done|done].
  destruct (_ w2) as [[] w3|e w3|]; [|done|done].
  rewrite Hl. destruct v; try done. by destruct (Hv s0).
Qed.

Lemma create_job_evaluates_text_witness :
  Jobs.create_job Demo.E_literal (Some "j") (PStr Demo.job1_text) Demo.w0
  = Jobs.create_job Demo.E_literal (Some "j") Demo.job1 Demo.w0.
Proof.
  apply (create_job_evaluates_text Demo.E_literal (Some "j") Demo.job1_text Demo.job1);
    [vm_compute; reflexivity|].
  intros t Ht. discriminate Ht.
Defined.

(** *** Updating a job *)

(** [rm -rf] on a name of the working directory: afterwards nothing has
    that name, and nothing outside of it has changed. *)
Lemma rm_rf_one_relative w x :
  is_absolute x = false -> split_on slash x = [x] -> ordinary x ->
  occurs nul x = false ->
  path_kind (rm_rf_one w x) x = None
  ∧ cwd (rm_rf_one w x) = cwd w
  ∧ forall q, ¬ (cwd w ++ [x])%list `prefix_of` q ->
              shallow_at (fs (rm_rf_one w x)) q = shallow_at (fs w) q.
Proof.
  intros Ha Hs Ho Hnul.
  assert (last_name x = x) as Hl.
  { unfold last_name. rewrite Hs. cbn [List.filter].
    destruct Ho as (Hne & _). by destruct x. }
  destruct (rm_rf_one_cases w x (cwd w ++ [x])%list) as [[-> [e He]]|[-> Hr]].
  - by rewrite Hl.
  - by destruct (cwd w).
  - apply resolve_relative; done.
  - unfold path_kind. by rewrite Hnul, He.
  - split; [|split; [done|]].
    + unfold path_kind. rewrite Hnul.
      destruct (resolve (with_fs w _) x) as [e|q] eqn:Hq; [done|].
      apply resolve_relative in Hq as ->; try done. unfold kind_at. cbn [fs cwd with_fs].
      rewrite <- (app_nil_r (cwd w ++ _)%list) at 2. rewrite find_removed; [done|].
      by destruct (cwd w).
    + intros q Hq. cbn [fs with_fs]. by apply shallow_at_update_frame.
Qed.

(** X17.  [update_job] is a stub: whenever it returns, the record it
    returns is success 1 with the message that the method is under
    construction, whatever the name; all it does is to remove the entry
    [Placeholder] of the working directory, so that afterwards no such
    entry exists and everything outside of it, the registry included
    unless it lies below that entry, is as before. *)
Theorem update_job_only_removes_placeholder E name w r w' :
  Jobs.update_job E name w = Ret r w' ->
  r = PDict [("success", PInt 1); ("message", PStr "-- Under Construction --")]
  ∧ os_path_exists "Placeholder" w' = Ret false w'
  ∧ forall q, ¬ (cwd w ++ ["Placeholder"])%list `prefix_of` q ->
              kind_at (fs w') q = kind_at (fs w) q
              ∧ read_at (fs w') q = read_at (fs w) q.
Proof.
  intros H. unfold Jobs.update_job in H. cbv zeta in H.
  apply bind_Ret in H as (present & w1 & Hex & H).
  assert (w1 = w ∧ present = match path_kind w "Placeholder" with
                             | Some _ => true | None => false end) as [-> ->]
    by (unfold os_path_exists in Hex; split; congruence).
  clear Hex.
  apply bind_Ret in H as (b & w2 & Hrm & H).
  assert (w' = w2 ∧ r = PDict [("success", PInt 1);
                               ("message", PStr "-- Under Construction --")])
    as [-> ->] by (unfold ret in H; split; congruence).
  clear H. split; [done|].
  destruct (path_kind w "Placeholder") eqn:Hk.
  - unfold Jobs._dirty_rm_rf, subprocess_call in Hrm.
    apply bind_Ret in Hrm as ([] & w3 & Hrm & H).
    assert (w3 = w2) as -> by (unfold ret in H; congruence). clear H.
    destruct (spawn_error E _ w); [done|].
    change (rm_rf_operands ("rm -rf " +:+ "Placeholder")) with (Some ["Placeholder"]) in Hrm.
    cbn [foldl] in Hrm.
    assert (w2 = rm_rf_one w "Placeholder") as -> by congruence. clear Hrm.
    destruct (rm_rf_one_relative w "Placeholder") as (Hgone & Hcwd & Hframe); try done.
    split; [unfold os_path_exists; by rewrite Hgone|].
    intros q Hq. by rewrite !kind_at_shallow, !read_at_shallow, Hframe.
  - assert (w2 = w) as -> by (unfold ret in Hrm; congruence).
    split; [unfold os_path_exists; by rewrite Hk|done].
Qed.

Lemma update_job_only_removes_placeholder_witness :
  Jobs.update_job Demo.E (Some "j") Demo.w_placeholder
  = Ret (PDict [("success", PInt 1); ("message", PStr "-- Under Construction --")])
        Demo.w1
  ∧ PDict [("success", PInt 1); ("message", PStr "-- Under Construction --")]
    = PDict [("success", PInt 1); ("message", PStr "-- Under Construction --")]
  ∧ os_path_exists "Placeholder" Demo.w1 = Ret false Demo.w1
  ∧ forall q, ¬ (cwd Demo.w_placeholder ++ ["Placeholder"])%list `prefix_of` q ->
              kind_at (fs Demo.w1) q = kind_at (fs Demo.w_placeholder) q
              ∧ read_at (fs Demo.w1) q = read_at (fs Demo.w_placeholder) q.
Proof.
  assert (Jobs.update_job Demo.E (Some "j") Demo.w_placeholder
          = Ret (PDict [("success", PInt 1);
                        ("message", PStr "-- Under Construction --")]) Demo.w1) as H
    by (vm_compute; reflexivity).
  split; [exact H|].
  exact (update_job_only_removes_placeholder Demo.E (Some "j") Demo.w_placeholder
           _ Demo.w1 H).
Defined.

(** *** Steps given as text *)

Lemma chars_letters s : chars s = PStr <$> letters s.
Proof. induction s as [|c s IH]; [done|]. cbn. by rewrite IH. Qed.

(** X18.  A record whose [steps] is a text instead of a list is run one
    character at a time: when each one-character command passes, [run_job]
    reports success, and the commands it started are the characters of the
    text, one by one. *)
Theorem run_job_text_steps E w name text kvs s w1 :
  simple_name name = true ->
  read_at (fs w) (config_key name) = Some text ->
  json_loads E text = inr (PDict kvs) ->
  assoc "steps" kvs = Some (PStr s) ->
  is_dir (fs w) ["tmp"] = true ->
  find (fs w) (tmp_key E w) = None ->
  all_pass E (output_of name) (letters s) (allocated E w) w1 ->
  spawn_error E ("rm -rf " +:+ tmp_cwd_of E w) w1 = None ->
  exists w',
    Jobs.run_job E (Some name) w
    = Ret (PDict [("success", PInt 1); ("message", PStr "Run successful");
                  ("return_code", PInt 0)]) w'
    ∧ ran w' = (ran w ++ letters s)%list.
Proof.
  intros Hn Hr Hl Hs Hd Hf Hpass Hsp.
  exists (rm_rf_one w1 (tmp_cwd_of E w)). split.
  - apply (run_job_finish E w name 0 None w1); try done.
    rewrite (run_try_record E _ name text (PDict kvs)); try done.
    + unfold getitem. monad. rewrite Hs. cbn [py_iter]. rewrite chars_letters.
      unfold ret.
      rewrite (run_steps_all_pass E _ (letters s) 0 _ w1) by done.
      by destruct (letters s).
    + by rewrite allocated_keeps_config.
  - destruct (rm_rf_one_same w1 (tmp_cwd_of E w)) as (_ & _ & ->).
    by apply all_pass_ran in Hpass as ->.
Qed.

Lemma run_job_text_steps_witness :
  exists w',
    Jobs.run_job Demo.E_colon (Some "dots") Demo.w_dots
    = Ret (PDict [("success", PInt 1); ("message", PStr "Run successful");
                  ("return_code", PInt 0)]) w'
    ∧ ran w' = (ran Demo.w_dots ++ letters "::")%list.
Proof.
  apply (run_job_text_steps Demo.E_colon Demo.w_dots "dots"
           (Demo.dumps (PDict Demo.record_text_steps)) Demo.record_text_steps
           "::" Demo.w_dots_2);
    try (vm_compute; reflexivity).
  apply (all_pass_cons Demo.E_colon _ ":" [":"] _ Demo.w_dots_1 Demo.w_dots_2);
    [vm_compute; reflexivity|].
  apply (all_pass_cons Demo.E_colon _ ":" [] _ Demo.w_dots_2 Demo.w_dots_2);
    [vm_compute; reflexivity|constructor].
Defined.

(** *** Writing and reading a record *)

(** X19.  What [_write_job_file] writes, [_read_job_file] reads back: for
    a job directory that exists and a value that is not empty, writing the
    value to the [config.json] of the job returns [True], and reading the
    file afterwards gives the text [json.dumps] made of the value, whatever
    the file held before. *)
Theorem write_then_read_job_file E w name v txt :
  simple_name name = true ->
  is_dir (fs w) (job_key name) = true ->
  is_dir (fs w) (config_key name) = false ->
  truthy v = true ->
  json_dumps E v = inr txt ->
  exists w',
    Jobs._write_job_file E (job_dir_of name +:+ "/" +:+ "config.json") v w = Ret true w'
    ∧ Jobs._read_job_file (job_dir_of name +:+ "/" +:+ "config.json") w'
      = Ret (PStr txt) w'.
Proof.
  intros Hn Hj Hc Hv Hd.
  destruct (write_job_file_config E w name v txt) as (w' & Hw & Hr & _); try done.
  exists w'. split; [done|]. by apply read_job_file_present.
Qed.

Lemma write_then_read_job_file_witness :
  exists w',
    Jobs._write_job_file Demo.E ("/usr/local/viki/jobs/j/config.json")
      (PDict [("description", PStr "changed")]) Demo.w1 = Ret true w'
    ∧ Jobs._read_job_file ("/usr/local/viki/jobs/j/config.json") w'
      = Ret (PStr (Demo.dumps (PDict [("description", PStr "changed")]))) w'.
Proof.
  apply (write_then_read_job_file Demo.E Demo.w1 "j"
           (PDict [("description", PStr "changed")])); vm_compute; reflexivity.
Defined.

(** *** Deleting a job whose name holds a blank *)

Lemma append_assoc (s t u : string) : (s +:+ t) +:+ u = s +:+ (t +:+ u).
Proof. induction s as [|c s IH]; simpl; [done|]. by rewrite IH. Qed.

Lemma occurs_blank_plain s : all_chars plain_char s = true -> occurs " " s = false.
Proof.
  intros H. rewrite occurs_all_chars. apply negb_false_iff.
  apply (all_chars_impl plain_char); [|done].
  intros c Hc. apply plain_not_blank in Hc. unfold blank in Hc.
  apply orb_false_elim in Hc as [-> _]. done.
Qed.

Lemma simple_name_blank a b :
  simple_name a = true -> simple_name b = true ->
  simple_name (a +:+ " " +:+ b) = true.
Proof.
  intros Ha Hb. unfold simple_name in *.
  apply andb_prop in Ha as [Ha _]. apply andb_prop in Ha as [Ha Han].
  apply andb_prop in Ha as [Hae Has].
  apply andb_prop in Hb as [Hb _]. apply andb_prop in Hb as [Hb Hbn].
  apply andb_prop in Hb as [_ Hbs].
  apply negb_true_iff in Han, Has, Hbn, Hbs.
  rewrite nonempty_app by done. rewrite !occurs_app, Has, Han.
  change (" " +:+ b) with (String " " b). cbn [occurs orb Ascii.eqb Bool.eqb].
  change (Ascii.eqb " " slash) with false. change (Ascii.eqb " " nul) with false.
  cbn [orb]. rewrite Hbs, Hbn. cbn [negb andb]. apply bool_decide_eq_true.
  assert (occurs " " (a +:+ String " " b) = true) as Ho.
  { rewrite occurs_app. cbn [occurs]. change (Ascii.eqb " " " ") with true.
    by rewrite orb_true_r. }
  split; intros Heq; by rewrite Heq in Ho.
Qed.

Lemma rm_rf_operands_blank a b :
  simple_name a = true -> all_chars plain_char a = true ->
  nonempty b = true -> all_chars plain_char b = true -> starts_with_dash b = false ->
  rm_rf_operands ("rm -rf " +:+ job_dir_of (a +:+ " " +:+ b))
  = Some [job_dir_of a; b].
Proof.
  intros Ha Hpa Hb Hpb Hdb.
  assert (all_chars plain_char (job_dir_of a) = true) as Hall.
  { unfold job_dir_of. by rewrite all_chars_app, Hpa. }
  assert (forall s, all_chars plain_char s = true -> split_by blank s = [s]) as Hsplit.
  { intros s Hs. apply split_by_none. apply (all_chars_impl plain_char); [|done].
    intros c Hc. by rewrite plain_not_blank. }
  assert ("rm -rf " +:+ job_dir_of (a +:+ " " +:+ b)
          = ("rm -rf" +:+ String " " (job_dir_of a)) +:+ String " " b) as ->.
  { unfold job_dir_of. by rewrite !append_assoc. }
  unfold rm_rf_operands, shell_words.
  rewrite !all_chars_app.
  change (all_chars _ "rm -rf") with true. cbn [all_chars].
  rewrite (all_chars_impl plain_char (fun c => plain_char c || blank c) (job_dir_of a));
    [|intros c ->; done|done].
  rewrite (all_chars_impl plain_char (fun c => plain_char c || blank c) b);
    [|intros c ->; done|done].
  change (plain_char " " || blank " ") with true. cbn [andb].
  rewrite !split_by_app_sep by done.
  rewrite (Hsplit (job_dir_of a)), (Hsplit b) by done.
  change (split_by blank "rm -rf") with ["rm"; "-rf"].
  cbn [app List.filter nonempty].
  assert (nonempty (job_dir_of a) = true) as -> by done.
  rewrite Hb. cbn [forallb]. rewrite Hdb.
  by assert (starts_with_dash (job_dir_of a) = false) as -> by done.
Qed.

(** [rm -rf] on the directory of a job: afterwards nothing has that
    name, and nothing outside of it has changed. *)
Lemma rm_rf_one_job_dir w a :
  simple_name a = true ->
  find (fs (rm_rf_one w (job_dir_of a))) (job_key a) = None
  ∧ cwd (rm_rf_one w (job_dir_of a)) = cwd w
  ∧ forall q, ¬ job_key a `prefix_of` q ->
              shallow_at (fs (rm_rf_one w (job_dir_of a))) q = shallow_at (fs w) q.
Proof.
  intros Ha.
  destruct (rm_rf_one_cases w (job_dir_of a) (job_key a)) as [[-> [e He]]|[-> Hr]].
  - rewrite last_name_job_dir by done. by apply simple_ordinary.
  - done.
  - by apply resolve_job_dir.
  - split; [|done]. destruct (is_dir (fs w) jobs_root) eqn:Hroot.
    + destruct (resolve_job_dir w a Ha) as [_ Hok]. by rewrite Hok in He.
    + by apply (find_below_nondir _ jobs_root [a]).
  - split; [|split; [done|]].
    + cbn [fs with_fs]. rewrite <- (app_nil_r (job_key a)) at 2. by rewrite find_removed.
    + intros q Hq. cbn [fs with_fs]. by apply shallow_at_update_frame.
Qed.

(** Removing an entry creates none. *)
Lemma find_None_removed n p q :
  p ≠ [] -> find n q = None -> find (update p (fun _ => None) n) q = None.
Proof.
  intros Hp Hq. destruct (decide (p `prefix_of` q)) as [[r ->]|Hpre].
  - by apply find_removed.
  - pose proof (shallow_at_update_frame p (fun _ => None) n q Hpre) as H.
    unfold shallow_at in H. rewrite Hq in H.
    by destruct (find (update p _ n) q).
Qed.

(** X20.  The name of a job goes into the [rm -rf] command line as it
    is.  For a job called [a b], with a blank between two plain words,
    [delete_job] answers that the job was deleted, and the job is still
    there: what the command removed is the job called [a] and the entry
    [b] of the working directory. *)
Theorem delete_job_name_with_blank E w a b :
  simple_name a = true -> all_chars plain_char a = true ->
  simple_name b = true -> all_chars plain_char b = true ->
  starts_with_dash b = false ->
  is_dir (fs w) (job_key (a +:+ " " +:+ b)) = true ->
  ¬ (cwd w ++ [b])%list `prefix_of` job_key (a +:+ " " +:+ b) ->
  spawn_error E ("rm -rf " +:+ job_dir_of (a +:+ " " +:+ b)) w = None ->
  exists w',
    Jobs.delete_job E (Some (a +:+ " " +:+ b)) w
    = Ret (PDict [("success", PInt 1); ("message", PStr "Job deleted")]) w'
    ∧ os_path_isdir (job_dir_of (a +:+ " " +:+ b)) w' = Ret true w'
    ∧ os_path_exists (job_dir_of a) w' = Ret false w'
    ∧ os_path_exists b w' = Ret false w'.
Proof.
  intros Ha Hpa Hb Hpb Hdb Hd Hout Hs.
  pose proof (simple_name_blank a b Ha Hb) as Hab.
  pose proof Hb as (Hbs & Hbo & Hbn & Hbe)%simple_name_spec.
  assert (is_absolute b = false) as Hrel.
  { destruct b as [|c b]; [done|]. cbn. apply andb_prop in Hpb as [Hc _].
    destruct (Ascii.eqb c slash) eqn:Hcs; [|done].
    apply Ascii.eqb_eq in Hcs as ->. unfold simple_name in Hb. by cbn in Hb. }
  exists (rm_rf_one (rm_rf_one w (job_dir_of a)) b). split.
  { unfold Jobs.delete_job, Jobs._dirty_rm_rf, subprocess_call.
    unfold bind at 1. unfold try_except. unfold bind at 1. unfold ret at 1.
    unfold bind at 1. unfold str_concat, ret at 1.
    fold (job_dir_of (a +:+ " " +:+ b)).
    unfold bind at 1. rewrite isdir_job_dir, Hd by done.
    cbn [negb]. unfold bind at 1, ret at 1. unfold bind at 1. unfold bind at 1.
    by rewrite Hs, rm_rf_operands_blank. }
  destruct (rm_rf_one_job_dir w a Ha) as (Hgone1 & Hcwd1 & Hframe1).
  set (w1 := rm_rf_one w (job_dir_of a)) in *.
  destruct (rm_rf_one_relative w1 b) as (Hgone2 & Hcwd2 & Hframe2); try done.
  rewrite Hcwd1 in Hframe2.
  assert (¬ job_key a `prefix_of` job_key (a +:+ " " +:+ b)) as Hne.
  { intros [r Hr]. unfold job_key, jobs_root in Hr.
    rewrite <- app_assoc in Hr. apply app_inv_head in Hr.
    assert (a +:+ " " +:+ b = a) as Heq by (cbn [app] in Hr; congruence).
    pose proof (occurs_blank_plain a Hpa) as Ho. rewrite <- Heq in Ho.
    rewrite occurs_app in Ho. change (" " +:+ b) with (String " " b) in Ho.
    cbn [occurs] in Ho. change (Ascii.eqb " " " ") with true in Ho.
    by rewrite orb_true_r in Ho. }
  split; [|split].
  - rewrite isdir_job_dir by done.
    by rewrite is_dir_shallow, Hframe2, Hframe1, <- is_dir_shallow, Hd.
  - unfold os_path_exists. rewrite path_kind_job_dir by done. unfold kind_at.
    assert (find (fs (rm_rf_one w1 b)) (job_key a) = None) as ->; [|done].
    unfold rm_rf_one. case_decide; [done|].
    destruct (resolve w1 b) as [e|[|c p]]; try done.
    cbn [fs with_fs]. by apply find_None_removed.
  - unfold os_path_exists. by rewrite Hgone2.
Qed.

Lemma delete_job_name_with_blank_witness :
  os_path_isdir (job_dir_of "a") Demo.w_ab = Ret true Demo.w_ab
  ∧ exists w',
      Jobs.delete_job Demo.E (Some "a b") Demo.w_ab
      = Ret (PDict [("success", PInt 1); ("message", PStr "Job deleted")]) w'
      ∧ os_path_isdir (job_dir_of "a b") w' = Ret true w'
      ∧ os_path_exists (job_dir_of "a") w' = Ret false w'
      ∧ os_path_exists "b" w' = Ret false w'.
Proof.
  split; [vm_compute; reflexivity|].
  apply (delete_job_name_with_blank Demo.E Demo.w_ab "a" "b");
    try (vm_compute; reflexivity).
  intros [r Hr]. vm_compute in Hr. discriminate Hr.
Defined.

(** *** Quoting *)

Lemma substring_append s t : String.substring 0 (String.length s) (s +:+ t) = s.
Proof.
  induction s as [|c s IH]; simpl; [by destruct t|]. by rewrite IH.
Qed.

Lemma length_append s t :
  String.length (s +:+ t) = String.length s + String.length t.
Proof. induction s as [|c s IH]; simpl; [done|]. by rewrite IH. Qed.

(** X21.  [_quote_string] puts one quote character before the string and
    the same one after it, the single quote unless the flag is false: the
    result is two characters longer, begins and ends with that character,
    and what stands between them is the string. *)
Theorem quote_string_round_trip (s : string) (SingleQuote : bool) :
  let q := if SingleQuote then "'"%char else ascii_of_nat 34 in
  String.length (Jobs._quote_string s SingleQuote) = S (S (String.length s))
  ∧ String.get 0 (Jobs._quote_string s SingleQuote) = Some q
  ∧ String.get (S (String.length s)) (Jobs._quote_string s SingleQuote) = Some q
  ∧ String.substring 1 (String.length s) (Jobs._quote_string s SingleQuote) = s.
Proof.
  cbv zeta. unfold Jobs._quote_string, dquote.
  assert (forall q, String.get (String.length s) (s +:+ String q EmptyString) = Some q)
    as Hlast by (intros q; induction s as [|c s IH]; simpl; done).
  destruct SingleQuote; cbn [String.append String.length String.get String.substring];
    rewrite length_append, substring_append, Hlast; cbn [String.length];
    (split; [by rewrite Nat.add_1_r|done]).
Qed.

(** *** A run that raises leaves its scratch directory behind *)

(** The validation in [run_job] on a record that [json.loads] rejects. *)
Lemma run_try_unparsed E w name text e rc :
  simple_name name = true ->
  read_at (fs w) (config_key name) = Some text ->
  json_loads E text = inl e ->
  Jobs.run_try E (job_dir_of name) (job_dir_of name +:+ "/" +:+ "config.json") rc w
  = Ret (rc, Some e) w.
Proof.
  intros Hn Hr Hl. destruct (config_above _ _ _ Hr) as [Hj Hroot].
  unfold Jobs.run_try. unfold bind at 1. rewrite isdir_job_dir, Hj by done.
  cbn [negb]. unfold bind at 1, ret at 1. unfold bind at 1.
  rewrite isfile_job_config, (is_file_read_at _ _ _ Hr) by done.
  cbn [negb]. unfold bind at 1, ret at 1. unfold bind at 1.
  rewrite (read_job_file_present w name text) by done.
  unfold bind at 1. unfold py_json_loads, lift. by rewrite Hl.
Qed.

(** C8 (the code departs from the claim).  The removal of the scratch
    directory stands after the [try] statement of [run_job], not in a
    [finally] clause.  For a job whose record [json.loads] rejects with an
    exception that no handler of [run_job] names (a [ValueError], for a
    record that is not JSON), [run_job] ends by raising that exception in
    the world in which it had just made the scratch directory: the
    directory, which was not there before the call, is there after it. *)
Theorem run_job_leaks_workspace E w name text e :
  simple_name name = true ->
  read_at (fs w) (config_key name) = Some text ->
  json_loads E text = inl e ->
  cls e ∉ [OSError; CalledProcessError; SystemError; KeyError] ->
  is_dir (fs w) ["tmp"] = true ->
  find (fs w) (tmp_key E w) = None ->
  os_path_exists (tmp_cwd_of E w) w = Ret false w
  ∧ Jobs.run_job E (Some name) w = Raise e (allocated E w)
  ∧ os_path_isdir (tmp_cwd_of E w) (allocated E w) = Ret true (allocated E w).
Proof.
  intros Hn Hr Hl Hcls Hd Hf. split; [|split].
  - unfold os_path_exists, path_kind, tmp_cwd_of. rewrite nul_tmp.
    destruct (resolve_tmp w (uuid_v4 (urandom E (drawn w)))) as [_ Hok].
    rewrite Hok by done. fold (tmp_key E w). unfold kind_at. by rewrite Hf.
  - unfold Jobs.run_job.
    unfold bind at 1. unfold str_concat, ret at 1. fold (job_dir_of name).
    unfold bind at 1. change (uuid4 E w) with (Ret (uuid_v4 (urandom E (drawn w))) (drew w)).
    cbv beta iota. fold (tmp_cwd_of E w).
    unfold bind at 1. rewrite os_mkdir_tmp by done.
    unfold bind at 1.
    rewrite (run_try_unparsed E _ name text e) by (by rewrite ?allocated_keeps_config).
    unfold bind at 1.
    rewrite bool_decide_eq_false_2.
    2: { intros H. apply Hcls. rewrite !elem_of_cons in H. rewrite !elem_of_cons.
         tauto. }
    rewrite bool_decide_eq_false_2; [done|].
    intros H. apply Hcls. rewrite !elem_of_cons. tauto.
  - unfold os_path_isdir.
    by rewrite (os_mkdir_makes (tmp_cwd_of E w) (drew w) (allocated E w))
      by (by apply os_mkdir_tmp).
Qed.

Lemma run_job_leaks_workspace_witness :
  os_path_exists (tmp_cwd_of Demo.E Demo.w_corrupt) Demo.w_corrupt
  = Ret false Demo.w_corrupt
  ∧ Jobs.run_job Demo.E (Some "broken") Demo.w_corrupt
    = Raise (Exn ValueError "Expecting value") (allocated Demo.E Demo.w_corrupt)
  ∧ os_path_isdir (tmp_cwd_of Demo.E Demo.w_corrupt) (allocated Demo.E Demo.w_corrupt)
    = Ret true (allocated Demo.E Demo.w_corrupt).
Proof.
  apply (run_job_leaks_workspace Demo.E Demo.w_corrupt "broken" "{"
           (Exn ValueError "Expecting value"));
    try (vm_compute; reflexivity).
  apply (proj1 (bool_decide_eq_false _)). vm_compute. reflexivity.
Defined.
